(** * Image service: the Lambda handlers and their validators

    A shallow embedding of the handlers of the image service
    ([src/handlers/*.py]), of the validators ([src/utils/validators.py]),
    of the response helpers ([src/utils/response_helpers.py]) and of the
    constants of [src/config.py], followed by the properties of the
    specification that were checked against them.

    Python values are modelled by the type [value]; a Python [str] is a
    Rocq [string] whose characters stand for code points below 256.
    The two stores (the DynamoDB table and the S3 bucket) are explicit
    state; every call to a store is recorded in a trace; failures of the
    stores and the other sources of non-determinism (uuid, clock, JSON
    codec, presigner, scan) are supplied by an environment. *)

From Stdlib Require Import ZArith NArith String Ascii List Lia Bool DecimalString.
From Stdlib.Strings Require Byte.
From stdpp Require Import base option gmap strings list.

Set Warnings "-register-all".
Local Open Scope string_scope.
Local Open Scope Z_scope.

(** ** Python values *)

(** JSON documents, DynamoDB attributes and the objects the handlers build
    are all values of this type.  Numbers with a fractional part do not
    occur in any value a handler inspects and are left out. *)
Inductive value :=
| VNone
| VBool (b : bool)
| VInt (z : Z)
| VStr (s : string)
| VList (l : list value)
| VDict (d : gmap string value).

Abbreviation dict := (gmap string value).
Abbreviation bytes := (list Byte.byte).

(** Truth value of an object, as [if x:] and [not x] take it. *)
Definition truthy (v : value) : bool :=
  match v with
  | VNone => false
  | VBool b => b
  | VInt z => negb (z =? 0)
  | VStr s => negb (String.eqb s "")
  | VList l => match l with [] => false | _ => true end
  | VDict d => negb (bool_decide (d = ∅))
  end.

(** [d.get(k)]: the value under [k], [None] when the key is missing. *)
Definition dict_get (d : dict) (k : string) : value := default VNone (d !! k).

(** [o or {}] for an optional string map of an API Gateway event. *)
Definition or_empty (o : option (gmap string string)) : gmap string string :=
  default ∅ o.

(** [m.get(k)] on a map of strings, as a Python object. *)
Definition get_str (m : gmap string string) (k : string) : value :=
  match m !! k with Some s => VStr s | None => VNone end.

(** ** String built-ins *)

Module PyStr.

Definition code (c : ascii) : N := N_of_ascii c.

(** [str.isspace] on one character (code points below 256). *)
Definition is_space (c : ascii) : bool :=
  let n := code c in
  ((9 <=? n) && (n <=? 13) || (28 <=? n) && (n <=? 32)
   || (n =? 133) || (n =? 160))%N.

Fixpoint lstrip (s : string) : string :=
  match s with
  | EmptyString => EmptyString
  | String c r => if is_space c then lstrip r else s
  end.

Fixpoint rstrip (s : string) : string :=
  match s with
  | EmptyString => EmptyString
  | String c r =>
      match rstrip r with
      | EmptyString => if is_space c then EmptyString else String c EmptyString
      | r' => String c r'
      end
  end.

(** [s.strip()] *)
Definition strip (s : string) : string := rstrip (lstrip s).

(** [s.split(',')]: never empty, [''.split(',') == ['']]. *)
Fixpoint split_comma (s : string) : list string :=
  match s with
  | EmptyString => [EmptyString]
  | String c r =>
      if Ascii.eqb c "," then EmptyString :: split_comma r
      else match split_comma r with
           | h :: t => String c h :: t
           | [] => [String c EmptyString]
           end
  end.

(** [c.lower()] on one character. *)
Definition lower_char (c : ascii) : ascii :=
  let n := code c in
  if ((65 <=? n) && (n <=? 90)
      || (192 <=? n) && (n <=? 222) && negb (n =? 215))%N
  then ascii_of_N (n + 32) else c.

Fixpoint lower (s : string) : string :=
  match s with
  | EmptyString => EmptyString
  | String c r => String (lower_char c) (lower r)
  end.

(** [sub in s] for two strings. *)
Fixpoint contains (sub s : string) : bool :=
  String.prefix sub s
  || match s with
     | EmptyString => false
     | String _ r => contains sub r
     end.

(** The text after the last ['.'] of [s], if [s] has one. *)
Fixpoint after_last_dot (s : string) : option string :=
  match s with
  | EmptyString => None
  | String c r =>
      match after_last_dot r with
      | Some e => Some e
      | None => if Ascii.eqb c "." then Some r else None
      end
  end.

(** [s.rsplit('.', 1)[-1]] *)
Definition rsplit_dot_last (s : string) : string :=
  default s (after_last_dot s).

Definition is_digit (c : ascii) : bool :=
  ((48 <=? code c) && (code c <=? 57))%N.

Definition digit_val (c : ascii) : Z := Z.of_N (code c) - 48.

(** The white space [int()] skips around a literal: the ASCII white
    space of C and, of the other characters below 256, the two that are
    white space and not ASCII, which the conversion first turns into
    spaces.  The separators 28 to 31, white space for [str.strip], are
    not skipped. *)
Definition int_space (c : ascii) : bool :=
  let n := code c in
  ((9 <=? n) && (n <=? 13) || (n =? 32) || (n =? 133) || (n =? 160))%N.

Fixpoint skip_spaces (s : string) : string :=
  match s with
  | EmptyString => EmptyString
  | String c r => if int_space c then skip_spaces r else s
  end.

(** The run of digits and underscores at the head of [s]: its value, the
    number of its digits and what follows it.  An underscore stands
    between two digits only; [None] when the run has no digit or a
    misplaced underscore. *)
Fixpoint digit_run (s : string) (acc : Z) (after_digit : bool) (digits : nat)
  : option (Z * nat * string) :=
  match s with
  | EmptyString => if after_digit then Some (acc, digits, s) else None
  | String c r =>
      if is_digit c then digit_run r (10 * acc + digit_val c) true (S digits)
      else if Ascii.eqb c "_" then
        if after_digit then digit_run r acc false digits else None
      else if after_digit then Some (acc, digits, s) else None
  end.

(** How [int(s)] reads a string. *)
Inductive int_reading :=
| IntValue (n : Z)
| InvalidLiteral
| TooManyDigits (digits : nat).

(** [int(s)]: white space, a sign, the digits, white space.  The digits
    are counted, and checked against the interpreter's limit on integer
    string conversion (4300, its default), before what follows them is
    looked at. *)
Definition read_int (s : string) : int_reading :=
  let t := skip_spaces s in
  let '(negative, u) :=
    match t with
    | String "+" r => (false, r)
    | String "-" r => (true, r)
    | _ => (false, t)
    end in
  match digit_run u 0 false 0 with
  | None => InvalidLiteral
  | Some (n, digits, rest) =>
      if (4300 <? digits)%nat then TooManyDigits digits
      else
        match skip_spaces rest with
        | EmptyString => IntValue (if negative then - n else n)
        | _ => InvalidLiteral
        end
  end.

End PyStr.

(** ** [len(str(v))]

    The validators measure [len(str(x))].  For a string this is its
    length; for the other objects it is the length of their rendering:
    [repr] of the elements of a list or dictionary, with the quoting and
    escaping [repr] applies to strings. *)

Module PyRepr.

(** Number of characters [repr] writes for one character of a string,
    given whether the literal is delimited by single quotes. *)
Definition char_len (single : bool) (c : ascii) : nat :=
  let n := PyStr.code c in
  if (n =? 92)%N then 2%nat                          (* backslash *)
  else if ((n =? 9) || (n =? 10) || (n =? 13))%N then 2%nat
  else if (n =? 39)%N then (if single then 2 else 1)%nat
  else if ((n <? 32) || (127 <=? n) && (n <=? 160) || (n =? 173))%N
       then 4%nat                                    (* \xHH *)
  else 1%nat.

Fixpoint has_char (c : ascii) (s : string) : bool :=
  match s with
  | EmptyString => false
  | String c' r => Ascii.eqb c c' || has_char c r
  end.

Fixpoint chars_len (single : bool) (s : string) : nat :=
  match s with
  | EmptyString => 0%nat
  | String c r => (char_len single c + chars_len single r)%nat
  end.

Definition dquote : ascii := ascii_of_N 34.

(** [len(repr(s))]: double quotes are chosen when [s] has a single quote
    and no double quote. *)
Definition str_repr_len (s : string) : nat :=
  let single := negb (has_char "'" s && negb (has_char dquote s)) in
  (2 + chars_len single s)%nat.

Definition backslash : ascii := ascii_of_N 92.

Definition hex_digit (n : N) : ascii :=
  if (n <? 10)%N then ascii_of_N (48 + n) else ascii_of_N (87 + n).

(** What [repr] writes for one character of a string, given whether the
    literal is delimited by single quotes. *)
Definition char_repr (single : bool) (c : ascii) : string :=
  let n := PyStr.code c in
  if (n =? 92)%N then String backslash (String backslash EmptyString)
  else if (n =? 9)%N then String backslash "t"
  else if (n =? 10)%N then String backslash "n"
  else if (n =? 13)%N then String backslash "r"
  else if (n =? 39)%N then
    (if single then String backslash "'" else "'")
  else if ((n <? 32) || (127 <=? n) && (n <=? 160) || (n =? 173))%N then
    String backslash
      (String "x" (String (hex_digit (n / 16)) (String (hex_digit (n mod 16))
         EmptyString)))
  else String c EmptyString.

Fixpoint chars_repr (single : bool) (s : string) : string :=
  match s with
  | EmptyString => EmptyString
  | String c r => char_repr single c +:+ chars_repr single r
  end.

(** [repr(s)] *)
Definition str_repr (s : string) : string :=
  let single := negb (has_char "'" s && negb (has_char dquote s)) in
  let quote := if single then "'"%char else dquote in
  String quote (chars_repr single s +:+ String quote EmptyString).

(** [len(str(z))] for an integer. *)
Definition int_len (z : Z) : nat :=
  String.length (DecimalString.NilZero.string_of_int (Z.to_int z)).

(** Length of [', '.join(parts)] from the lengths of the parts. *)
Definition joined_len (parts : list nat) : nat :=
  (list_sum parts + 2 * pred (List.length parts))%nat.

(** [len(repr(v))] *)
Fixpoint repr_len (v : value) : nat :=
  match v with
  | VNone => 4%nat
  | VBool b => if b then 4%nat else 5%nat
  | VInt z => int_len z
  | VStr s => str_repr_len s
  | VList l => (2 + joined_len (List.map repr_len l))%nat
  | VDict d =>
      (2 + joined_len
             (map_fold (fun k x acc =>
                          (str_repr_len k + 2 + repr_len x)%nat :: acc) [] d))%nat
  end.

(** [len(str(v))] *)
Definition str_len (v : value) : nat :=
  match v with
  | VStr s => String.length s
  | _ => repr_len v
  end.

End PyRepr.

(** ** Exceptions *)

(** The exception classes the handlers distinguish.  [JSONDecodeError]
    is a subclass of [ValueError], as is [binascii.Error], which is
    raised as [ValueError] here; [ClientError] stands for every error of
    the AWS client library other than [NoSuchKey]; [RecursionError] is
    none of the others. *)
Inductive exn :=
| ValueError (msg : string)
| JSONDecodeError (msg : string)
| TypeError (msg : string)
| AttributeError (msg : string)
| NoSuchKey (msg : string)
| ClientError (msg : string)
| RecursionError (msg : string).

(** [str(e)] *)
Definition exn_msg (e : exn) : string :=
  match e with
  | ValueError m | JSONDecodeError m | TypeError m
  | AttributeError m | NoSuchKey m | ClientError m | RecursionError m => m
  end.

(** [isinstance(e, ValueError)] *)
Definition is_ValueError (e : exn) : bool :=
  match e with ValueError _ | JSONDecodeError _ => true | _ => false end.

Definition is_JSONDecodeError (e : exn) : bool :=
  match e with JSONDecodeError _ => true | _ => false end.

Definition is_NoSuchKey (e : exn) : bool :=
  match e with NoSuchKey _ => true | _ => false end.

Inductive result (A : Type) :=
| Ok (a : A)
| Raise (e : exn).
Arguments Ok {A} a.
Arguments Raise {A} e.

Definition result_map {A B} (f : A -> B) (r : result A) : result B :=
  match r with Ok a => Ok (f a) | Raise e => Raise e end.

(** ** [int(s)] *)

Module PyInt.

(** The messages of the [ValueError] of [int(s)]; the first shows at
    most 200 characters of [repr(s)]. *)
Definition invalid_literal (s : string) : string :=
  "invalid literal for int() with base 10: "
  +:+ String.substring 0 200 (PyRepr.str_repr s).

Definition too_many_digits (digits : nat) : string :=
  "Exceeds the limit (4300 digits) for integer string conversion: value has "
  +:+ DecimalString.NilZero.string_of_uint (Nat.to_uint digits)
  +:+ " digits; use sys.set_int_max_str_digits() to increase the limit".

(** [int(s)] for a string [s] *)
Definition py_int (s : string) : result Z :=
  match PyStr.read_int s with
  | PyStr.IntValue n => Ok n
  | PyStr.InvalidLiteral => Raise (ValueError (invalid_literal s))
  | PyStr.TooManyDigits digits => Raise (ValueError (too_many_digits digits))
  end.

End PyInt.

(** ** Base64 ([base64.b64encode], [base64.b64decode])

    The encoder is the standard one with [=] padding.  The decoder follows
    [binascii.a2b_base64] in its default, non-strict mode: characters
    outside the alphabet are skipped, and a sufficient pad sequence ends
    the decoding. *)

Module Base64.

Definition alphabet : string :=
  "ABCDEFGHIJKLMNOPQRSTUVWXYZabcdefghijklmnopqrstuvwxyz0123456789+/".

Definition pad : ascii := "=".

(** [table_b2a_base64] *)
Definition b2a (n : N) : ascii :=
  default "A"%char (String.get (N.to_nat n) alphabet).

(** [table_a2b_base64]; [None] for a character outside the alphabet. *)
Definition a2b (c : ascii) : option N :=
  let n := PyStr.code c in
  if ((65 <=? n) && (n <=? 90))%N then Some (n - 65)%N
  else if ((97 <=? n) && (n <=? 122))%N then Some (n - 71)%N
  else if ((48 <=? n) && (n <=? 57))%N then Some (n + 4)%N
  else if (n =? 43)%N then Some 62%N
  else if (n =? 47)%N then Some 63%N
  else None.

(** Storing into an [unsigned char]. *)
Definition byte_of_N (n : N) : Byte.byte :=
  default Byte.x00 (Byte.of_N (n mod 256)).

Definition sextet0 (x : N) : N := N.shiftr x 2.
Definition sextet1 (x y : N) : N :=
  N.lor (N.shiftl (N.land x 3) 4) (N.shiftr y 4).
Definition sextet2 (y z : N) : N :=
  N.lor (N.shiftl (N.land y 15) 2) (N.shiftr z 6).
Definition sextet3 (z : N) : N := N.land z 63.

(** [binascii.b2a_base64(data, newline=False)] *)
Fixpoint b2a_base64 (data : bytes) : string :=
  match data with
  | [] => EmptyString
  | [b0] =>
      let x := Byte.to_N b0 in
      String (b2a (sextet0 x)) (String (b2a (sextet1 x 0))
        (String pad (String pad EmptyString)))
  | [b0; b1] =>
      let x := Byte.to_N b0 in
      let y := Byte.to_N b1 in
      String (b2a (sextet0 x)) (String (b2a (sextet1 x y))
        (String (b2a (sextet2 y 0)) (String pad EmptyString)))
  | b0 :: b1 :: b2 :: r =>
      let x := Byte.to_N b0 in
      let y := Byte.to_N b1 in
      let z := Byte.to_N b2 in
      String (b2a (sextet0 x)) (String (b2a (sextet1 x y))
        (String (b2a (sextet2 y z)) (String (b2a (sextet3 z))
          (b2a_base64 r))))
  end.

Definition N_to_string (n : N) : string :=
  DecimalString.NilZero.string_of_uint (N.to_uint n).

(** The loop of [a2b_base64]: [quad_pos], [leftchar] and [pads] are the
    variables of the C function, [emitted] counts the bytes written. *)
Fixpoint a2b_loop (s : string) (quad_pos : nat) (leftchar : N) (pads : nat)
    (emitted : N) : result bytes :=
  match s with
  | EmptyString =>
      match quad_pos with
      | O => Ok []
      | 1%nat =>
          Raise (ValueError
            ("Invalid base64-encoded string: number of data characters ("
             +:+ N_to_string (emitted / 3 * 4 + 1)
             +:+ ") cannot be 1 more than a multiple of 4"))
      | _ => Raise (ValueError "Incorrect padding")
      end
  | String c r =>
      if Ascii.eqb c pad then
        if (2 <=? quad_pos)%nat then
          if (4 <=? quad_pos + S pads)%nat then Ok []
          else a2b_loop r quad_pos leftchar (S pads) emitted
        else a2b_loop r quad_pos leftchar pads emitted
      else
        match a2b c with
        | None => a2b_loop r quad_pos leftchar pads emitted
        | Some this_ch =>
            match quad_pos with
            | O => a2b_loop r 1 this_ch 0 emitted
            | 1%nat =>
                result_map
                  (cons (byte_of_N (N.lor (N.shiftl leftchar 2)
                                          (N.shiftr this_ch 4))))
                  (a2b_loop r 2 (N.land this_ch 15) 0 (emitted + 1))
            | 2%nat =>
                result_map
                  (cons (byte_of_N (N.lor (N.shiftl leftchar 4)
                                          (N.shiftr this_ch 2))))
                  (a2b_loop r 3 (N.land this_ch 3) 0 (emitted + 1))
            | _ =>
                result_map
                  (cons (byte_of_N (N.lor (N.shiftl leftchar 6) this_ch)))
                  (a2b_loop r 0 0 0 (emitted + 1))
            end
        end
  end.

Definition a2b_base64 (s : string) : result bytes := a2b_loop s 0 0 0 0.

Fixpoint is_ascii (s : string) : bool :=
  match s with
  | EmptyString => true
  | String c r => (PyStr.code c <? 128)%N && is_ascii r
  end.

(** [base64.b64decode(s)] for a string [s] *)
Definition b64decode (s : string) : result bytes :=
  if is_ascii s then a2b_base64 s
  else Raise (ValueError "string argument should contain only ASCII characters").

(** [base64.b64encode(data).decode('utf-8')] *)
Definition b64encode (data : bytes) : string := b2a_base64 data.

End Base64.

(** ** [config.py] *)

Module Config.
Definition S3_BUCKET_NAME : string := "image-storage-bucket".
Definition DYNAMODB_TABLE_NAME : string := "ImageMetadata".
Definition ALLOWED_EXTENSIONS : gset string :=
  {[ "png"; "jpg"; "jpeg"; "gif"; "webp" ]}.
Definition MAX_IMAGE_SIZE_MB : Z := 10.
Definition MAX_IMAGE_SIZE_BYTES : Z := MAX_IMAGE_SIZE_MB * 1024 * 1024.
Definition DEFAULT_PAGE_SIZE : Z := 20.
Definition MAX_PAGE_SIZE : Z := 100.
End Config.

(** ** [utils/validators.py] *)

Module Validators.
Import Config.

(** [filename.rsplit('.', 1)[-1].lower() if '.' in filename else ''].
    For a list or a dictionary [in] is a membership test, and a member
    ['.'] then leads to the missing method [rsplit]; the other objects
    do not support [in]. *)
Definition extension_of (filename : value) : result string :=
  match filename with
  | VStr s =>
      Ok (if PyStr.contains "." s
          then PyStr.lower (PyStr.rsplit_dot_last s) else "")
  | VList l =>
      if existsb (fun x => match x with
                           | VStr t => String.eqb t "."
                           | _ => false
                           end) l
      then Raise (AttributeError "'list' object has no attribute 'rsplit'")
      else Ok ""
  | VDict d =>
      if bool_decide (is_Some (d !! "."))
      then Raise (AttributeError "'dict' object has no attribute 'rsplit'")
      else Ok ""
  | _ => Raise (TypeError "argument is not iterable")
  end.

(** [base64.b64decode(image_data)] on an arbitrary object. *)
Definition b64decode_value (image_data : value) : result bytes :=
  match image_data with
  | VStr s => Base64.b64decode s
  | _ => Raise (TypeError
                  "argument should be a bytes-like object or ASCII string")
  end.

Definition size_of (data : bytes) : Z := Z.of_nat (List.length data).

Definition validate_image_file (image_data filename : value)
  : result (bool * option string) :=
  if negb (truthy image_data) then Ok (false, Some "Image data is required")
  else if negb (truthy filename) then Ok (false, Some "Filename is required")
  else
    match extension_of filename with
    | Raise e => Raise e
    | Ok extension =>
        if negb (bool_decide (extension ∈ ALLOWED_EXTENSIONS)) then
          Ok (false,
              Some ("File extension '" +:+ extension
                    +:+ "' not allowed. Allowed: "
                    +:+ String.concat ", " (elements ALLOWED_EXTENSIONS)))
        else
          match b64decode_value image_data with
          | Ok decoded_data =>
              if MAX_IMAGE_SIZE_BYTES <? size_of decoded_data then
                Ok (false,
                    Some "Image size exceeds maximum allowed size of 10MB")
              else Ok (true, None)
          | Raise e =>
              Ok (false, Some ("Invalid base64 image data: " +:+ exn_msg e))
          end
    end.

(** The test of the loop over the tags:
    [not isinstance(tag, str) or len(tag) > 50]. *)
Definition bad_tag (tag : value) : bool :=
  match tag with
  | VStr t => (50 <? String.length t)%nat
  | _ => true
  end.

Definition too_long (limit : nat) (o : option value) : bool :=
  match o with
  | Some v => (limit <? PyRepr.str_len v)%nat
  | None => false
  end.

(** The checks of the fields of a metadata dictionary. *)
Definition metadata_checks (m : dict) : bool * option string :=
  if too_long 256 (m !! "title") then
    (false, Some "Title must be 256 characters or less")
  else if too_long 2048 (m !! "description") then
    (false, Some "Description must be 2048 characters or less")
  else
    match m !! "tags" with
    | Some (VList tags) =>
        if (20 <? List.length tags)%nat then
          (false, Some "Maximum 20 tags allowed")
        else if existsb bad_tag tags then
          (false,
           Some "Each tag must be a string of 50 characters or less")
        else (true, None)
    | Some _ => (false, Some "Tags must be a list")
    | None => (true, None)
    end.

Definition validate_metadata (metadata : value) : bool * option string :=
  if negb (truthy metadata) then (true, None)
  else
    match metadata with
    | VDict m => metadata_checks m
    | _ => (false, Some "Metadata must be a dictionary")
    end.

Definition validate_image_id (image_id : value) : bool * option string :=
  if negb (truthy image_id) then (false, Some "Image ID is required")
  else
    match image_id with
    | VStr s =>
        if (128 <? String.length s)%nat
        then (false, Some "Image ID is too long")
        else (true, None)
    | _ => (false, Some "Image ID must be a string")
    end.

Definition validate_user_id (user_id : value) : bool * option string :=
  if negb (truthy user_id) then (false, Some "User ID is required")
  else
    match user_id with
    | VStr s =>
        if (128 <? String.length s)%nat
        then (false, Some "User ID is too long")
        else (true, None)
    | _ => (false, Some "User ID must be a string")
    end.

End Validators.

(** ** [utils/response_helpers.py] *)

(** An API Gateway response.  [body] is the object handed to
    [json.dumps]; its serialisation is not modelled. *)
Record response := {
  statusCode : Z;
  headers : gmap string string;
  body : value
}.

Module ResponseHelpers.

Definition default_headers : gmap string string :=
  <["Content-Type" := "application/json"]>
 (<["Access-Control-Allow-Origin" := "*"]>
 (<["Access-Control-Allow-Headers" :=
      "Content-Type,X-Amz-Date,Authorization,X-Api-Key"]>
 (<["Access-Control-Allow-Methods" := "GET,POST,PUT,DELETE,OPTIONS"]> ∅))).

Definition create_response (status_code : Z) (body : value)
    (hdrs : option (gmap string string)) : response :=
  {| statusCode := status_code;
     headers := match hdrs with
                | Some h => if bool_decide (h = ∅) then default_headers
                            else h ∪ default_headers
                | None => default_headers
                end;
     body := body |}.

Definition opt_str (o : option string) : value :=
  match o with Some s => VStr s | None => VNone end.

Definition create_error_response (status_code : Z) (error_message : value)
    (error_code : option string) : response :=
  let error : dict := {[ "message" := error_message ]} in
  let error :=
    match error_code with
    | Some c => if negb (String.eqb c "")
                then <["code" := VStr c]> error else error
    | None => error
    end in
  create_response status_code (VDict {[ "error" := VDict error ]}) None.

Definition create_success_response (data : value) (message : option string)
    (status_code : Z) : response :=
  let body : dict := {[ "data" := data ]} in
  let body :=
    match message with
    | Some m => if negb (String.eqb m "")
                then <["message" := VStr m]> body else body
    | None => body
    end in
  create_response status_code (VDict body) None.

End ResponseHelpers.

(** ** The two stores and the environment *)

(** Filter conditions of [boto3.dynamodb.conditions], as the list handler
    builds them from [Attr(name)]. *)
Inductive cond :=
| Equals (attr val : string)
| Contains (attr val : string)
| GreaterThanEquals (attr val : string)
| LessThanEquals (attr val : string)
| And (a b : cond)
| Or (a b : cond).

Record scan_params := {
  Limit : Z;
  FilterExpression : option cond;
  ExclusiveStartKey : option value
}.

Record scan_response := {
  Items : list dict;
  ScannedCount : Z;
  LastEvaluatedKey : option value
}.

Record s3_object := {
  Body : bytes;
  ContentType : string
}.

(** The calls a handler makes to the stores. *)
Inductive call :=
| GetItem (image_id : value)
| PutItem (it : dict)
| DeleteItem (image_id : value)
| Scan (p : scan_params)
| PutObject (key : string) (data : bytes) (content_type : string)
| GetObject (key : value)
| DeleteObject (key : value)
| GeneratePresignedUrl (key : value) (expires_in : Z).

(** The table, keyed by [image_id], the bucket, keyed by object key, and
    the calls made so far, oldest first. *)
Record state := {
  table : gmap string dict;
  bucket : gmap string s3_object;
  trace : list call
}.

(** What a handler does not decide itself: the JSON codec, the uuid and
    the clock of an upload, the answer of the table to a scan, the URL
    the presigner produces, and which calls to a store fail (with which
    exception).  [json.loads] returns the object it reads or raises:
    [JSONDecodeError] on a text that is not JSON, and also
    [RecursionError] on a text nested too deeply and a plain
    [ValueError] on an integer literal beyond the interpreter's digit
    limit. *)
Record Env := {
  json_loads : string -> result value;
  json_dumps : value -> string;
  uuid4 : string;
  utcnow_isoformat : string;
  scan_answer : gmap string dict -> scan_params -> scan_response;
  presigned_url : string -> Z -> string;
  fault : call -> option exn
}.

(** The meaning the table gives to a condition on an item: equality and
    order compare a string attribute with the operand; [contains] is a
    substring test on a string attribute and a membership test on a list
    attribute; a missing attribute satisfies no condition. *)
Fixpoint eval_cond (c : cond) (it : dict) : bool :=
  match c with
  | Equals a v =>
      match it !! a with
      | Some (VStr s) => String.eqb s v
      | _ => false
      end
  | Contains a v =>
      match it !! a with
      | Some (VStr s) => PyStr.contains v s
      | Some (VList l) =>
          existsb (fun x => match x with
                            | VStr s => String.eqb s v
                            | _ => false
                            end) l
      | _ => false
      end
  | GreaterThanEquals a v =>
      match it !! a with
      | Some (VStr s) => String.leb v s
      | _ => false
      end
  | LessThanEquals a v =>
      match it !! a with
      | Some (VStr s) => String.leb s v
      | _ => false
      end
  | And a b => eval_cond a it && eval_cond b it
  | Or a b => eval_cond a it || eval_cond b it
  end.

(** *** A state and exception monad for the handlers *)

Definition M (A : Type) : Type := state -> result A * state.

Definition ret {A} (a : A) : M A := fun st => (Ok a, st).

Definition raise {A} (e : exn) : M A := fun st => (Raise e, st).

Definition bind {A B} (m : M A) (k : A -> M B) : M B :=
  fun st =>
    match m st with
    | (Ok a, st') => k a st'
    | (Raise e, st') => (Raise e, st')
    end.

#[export] Instance M_ret : MRet M := @ret.
#[export] Instance M_bind : MBind M := fun A B k m => bind m k.

Definition lift {A} (r : result A) : M A := fun st => (r, st).

(** [try: body except <class>: handler] *)
Definition try_except {A} (body : M A) (catches : exn -> bool)
    (handler : exn -> M A) : M A :=
  fun st =>
    match body st with
    | (Raise e, st') =>
        if catches e then handler e st' else (Raise e, st')
    | r => r
    end.

Definition any_exception (_ : exn) : bool := true.

(** A handler: its body, and the response of its outermost [except]. *)
Definition run_handler (body : M response) (on_error : exn -> response)
  : state -> response * state :=
  fun st =>
    match body st with
    | (Ok r, st') => (r, st')
    | (Raise e, st') => (on_error e, st')
    end.

(** *** Calls to the stores *)

Definition gets {A} (f : state -> A) : M A := fun st => (Ok (f st), st).

Definition modify (f : state -> state) : M unit := fun st => (Ok tt, f st).

Definition set_table (t : gmap string dict) (st : state) : state :=
  {| table := t; bucket := bucket st; trace := trace st |}.

Definition set_bucket (b : gmap string s3_object) (st : state) : state :=
  {| table := table st; bucket := b; trace := trace st |}.

Definition logged (c : call) (st : state) : state :=
  {| table := table st; bucket := bucket st; trace := trace st ++ [c] |}.

Definition log (c : call) : M unit := modify (logged c).

(** Every call is recorded, then fails if the environment says so. *)
Definition store_call (env : Env) (c : call) : M unit :=
  log c ;;
  match fault env c with
  | Some e => raise e
  | None => ret tt
  end.

(** The client library rejects a key that is not a non-empty string
    before it sends anything. *)
Definition key_string (key : value) : result string :=
  match key with
  | VStr k =>
      if String.eqb k "" then Raise (ClientError "Parameter validation failed")
      else Ok k
  | _ => Raise (ClientError "Parameter validation failed")
  end.

Definition get_item (env : Env) (image_id : value) : M (option dict) :=
  store_call env (GetItem image_id) ;;
  k ← lift (key_string image_id) ;
  gets (fun st => table st !! k).

Definition delete_item (env : Env) (image_id : value) : M unit :=
  store_call env (DeleteItem image_id) ;;
  k ← lift (key_string image_id) ;
  modify (fun st => set_table (delete k (table st)) st).

Definition put_item (env : Env) (it : dict) : M unit :=
  store_call env (PutItem it) ;;
  k ← lift (key_string (dict_get it "image_id")) ;
  modify (fun st => set_table (<[k := it]> (table st)) st).

Definition scan (env : Env) (p : scan_params) : M scan_response :=
  store_call env (Scan p) ;;
  gets (fun st => scan_answer env (table st) p).

Definition put_object (env : Env) (key : string) (data : bytes)
    (content_type : string) : M unit :=
  store_call env (PutObject key data content_type) ;;
  k ← lift (key_string (VStr key)) ;
  modify (fun st =>
            set_bucket (<[k := {| Body := data; ContentType := content_type |}]>
                          (bucket st)) st).

Definition get_object (env : Env) (key : value) : M s3_object :=
  store_call env (GetObject key) ;;
  k ← lift (key_string key) ;
  o ← gets (fun st => bucket st !! k) ;
  match o with
  | Some obj => ret obj
  | None => raise (NoSuchKey "The specified key does not exist.")
  end.

Definition delete_object (env : Env) (key : value) : M unit :=
  store_call env (DeleteObject key) ;;
  k ← lift (key_string key) ;
  modify (fun st => set_bucket (delete k (bucket st)) st).

Definition generate_presigned_url (env : Env) (key : value) (expires_in : Z)
  : M string :=
  store_call env (GeneratePresignedUrl key expires_in) ;;
  k ← lift (key_string key) ;
  ret (presigned_url env k expires_in).

(** An API Gateway proxy event.  The two parameter maps are [None] when
    absent or null (the handlers read them with [or {}]); the body, which
    API Gateway always supplies, is [None] when it is null. *)
Record event := {
  pathParameters : option (gmap string string);
  queryStringParameters : option (gmap string string);
  event_body : option string
}.

(** [d.get(k, dflt)] on a map of strings. *)
Definition get_or (m : gmap string string) (k dflt : string) : string :=
  default dflt (m !! k).

(** [if s:] for the result of [params.get(k)]: present and not empty. *)
Definition provided (o : option string) : bool :=
  match o with
  | Some s => negb (String.eqb s "")
  | None => false
  end.

(** [v != s] for an object [v] and a string [s]. *)
Definition ne_str (v : value) (s : string) : bool :=
  match v with
  | VStr t => negb (String.eqb t s)
  | _ => true
  end.

Definition internal_error (e : exn) : response :=
  ResponseHelpers.create_error_response 500
    (VStr ("Internal server error: " +:+ exn_msg e)) (Some "INTERNAL_ERROR").

(** ** [handlers/get_image.py] *)

Module GetImage.
Import Config Validators ResponseHelpers.

(** The metadata of the response: the listed attributes of the item,
    without those that are [None]. *)
Definition metadata_of (item : dict) : dict :=
  let metadata : dict :=
    <["image_id" := dict_get item "image_id"]>
   (<["user_id" := dict_get item "user_id"]>
   (<["filename" := dict_get item "filename"]>
   (<["content_type" := dict_get item "content_type"]>
   (<["file_size" := dict_get item "file_size"]>
   (<["title" := dict_get item "title"]>
   (<["description" := dict_get item "description"]>
   (<["tags" := dict_get item "tags"]>
   (<["location" := dict_get item "location"]>
   (<["created_at" := dict_get item "created_at"]>
   (<["updated_at" := dict_get item "updated_at"]> ∅)))))))))) in
  omap (fun v => match v with VNone => None | _ => Some v end) metadata.

Definition get_image_body (env : Env) (ev : event) : M response :=
  let path_params := or_empty (pathParameters ev) in
  let image_id := get_str path_params "image_id" in
  let '(is_valid, error_msg) := validate_image_id image_id in
  if negb is_valid then
    ret (create_error_response 400 (opt_str error_msg)
           (Some "INVALID_IMAGE_ID"))
  else
    let query_params := or_empty (queryStringParameters ev) in
    let download :=
      String.eqb (PyStr.lower (get_or query_params "download" "false"))
                 "true" in
    response ← get_item env image_id ;
    match response with
    | None =>
        ret (create_error_response 404 (VStr "Image not found")
               (Some "IMAGE_NOT_FOUND"))
    | Some item =>
        let s3_key := dict_get item "s3_key" in
        if download then
          try_except
            (s3_response ← get_object env s3_key ;
             let image_data := Body s3_response in
             let encoded_image := Base64.b64encode image_data in
             ret (create_response 200
                    (VDict (<["image_id" := image_id]>
                           (<["filename" := dict_get item "filename"]>
                           (<["content_type" := dict_get item "content_type"]>
                           (<["image_data" := VStr encoded_image]> ∅)))))
                    None))
            is_NoSuchKey
            (fun _ =>
               ret (create_error_response 404
                      (VStr "Image file not found in storage")
                      (Some "FILE_NOT_FOUND")))
        else
          presigned ← try_except
                        (u ← generate_presigned_url env s3_key 3600 ;
                         ret (Some u))
                        any_exception
                        (fun _ => ret None) ;
          let metadata := metadata_of item in
          let metadata :=
            if provided presigned then
              <["url_expires_in" := VInt 3600]>
                (<["download_url" := opt_str presigned]> metadata)
            else metadata in
          ret (create_success_response (VDict metadata) None 200)
    end.

Definition get_image (env : Env) (ev : event) : state -> response * state :=
  run_handler (get_image_body env ev) internal_error.

End GetImage.

(** ** [handlers/delete_image.py] *)

Module DeleteImage.
Import Config Validators ResponseHelpers.

Definition delete_image_body (env : Env) (ev : event) : M response :=
  let path_params := or_empty (pathParameters ev) in
  let image_id := get_str path_params "image_id" in
  let '(is_valid, error_msg) := validate_image_id image_id in
  if negb is_valid then
    ret (create_error_response 400 (opt_str error_msg)
           (Some "INVALID_IMAGE_ID"))
  else
    let query_params := or_empty (queryStringParameters ev) in
    let user_id := query_params !! "user_id" in
    response ← get_item env image_id ;
    match response with
    | None =>
        ret (create_error_response 404 (VStr "Image not found")
               (Some "IMAGE_NOT_FOUND"))
    | Some item =>
        if provided user_id
           && ne_str (dict_get item "user_id") (default "" user_id)
        then
          ret (create_error_response 403
                 (VStr "Not authorized to delete this image")
                 (Some "FORBIDDEN"))
        else
          let s3_key := dict_get item "s3_key" in
          try_except (delete_object env s3_key) any_exception
            (fun _ => ret tt) ;;
          delete_item env image_id ;;
          ret (create_success_response
                 (VDict (<["image_id" := image_id]>
                        (<["deleted" := VBool true]> ∅)))
                 (Some "Image deleted successfully") 200)
    end.

Definition delete_image (env : Env) (ev : event)
  : state -> response * state :=
  run_handler (delete_image_body env ev) internal_error.

End DeleteImage.

(** ** [handlers/list_images.py] *)

Module ListImages.
Import Config ResponseHelpers.

(** [c if not filter_expression else filter_expression & c] *)
Definition and_with (filter_expression : option cond) (c : cond) : cond :=
  match filter_expression with
  | None => c
  | Some f => And f c
  end.

(** [c if not tags_condition else tags_condition | c] *)
Definition or_with (tags_condition : option cond) (c : cond) : cond :=
  match tags_condition with
  | None => c
  | Some f => Or f c
  end.

(** The condition of the tags filter: the loop over
    [[tag.strip() for tag in tags_filter.split(',')]]. *)
Definition tags_condition (tags_filter : string) : option cond :=
  let tags_list := List.map PyStr.strip (PyStr.split_comma tags_filter) in
  fold_left (fun acc tag => Some (or_with acc (Contains "tags" tag)))
            tags_list None.

Definition build_filter (params : gmap string string) : option cond :=
  let user_id := params !! "user_id" in
  let title_filter := params !! "title" in
  let tags_filter := params !! "tags" in
  let location_filter := params !! "location" in
  let created_after := params !! "created_after" in
  let created_before := params !! "created_before" in
  let filter_expression : option cond := None in
  let filter_expression :=
    if provided user_id then Some (Equals "user_id" (default "" user_id))
    else filter_expression in
  let filter_expression :=
    if provided title_filter then
      Some (and_with filter_expression
              (Contains "title" (default "" title_filter)))
    else filter_expression in
  let filter_expression :=
    if provided tags_filter then
      match tags_condition (default "" tags_filter) with
      | Some tc => Some (and_with filter_expression tc)
      | None => filter_expression
      end
    else filter_expression in
  let filter_expression :=
    if provided location_filter then
      Some (and_with filter_expression
              (Contains "location" (default "" location_filter)))
    else filter_expression in
  let filter_expression :=
    if provided created_after then
      Some (and_with filter_expression
              (GreaterThanEquals "created_at" (default "" created_after)))
    else filter_expression in
  let filter_expression :=
    if provided created_before then
      Some (and_with filter_expression
              (LessThanEquals "created_at" (default "" created_before)))
    else filter_expression in
  filter_expression.

(** [min(int(params.get('limit', DEFAULT_PAGE_SIZE)), MAX_PAGE_SIZE)] *)
Definition page_limit (params : gmap string string) : result Z :=
  match params !! "limit" with
  | Some s =>
      match PyInt.py_int s with
      | Ok n => Ok (Z.min n MAX_PAGE_SIZE)
      | Raise e => Raise e
      end
  | None => Ok (Z.min DEFAULT_PAGE_SIZE MAX_PAGE_SIZE)
  end.

(** The response built from the answer of the scan. *)
Definition listing (env : Env) (answer : scan_response) : response :=
  let items := List.map (delete "s3_key") (Items answer) in
  let result : dict :=
    <["images" := VList (List.map VDict items)]>
   (<["count" := VInt (Z.of_nat (List.length items))]>
   (<["scanned_count" := VInt (ScannedCount answer)]> ∅)) in
  let result :=
    match LastEvaluatedKey answer with
    | Some k =>
        <["has_more" := VBool true]>
          (<["last_evaluated_key" := VStr (json_dumps env k)]> result)
    | None => <["has_more" := VBool false]> result
    end in
  create_success_response (VDict result) None 200.

Definition scan_and_respond (env : Env) (p : scan_params) : M response :=
  answer ← scan env p ;
  ret (listing env answer).

Definition list_images_body (env : Env) (ev : event) : M response :=
  let params := or_empty (queryStringParameters ev) in
  limit ← lift (page_limit params) ;
  let last_key := params !! "last_evaluated_key" in
  let filter_expression := build_filter params in
  if provided last_key then
    match json_loads env (default "" last_key) with
    | Ok k =>
        scan_and_respond env
          {| Limit := limit; FilterExpression := filter_expression;
             ExclusiveStartKey := Some k |}
    | Raise e =>
        if is_JSONDecodeError e then
          ret (create_error_response 400
                 (VStr "Invalid last_evaluated_key format")
                 (Some "INVALID_PAGINATION"))
        else raise e
    end
  else
    scan_and_respond env
      {| Limit := limit; FilterExpression := filter_expression;
         ExclusiveStartKey := None |}.

(** The two [except] clauses of the handler. *)
Definition on_error (e : exn) : response :=
  if is_ValueError e then
    create_error_response 400
      (VStr ("Invalid parameter value: " +:+ exn_msg e))
      (Some "INVALID_PARAMETER")
  else internal_error e.

Definition list_images (env : Env) (ev : event)
  : state -> response * state :=
  run_handler (list_images_body env ev) on_error.

(** The record filter of a request: the built condition as the table
    evaluates it; without a condition the scan is unfiltered. *)
Definition accepts (params : gmap string string) (it : dict) : bool :=
  match build_filter params with
  | Some c => eval_cond c it
  | None => true
  end.

End ListImages.

(** ** [handlers/upload_image.py] *)

Module UploadImage.
Import Config Validators ResponseHelpers.

(** [v.get(k)] and [v.get(k, dflt)] on an arbitrary object. *)
Definition value_get (v : value) (k : string) (dflt : value) : result value :=
  match v with
  | VDict d => Ok (default dflt (d !! k))
  | _ => Raise (AttributeError "object has no attribute 'get'")
  end.

(** [filename.rsplit('.', 1)[-1].lower()] *)
Definition file_extension_of (filename : value) : result string :=
  match filename with
  | VStr s => Ok (PyStr.lower (PyStr.rsplit_dot_last s))
  | _ => Raise (AttributeError "object has no attribute 'rsplit'")
  end.

(** The text an f-string puts for [v].  Only strings are formatted:
    [validate_user_id] admits no other object. *)
Definition format_str (v : value) : result string :=
  match v with
  | VStr s => Ok s
  | _ => Raise (TypeError "not a string")
  end.

Definition content_type_map : gmap string string :=
  <["jpg" := "image/jpeg"]> (<["jpeg" := "image/jpeg"]>
 (<["png" := "image/png"]> (<["gif" := "image/gif"]>
 (<["webp" := "image/webp"]> ∅)))).

(** [if metadata.get(k): db_item[k] = metadata[k]] *)
Definition add_optional (metadata : value) (k : string) (db_item : dict)
  : result dict :=
  match value_get metadata k VNone with
  | Ok v => Ok (if truthy v then <[k := v]> db_item else db_item)
  | Raise e => Raise e
  end.

Definition and_then {A B} (r : result A) (k : A -> result B) : result B :=
  match r with
  | Ok a => k a
  | Raise e => Raise e
  end.

(** The four optional metadata fields, in the order of the handler. *)
Definition add_optional_fields (metadata : value) (db_item : dict)
  : result dict :=
  and_then (add_optional metadata "title" db_item) (fun db_item =>
  and_then (add_optional metadata "description" db_item) (fun db_item =>
  and_then (add_optional metadata "tags" db_item) (fun db_item =>
  add_optional metadata "location" db_item))).

(** The item before the optional fields are added. *)
Definition base_item (image_id : string) (user_id : value) (s3_key : string)
    (filename : value) (content_type : string) (decoded_image : bytes)
    (timestamp : string) : dict :=
  <["image_id" := VStr image_id]>
 (<["user_id" := user_id]>
 (<["s3_key" := VStr s3_key]>
 (<["filename" := filename]>
 (<["content_type" := VStr content_type]>
 (<["file_size" := VInt (size_of decoded_image)]>
 (<["created_at" := VStr timestamp]>
 (<["updated_at" := VStr timestamp]> ∅))))))).

Definition s3_key_of (user image_id file_extension : string) : string :=
  "images/" +:+ user +:+ "/" +:+ image_id +:+ "." +:+ file_extension.

Definition uploaded_response (image_id : string) (filename : value)
    (s3_key timestamp : string) : response :=
  create_success_response
    (VDict (<["image_id" := VStr image_id]>
           (<["filename" := filename]>
           (<["s3_key" := VStr s3_key]>
           (<["created_at" := VStr timestamp]> ∅)))))
    (Some "Image uploaded successfully") 201.

Definition parse_body (env : Env) (ev : event) : result value :=
  match event_body ev with
  | Some s => json_loads env s
  | None =>
      Raise (TypeError
               "the JSON object must be str, bytes or bytearray, not NoneType")
  end.

(** The handler after [json.loads]. *)
Definition upload_parsed (env : Env) (body : value) : M response :=
  image_data ← lift (value_get body "image_data" VNone) ;
  filename ← lift (value_get body "filename" VNone) ;
  user_id ← lift (value_get body "user_id" VNone) ;
  metadata ← lift (value_get body "metadata" (VDict ∅)) ;
  let '(is_valid, error_msg) := validate_user_id user_id in
  if negb is_valid then
    ret (create_error_response 400 (opt_str error_msg)
           (Some "INVALID_USER_ID"))
  else
    checked ← lift (validate_image_file image_data filename) ;
    let '(is_valid, error_msg) := checked in
    if negb is_valid then
      ret (create_error_response 400 (opt_str error_msg)
             (Some "INVALID_IMAGE"))
    else
      let '(is_valid, error_msg) := validate_metadata metadata in
      if negb is_valid then
        ret (create_error_response 400 (opt_str error_msg)
               (Some "INVALID_METADATA"))
      else
        let image_id := uuid4 env in
        file_extension ← lift (file_extension_of filename) ;
        user ← lift (format_str user_id) ;
        let s3_key := s3_key_of user image_id file_extension in
        decoded_image ← lift (b64decode_value image_data) ;
        let content_type :=
          get_or content_type_map file_extension "application/octet-stream" in
        put_object env s3_key decoded_image content_type ;;
        let timestamp := utcnow_isoformat env in
        let db_item :=
          base_item image_id user_id s3_key filename content_type
            decoded_image timestamp in
        db_item ← lift (add_optional_fields metadata db_item) ;
        put_item env db_item ;;
        ret (uploaded_response image_id filename s3_key timestamp).

Definition upload_image_body (env : Env) (ev : event) : M response :=
  body ← lift (parse_body env ev) ;
  upload_parsed env body.

Definition upload_image (env : Env) (ev : event)
  : state -> response * state :=
  run_handler (upload_image_body env ev)
    (fun e =>
       if is_JSONDecodeError e then
         create_error_response 400 (VStr "Invalid JSON in request body")
           (Some "INVALID_JSON")
       else internal_error e).

End UploadImage.

(** ** Definitions used to state and check the properties *)

(** The numbers below [n], and checks by enumeration over them. *)
Definition below (n : nat) : list N := List.map N.of_nat (seq 0 n).

Definition all1 (n : nat) (P : N -> bool) : bool := forallb P (below n).

Definition all2 (n m : nat) (P : N -> N -> bool) : bool :=
  forallb (fun x => forallb (P x) (below m)) (below n).

(** A sextet is written as a character of the alphabet that is not the
    pad, is ASCII, and reads back as the sextet. *)
Definition sextet_char_ok (n : N) : bool :=
  (match Base64.a2b (Base64.b2a n) with Some m => m =? n | None => false end
   && negb (Ascii.eqb (Base64.b2a n) Base64.pad)
   && (PyStr.code (Base64.b2a n) <? 128))%N.

(** The arithmetic of one group of the encoding: the sextets are below
    64, and the shifts of the decoder put the bytes back together. *)
Definition group_ok (x y : N) : bool :=
  ((Base64.sextet0 x <? 64) && (Base64.sextet1 x y <? 64)
   && (Base64.sextet2 x y <? 64) && (Base64.sextet3 x <? 64)
   && (N.lor (N.shiftl (Base64.sextet0 x) 2)
             (N.shiftr (Base64.sextet1 x y) 4) =? x)
   && (N.land (Base64.sextet1 x y) 15 =? N.shiftr y 4)
   && (N.lor (N.shiftl (N.shiftr x 4) 4)
             (N.shiftr (Base64.sextet2 x y) 2) =? x)
   && (N.land (Base64.sextet2 x y) 3 =? N.shiftr y 6)
   && (N.lor (N.shiftl (N.shiftr x 6) 6) (Base64.sextet3 x) =? x))%N.

Record group_facts (x y : N) : Prop := {
  gf_s0 : (Base64.sextet0 x < 64)%N;
  gf_s1 : (Base64.sextet1 x y < 64)%N;
  gf_s2 : (Base64.sextet2 x y < 64)%N;
  gf_s3 : (Base64.sextet3 x < 64)%N;
  gf_b0 : N.lor (N.shiftl (Base64.sextet0 x) 2)
                (N.shiftr (Base64.sextet1 x y) 4) = x;
  gf_l1 : N.land (Base64.sextet1 x y) 15 = N.shiftr y 4;
  gf_b1 : N.lor (N.shiftl (N.shiftr x 4) 4)
                (N.shiftr (Base64.sextet2 x y) 2) = x;
  gf_l2 : N.land (Base64.sextet2 x y) 3 = N.shiftr y 6;
  gf_b2 : N.lor (N.shiftl (N.shiftr x 6) 6) (Base64.sextet3 x) = x
}.

(** The parts of a request and of a response the properties speak of. *)
Definition request_image_id (ev : event) : value :=
  get_str (or_empty (pathParameters ev)) "image_id".

Definition request_param (ev : event) (k : string) : option string :=
  or_empty (queryStringParameters ev) !! k.

(** The request [ev] with the query parameter [k] set to [v]. *)
Definition with_param (k v : string) (ev : event) : event :=
  {| pathParameters := pathParameters ev;
     queryStringParameters := Some (<[k := v]> (or_empty (queryStringParameters ev)));
     event_body := event_body ev |}.

(** The members of the body of a response. *)
Definition body_dict (r : response) : dict :=
  match body r with VDict b => b | _ => ∅ end.

(** [body['data']], when it is an object. *)
Definition response_data (r : response) : dict :=
  match body_dict r !! "data" with Some (VDict d) => d | _ => ∅ end.

(** [body['error']['code']] *)
Definition error_code (r : response) : option string :=
  match body_dict r !! "error" with
  | Some (VDict e) =>
      match e !! "code" with Some (VStr c) => Some c | _ => None end
  | _ => None
  end.

(** [body['error']['message']] *)
Definition error_message (r : response) : value :=
  match body_dict r !! "error" with
  | Some (VDict e) => dict_get e "message"
  | _ => VNone
  end.

(** [body['data']['images']] *)
Definition listed_images (r : response) : list value :=
  match response_data r !! "images" with Some (VList l) => l | _ => [] end.

(** The lookup of a get or delete request finds a record: the request
    names a valid [image_id], the table answers, and holds [item] under
    that id. *)
Definition found (env : Env) (ev : event) (st : state)
    (id : string) (item : dict) : Prop :=
  request_image_id ev = VStr id
  /\ Validators.validate_image_id (VStr id) = (true, None)
  /\ fault env (GetItem (VStr id)) = None
  /\ table st !! id = Some item.

(** The caller of a delete is authorized for [item]: no [user_id] is
    given (absent or empty), or the one given is the owner's. *)
Definition authorized (ev : event) (item : dict) : Prop :=
  provided (request_param ev "user_id") = false
  \/ exists uid, request_param ev "user_id" = Some uid
                 /\ item !! "user_id" = Some (VStr uid).

(** The success response of a delete. *)
Definition deleted_response (id : string) : response :=
  ResponseHelpers.create_success_response
    (VDict (<["image_id" := VStr id]> (<["deleted" := VBool true]> ∅)))
    (Some "Image deleted successfully") 200.

Definition forbidden_response : response :=
  ResponseHelpers.create_error_response 403
    (VStr "Not authorized to delete this image") (Some "FORBIDDEN").

(** A small world for the examples: one stored image of [user123], an
    environment whose codec knows the given documents, whose scan answers
    with every matching item in one page, and whose calls fail as
    [faults] says. *)
Module Demo.

Definition blob : bytes := [Byte.x89; Byte.x50; Byte.x4e; Byte.x47].

Definition key : string := "images/user123/img-1.png".

Definition item : dict :=
  <["image_id" := VStr "img-1"]>
 (<["user_id" := VStr "user123"]>
 (<["filename" := VStr "test.png"]>
 (<["content_type" := VStr "image/png"]>
 (<["s3_key" := VStr key]>
 (<["tags" := VList [VStr "test"]]>
 (<["created_at" := VStr "2024-01-01T10:00:00"]> ∅)))))).

Definition st : state :=
  {| table := {[ "img-1" := item ]};
     bucket := {[ key := {| Body := blob; ContentType := "image/png" |} ]};
     trace := [] |}.

Definition empty : state := {| table := ∅; bucket := ∅; trace := [] |}.

Definition lookup_doc (docs : list (string * value)) (s : string)
  : option value :=
  snd <$> List.find (fun d => String.eqb (fst d) s) docs.

(** A codec that reads the given documents and takes every other text
    for malformed. *)
Definition decode (docs : list (string * value)) (s : string)
  : result value :=
  match lookup_doc docs s with
  | Some v => Ok v
  | None => Raise (JSONDecodeError "Expecting value")
  end.

Definition scan_all (t : gmap string dict) (p : scan_params)
  : scan_response :=
  let all := List.map snd (map_to_list t) in
  {| Items := List.filter
                (fun it => match FilterExpression p with
                           | Some c => eval_cond c it
                           | None => true
                           end) all;
     ScannedCount := Z.of_nat (List.length all);
     LastEvaluatedKey := None |}.

Definition env (docs : list (string * value)) (faults : call -> option exn)
  : Env :=
  {| json_loads := decode docs;
     json_dumps := fun _ => "{}";
     uuid4 := "0b0e7a52-9f5c-4a57-8a39-1f2f6c1d3e4b";
     utcnow_isoformat := "2024-01-01T10:00:00.000000";
     scan_answer := scan_all;
     presigned_url := fun k _ => "https://s3.local/" +:+ k;
     fault := faults |}.

Definition no_fault (_ : call) : option exn := None.

Definition quoted (s : string) : string :=
  String PyRepr.dquote (s +:+ String PyRepr.dquote EmptyString).

(** A cursor as the list handler returns it, and the key it stands for. *)
Definition cursor : string :=
  "{" +:+ quoted "image_id" +:+ ": " +:+ quoted "img-1" +:+ "}".

Definition cursor_key : value := VDict {[ "image_id" := VStr "img-1" ]}.

(** The blob store is down: every blob delete fails. *)
Definition s3_down (c : call) : option exn :=
  match c with
  | DeleteObject _ => Some (ClientError "Service unavailable")
  | _ => None
  end.

Definition request (path query : list (string * string))
    (doc : option string) : event :=
  {| pathParameters := Some (list_to_map path);
     queryStringParameters := Some (list_to_map query);
     event_body := doc |}.

End Demo.

(** The query parameters of a list request. *)
Definition list_params (ev : event) : gmap string string :=
  or_empty (queryStringParameters ev).

(** The scan of a list request with parameters [p], and the response. *)
Definition scanned (env : Env) (p : scan_params) (st : state)
  : response * state :=
  match fault env (Scan p) with
  | None =>
      (ListImages.listing env (scan_answer env (table st) p),
       logged (Scan p) st)
  | Some e => (ListImages.on_error e, logged (Scan p) st)
  end.

Definition invalid_pagination_response : response :=
  ResponseHelpers.create_error_response 400
    (VStr "Invalid last_evaluated_key format") (Some "INVALID_PAGINATION").



(** A cursor nested too deeply for [json.loads], and a world whose codec
    says so. *)
Module DemoDeep.

Definition cursor : string := String.concat "" (List.repeat "[" 2000).

Definition error : exn :=
  RecursionError
    "maximum recursion depth exceeded while decoding a JSON array from a unicode string".

Definition env : Env :=
  {| json_loads := fun s => if String.eqb s cursor then Raise error
                            else Demo.decode [] s;
     json_dumps := json_dumps (Demo.env [] Demo.no_fault);
     uuid4 := uuid4 (Demo.env [] Demo.no_fault);
     utcnow_isoformat := utcnow_isoformat (Demo.env [] Demo.no_fault);
     scan_answer := scan_answer (Demo.env [] Demo.no_fault);
     presigned_url := presigned_url (Demo.env [] Demo.no_fault);
     fault := Demo.no_fault |}.

End DemoDeep.

(** *** The list filter in the words of the specification *)

(** A criterion of a list request: the parameter [k], when it is given
    with a value that is not empty. *)
Definition criterion (params : gmap string string) (k : string)
  : option string :=
  match params !! k with
  | Some s => if String.eqb s "" then None else Some s
  | None => None
  end.

(** [t] occurs in [s]. *)
Definition is_substring (t s : string) : Prop :=
  exists pre post, s = pre +:+ t +:+ post.

(** Exact match: the attribute is the string [v]. *)
Definition exact_match (it : dict) (attr v : string) : Prop :=
  it !! attr = Some (VStr v).

(** Substring match: the attribute is a string in which [v] occurs. *)
Definition substring_match (it : dict) (attr v : string) : Prop :=
  exists s, it !! attr = Some (VStr s) /\ is_substring v s.

(** Membership: the attribute is a list with the member [v]. *)
Definition member_match (it : dict) (attr v : string) : Prop :=
  exists l, it !! attr = Some (VList l) /\ VStr v ∈ l.

(** [contains]: a substring match on a string attribute, a membership
    test on a list attribute. *)
Definition contains_match (it : dict) (attr v : string) : Prop :=
  substring_match it attr v \/ member_match it attr v.

(** Inclusive bounds, in the order of strings. *)
Definition not_before (it : dict) (attr v : string) : Prop :=
  exists s, it !! attr = Some (VStr s) /\ String.leb v s = true.

Definition not_after (it : dict) (attr v : string) : Prop :=
  exists s, it !! attr = Some (VStr s) /\ String.leb s v = true.

(** The candidates of a tags criterion: its comma-separated parts,
    without surrounding white space. *)
Definition candidates (tags : string) : list string :=
  List.map PyStr.strip (PyStr.split_comma tags).

(** The meaning of an optional condition. *)
Definition holds (filter_expression : option cond) (it : dict) : bool :=
  match filter_expression with
  | Some c => eval_cond c it
  | None => true
  end.

(** The test of one criterion, [true] when the criterion is not given. *)
Definition test_of (params : gmap string string) (k : string)
    (test : string -> bool) : bool :=
  match criterion params k with
  | Some s => test s
  | None => true
  end.

Definition tag_test (it : dict) (tags : string) : bool :=
  existsb (fun tag => eval_cond (Contains "tags" tag) it) (candidates tags).

(** The criteria of a list request. *)
Definition criteria : list string :=
  ["user_id"; "title"; "tags"; "location"; "created_after"; "created_before"].

(** The three records of the filter example of the specification. *)
Module Records.
Definition R1 : dict := <["user_id" := VStr "A"]> (<["tags" := VList [VStr "x"]]> ∅).
Definition R2 : dict := <["user_id" := VStr "B"]> (<["tags" := VList [VStr "y"]]> ∅).
Definition R3 : dict :=
  <["user_id" := VStr "A"]> (<["tags" := VList [VStr "x"; VStr "y"]]> ∅).
Definition query (l : list (string * string)) : gmap string string :=
  list_to_map l.
End Records.

(** Metadata at the bounds of the validation, and just beyond. *)
Module Bounds.
Fixpoint chars (c : ascii) (n : nat) : string :=
  match n with
  | O => EmptyString
  | S n' => String c (chars c n')
  end.

Definition at_bounds : dict :=
  <["title" := VStr (chars "t" 256)]>
 (<["description" := VStr (chars "d" 2048)]>
 (<["tags" := VList (List.map VStr (List.repeat (chars "g" 50) 20))]> ∅)).

Definition long_title : dict := <["title" := VStr (chars "t" 257)]> at_bounds.

Definition long_description : dict :=
  <["description" := VStr (chars "d" 2049)]> at_bounds.

Definition many_tags : dict :=
  <["tags" := VList (List.map VStr (List.repeat "g" 21))]> at_bounds.

Definition long_tag : dict :=
  <["tags" := VList [VStr "g"; VStr (chars "g" 51)]]> at_bounds.
End Bounds.

(** The optional metadata fields of an upload. *)
Definition optional_fields : list string :=
  ["title"; "description"; "tags"; "location"].

(** [download=true] is asked for. *)
Definition wants_download (ev : event) : bool :=
  String.eqb
    (PyStr.lower (get_or (or_empty (queryStringParameters ev)) "download" "false"))
    "true".

(** The response of a get with [download=true]. *)
Definition download_response (image_id : value) (item : dict) (data : bytes)
  : response :=
  ResponseHelpers.create_response 200
    (VDict (<["image_id" := image_id]>
           (<["filename" := dict_get item "filename"]>
           (<["content_type" := dict_get item "content_type"]>
           (<["image_data" := VStr (Base64.b64encode data)]> ∅)))))
    None.

(** What a successful upload has done: it has decoded [image_data] to
    [stored], put [stored] under [key] in the bucket and [item], which
    names [key], under the new id in the table. *)
Record created (env : Env) (ev : event) (st st1 : state)
    (image_data : string) (stored : bytes) (key : string) (item : dict)
  : Prop := {
  cr_body : exists d, UploadImage.parse_body env ev = Ok (VDict d)
                      /\ d !! "image_data" = Some (VStr image_data);
  cr_decoded : Base64.b64decode image_data = Ok stored;
  cr_key : key ≠ "";
  cr_id : uuid4 env ≠ "";
  cr_item_key : item !! "s3_key" = Some (VStr key);
  cr_bucket : Body <$> bucket st1 !! key = Some stored;
  cr_table : table st1 !! uuid4 env = Some item;
  cr_put : exists content_type,
      trace st1 = (trace st ++ [PutObject key stored content_type;
                                PutItem item])%list
}.

(** An upload for the examples: a request body, as text and as the
    object the codec reads from it. *)
Module DemoUpload.

Definition quoted : string -> string := Demo.quoted.

Definition document : string :=
  "{" +:+ quoted "image_data" +:+ ": " +:+ quoted "iVBORw==" +:+ ", "
  +:+ quoted "filename" +:+ ": " +:+ quoted "pixel.PNG" +:+ ", "
  +:+ quoted "user_id" +:+ ": " +:+ quoted "user123" +:+ ", "
  +:+ quoted "metadata" +:+ ": {" +:+ quoted "title" +:+ ": "
  +:+ quoted "Red pixel" +:+ ", " +:+ quoted "description" +:+ ": "
  +:+ quoted "" +:+ ", " +:+ quoted "tags" +:+ ": []}}".

Definition metadata : dict :=
  <["title" := VStr "Red pixel"]>
 (<["description" := VStr ""]>
 (<["tags" := VList []]> ∅)).

Definition parsed : dict :=
  <["image_data" := VStr "iVBORw=="]>
 (<["filename" := VStr "pixel.PNG"]>
 (<["user_id" := VStr "user123"]>
 (<["metadata" := VDict metadata]> ∅))).

Definition env : Env := Demo.env [(document, VDict parsed)] Demo.no_fault.

Definition ev : event :=
  {| pathParameters := None; queryStringParameters := None;
     event_body := Some document |}.

Definition id : string := uuid4 env.

Definition key : string := "images/user123/" +:+ id +:+ ".png".

(** The record the upload writes. *)
Definition item : dict :=
  <["title" := VStr "Red pixel"]>
    (UploadImage.base_item id (VStr "user123") key (VStr "pixel.PNG")
       "image/png" Demo.blob (utcnow_isoformat env)).

Definition download : event :=
  Demo.request [("image_id", id)] [("download", "TRUE")] None.

End DemoUpload.

(** An optional field given empty: the empty string for a title, a
    description or a location, the empty list for the tags. *)
Definition empty_field (k : string) (v : value) : Prop :=
  (k ∈ ["title"; "description"; "location"] /\ v = VStr "")
  \/ (k = "tags" /\ v = VList []).

(** The sample image of the tests: a PNG of one red pixel, in base64. *)
Module Samples.
Definition png_base64 : string :=
  "iVBORw0KGgoAAAANSUhEUgAAAAEAAAABCAYAAAAfFcSJAAAADUlEQVR42mP8z8BQDwAEhQGAhKmMIQAAAABJRU5ErkJggg==".
End Samples.

(** *** Observations used by the further properties *)

(** The status and the error code of a response. *)
Definition outcome (r : response) : Z * option string :=
  (statusCode r, error_code r).

(** The body of the response has a member [error]. *)
Definition is_error (r : response) : bool :=
  match body_dict r !! "error" with
  | Some _ => true
  | None => false
  end.

(** A response of a handler: its outcome is one of [allowed], it carries
    the default headers, and its body has an [error] member exactly when
    its status is 400 or more. *)
Definition conforms (allowed : list (Z * option string)) (r : response)
  : Prop :=
  outcome r ∈ allowed
  /\ headers r = ResponseHelpers.default_headers
  /\ is_error r = (400 <=? statusCode r).

Definition get_outcomes : list (Z * option string) :=
  [(200, None); (400, Some "INVALID_IMAGE_ID"); (404, Some "IMAGE_NOT_FOUND");
   (404, Some "FILE_NOT_FOUND"); (500, Some "INTERNAL_ERROR")].

Definition delete_outcomes : list (Z * option string) :=
  [(200, None); (400, Some "INVALID_IMAGE_ID"); (403, Some "FORBIDDEN");
   (404, Some "IMAGE_NOT_FOUND"); (500, Some "INTERNAL_ERROR")].

Definition list_outcomes : list (Z * option string) :=
  [(200, None); (400, Some "INVALID_PARAMETER");
   (400, Some "INVALID_PAGINATION"); (500, Some "INTERNAL_ERROR")].

Definition upload_outcomes : list (Z * option string) :=
  [(201, None); (400, Some "INVALID_USER_ID"); (400, Some "INVALID_IMAGE");
   (400, Some "INVALID_METADATA"); (400, Some "INVALID_JSON");
   (500, Some "INTERNAL_ERROR")].

(** The stores hold the same records and blobs. *)
Definition same_stores (st st' : state) : Prop :=
  table st' = table st /\ bucket st' = bucket st.

Definition not_found_response : response :=
  ResponseHelpers.create_error_response 404 (VStr "Image not found")
    (Some "IMAGE_NOT_FOUND").

Definition file_not_found_response : response :=
  ResponseHelpers.create_error_response 404
    (VStr "Image file not found in storage") (Some "FILE_NOT_FOUND").

(** The URL a get shows for [item]: the answer of the presigner, unless
    the call fails, the key is refused, or the answer is empty. *)
Definition presigned (env : Env) (item : dict) : option string :=
  match fault env (GeneratePresignedUrl (dict_get item "s3_key") 3600),
        key_string (dict_get item "s3_key") with
  | None, Ok k =>
      let url := presigned_url env k 3600 in
      if String.eqb url "" then None else Some url
  | _, _ => None
  end.

(** The attributes a metadata response may show. *)
Definition metadata_attributes : list string :=
  ["image_id"; "user_id"; "filename"; "content_type"; "file_size"; "title";
   "description"; "tags"; "location"; "created_at"; "updated_at"].

(** [item.get(k)], kept only when it is not [None]. *)
Definition shown (item : dict) (k : string) : option value :=
  match item !! k with
  | Some VNone => None
  | o => o
  end.

(** The presigner is down: every presigning call fails. *)
Definition presigner_down (c : call) : option exn :=
  match c with
  | GeneratePresignedUrl _ _ => Some (ClientError "Service unavailable")
  | _ => None
  end.

(** The member [k] of the metadata that an upload stores: the one given,
    when its value is true. *)
Definition kept (metadata : value) (k : string) : option value :=
  match metadata with
  | VDict m =>
      match m !! k with
      | Some v => if truthy v then Some v else None
      | None => None
      end
  | _ => None
  end.

(** The attributes of a stored record that an upload always writes. *)
Definition required_attributes : list string :=
  ["image_id"; "user_id"; "s3_key"; "filename"; "content_type"; "file_size";
   "created_at"; "updated_at"].

(** [body.get('metadata', {})] *)
Definition metadata_of_body (d : dict) : value :=
  default (VDict ∅) (d !! "metadata").

(** The content types an upload gives to a blob. *)
Definition image_content_types : list string :=
  ["image/jpeg"; "image/png"; "image/gif"; "image/webp"].

(** The outcomes of an upload that a validator has rejected. *)
Definition rejected_outcomes : list (Z * option string) :=
  [(400, Some "INVALID_USER_ID"); (400, Some "INVALID_IMAGE");
   (400, Some "INVALID_METADATA")].

Definition invalid_json_response : response :=
  ResponseHelpers.create_error_response 400
    (VStr "Invalid JSON in request body") (Some "INVALID_JSON").

(** The two [except] clauses of the upload handler. *)
Definition upload_on_error (e : exn) : response :=
  if is_JSONDecodeError e then invalid_json_response else internal_error e.

(** The body of an upload request reads as the object [d], whose user
    id, file name and image data are strings that the validators accept,
    the image data decoding to [data], and whose metadata
    [validate_metadata] accepts. *)
Definition well_formed_upload (env : Env) (ev : event) (d : dict)
    (user filename image_data : string) (data : bytes) : Prop :=
  UploadImage.parse_body env ev = Ok (VDict d)
  /\ d !! "user_id" = Some (VStr user)
  /\ d !! "filename" = Some (VStr filename)
  /\ d !! "image_data" = Some (VStr image_data)
  /\ Validators.validate_user_id (VStr user) = (true, None)
  /\ Validators.validate_image_file (VStr image_data) (VStr filename)
     = Ok (true, None)
  /\ Base64.b64decode image_data = Ok data
  /\ Validators.validate_metadata (metadata_of_body d) = (true, None).

(** The key and the content type of the blob of an upload. *)
Definition blob_key (env : Env) (user filename : string) : string :=
  UploadImage.s3_key_of user (uuid4 env)
    (PyStr.lower (PyStr.rsplit_dot_last filename)).

Definition blob_content_type (filename : string) : string :=
  get_or UploadImage.content_type_map
    (PyStr.lower (PyStr.rsplit_dot_last filename)) "application/octet-stream".

(** The state after the blob of an upload has been put. *)
Definition blob_put (env : Env) (user filename : string) (data : bytes)
    (st : state) : state :=
  set_bucket
    (<[blob_key env user filename :=
         {| Body := data; ContentType := blob_content_type filename |}]>
       (bucket st))
    (logged (PutObject (blob_key env user filename) data
               (blob_content_type filename)) st).

(** An upload for the examples whose metadata is [null]. *)
Module DemoNull.

Definition document : string :=
  "{" +:+ Demo.quoted "image_data" +:+ ": " +:+ Demo.quoted "iVBORw==" +:+ ", "
  +:+ Demo.quoted "filename" +:+ ": " +:+ Demo.quoted "pixel.PNG" +:+ ", "
  +:+ Demo.quoted "user_id" +:+ ": " +:+ Demo.quoted "user123" +:+ ", "
  +:+ Demo.quoted "metadata" +:+ ": null}".

Definition parsed : dict :=
  <["image_data" := VStr "iVBORw=="]>
 (<["filename" := VStr "pixel.PNG"]>
 (<["user_id" := VStr "user123"]>
 (<["metadata" := VNone]> ∅))).

Definition env : Env := Demo.env [(document, VDict parsed)] Demo.no_fault.

Definition ev : event :=
  {| pathParameters := None; queryStringParameters := None;
     event_body := Some document |}.

End DemoNull.

(** ** [utils/aws_clients.py] and the endpoint settings of [config.py] *)

Module AwsClients.

(** [os.environ.get('AWS_REGION', 'us-east-1')] *)
Definition AWS_REGION (environ : gmap string string) : string :=
  get_or environ "AWS_REGION" "us-east-1".

(** [os.environ.get('LOCALSTACK_ENDPOINT', 'http://localhost:4566')] *)
Definition LOCALSTACK_ENDPOINT (environ : gmap string string) : string :=
  get_or environ "LOCALSTACK_ENDPOINT" "http://localhost:4566".

Definition AWS_ACCESS_KEY_ID (environ : gmap string string) : option string :=
  environ !! "AWS_ACCESS_KEY_ID".

Definition AWS_SECRET_ACCESS_KEY (environ : gmap string string)
  : option string :=
  environ !! "AWS_SECRET_ACCESS_KEY".

Definition is_local_environment (environ : gmap string string) : bool :=
  bool_decide (environ !! "AWS_SAM_LOCAL" = Some "true")
  || String.eqb (PyStr.lower (get_or environ "LOCALSTACK" "true")) "true".

(** [boto3.client] or [boto3.resource]. *)
Inductive factory := Client | Resource.

(** A call of a [boto3] factory: the service and the keyword arguments; a
    keyword that is not given, or given as [None], is [None]. *)
Record connection := {
  made_by : factory;
  service_name : string;
  endpoint_url : option string;
  aws_access_key_id : option string;
  aws_secret_access_key : option string;
  region_name : string
}.

Definition get_s3_client (environ : gmap string string) : connection :=
  if is_local_environment environ then
    {| made_by := Client; service_name := "s3";
       endpoint_url := Some (LOCALSTACK_ENDPOINT environ);
       aws_access_key_id := AWS_ACCESS_KEY_ID environ;
       aws_secret_access_key := AWS_SECRET_ACCESS_KEY environ;
       region_name := AWS_REGION environ |}
  else
    {| made_by := Client; service_name := "s3";
       endpoint_url := None; aws_access_key_id := None;
       aws_secret_access_key := None;
       region_name := AWS_REGION environ |}.

Definition get_dynamodb_resource (environ : gmap string string)
  : connection :=
  if is_local_environment environ then
    {| made_by := Resource; service_name := "dynamodb";
       endpoint_url := Some (LOCALSTACK_ENDPOINT environ);
       aws_access_key_id := AWS_ACCESS_KEY_ID environ;
       aws_secret_access_key := AWS_SECRET_ACCESS_KEY environ;
       region_name := AWS_REGION environ |}
  else
    {| made_by := Resource; service_name := "dynamodb";
       endpoint_url := None; aws_access_key_id := None;
       aws_secret_access_key := None;
       region_name := AWS_REGION environ |}.

Definition get_dynamodb_client (environ : gmap string string) : connection :=
  if is_local_environment environ then
    {| made_by := Client; service_name := "dynamodb";
       endpoint_url := Some (LOCALSTACK_ENDPOINT environ);
       aws_access_key_id := AWS_ACCESS_KEY_ID environ;
       aws_secret_access_key := AWS_SECRET_ACCESS_KEY environ;
       region_name := AWS_REGION environ |}
  else
    {| made_by := Client; service_name := "dynamodb";
       endpoint_url := None; aws_access_key_id := None;
       aws_secret_access_key := None;
       region_name := AWS_REGION environ |}.

End AwsClients.

(** Where a connection goes and as whom: the endpoint, the credentials
    and the region. *)
Definition target (c : AwsClients.connection)
  : option string * option string * option string * string :=
  (AwsClients.endpoint_url c, AwsClients.aws_access_key_id c,
   AwsClients.aws_secret_access_key c, AwsClients.region_name c).

(** ** [scripts/generate_payload.py] *)

Module GeneratePayload.

(** What is at a path of the file system. *)
Inductive node := File (content : bytes) | Directory.

(** The text after the last ['/'] of [p], if [p] has one. *)
Fixpoint after_last_slash (p : string) : option string :=
  match p with
  | EmptyString => None
  | String c r =>
      match after_last_slash r with
      | Some e => Some e
      | None => if Ascii.eqb c "/" then Some r else None
      end
  end.

(** [os.path.basename(p)] of [posixpath] *)
Definition basename (p : string) : string := default p (after_last_slash p).

(** The object written to [payload.json]. *)
Definition payload (image_path : string) (content : bytes) : dict :=
  let encoded_string := Base64.b64encode content in
  <["image_data" := VStr encoded_string]>
 (<["filename" := VStr (basename image_path)]>
 (<["user_id" := VStr "user123"]>
 (<["metadata" :=
      VDict (<["title" := VStr "Postman Upload"]>
            (<["description" := VStr "Uploaded via Postman"]>
            (<["tags" := VList [VStr "test"; VStr "postman"]]>
            (<["location" := VStr "LocalStack"]> ∅))))]> ∅))).

(** The ways [create_payload] ends: the path does not exist (a message is
    printed, nothing is written), [open] fails on what is there, or the
    payload is written. *)
Inductive outcome := NotFound | OpenFailed | Written (p : dict).

Definition create_payload (files : gmap string node) (image_path : string)
  : outcome :=
  match files !! image_path with
  | None => NotFound
  | Some Directory => OpenFailed
  | Some (File content) => Written (payload image_path content)
  end.

End GeneratePayload.

(** An image file for the examples, the document the script writes for
    it, and an upload of that document. *)
Module DemoPayload.

Definition path : string := "photos/pixel.PNG".

Definition files : gmap string GeneratePayload.node :=
  {[ path := GeneratePayload.File Demo.blob ]}.

Definition document : string :=
  "{" +:+ Demo.quoted "image_data" +:+ ": " +:+ Demo.quoted "iVBORw==" +:+ ", "
  +:+ Demo.quoted "filename" +:+ ": " +:+ Demo.quoted "pixel.PNG" +:+ ", "
  +:+ Demo.quoted "user_id" +:+ ": " +:+ Demo.quoted "user123" +:+ ", "
  +:+ Demo.quoted "metadata" +:+ ": {"
  +:+ Demo.quoted "title" +:+ ": " +:+ Demo.quoted "Postman Upload" +:+ ", "
  +:+ Demo.quoted "description" +:+ ": "
  +:+ Demo.quoted "Uploaded via Postman" +:+ ", "
  +:+ Demo.quoted "tags" +:+ ": [" +:+ Demo.quoted "test" +:+ ", "
  +:+ Demo.quoted "postman" +:+ "], "
  +:+ Demo.quoted "location" +:+ ": " +:+ Demo.quoted "LocalStack" +:+ "}}".

Definition env : Env :=
  Demo.env [(document, VDict (GeneratePayload.payload path Demo.blob))]
    Demo.no_fault.

Definition ev : event :=
  {| pathParameters := None; queryStringParameters := None;
     event_body := Some document |}.

End DemoPayload.

(** A text given to a helper as an optional argument, as the helper's
    [if] sees it: [None] when it is not given or empty. *)
Definition given (o : option string) : option string :=
  match o with
  | Some s => if String.eqb s "" then None else Some s
  | None => None
  end.

(** * Properties *)

(** ** Checks of the built-ins and of the validators

    The cases of [tests/test_validators.py] and a few evaluations of the
    modelled built-ins. *)

Example strip_ex : PyStr.strip "  a b  " = "a b".
Proof. reflexivity. Qed.

Example split_ex : PyStr.split_comma "x, y,,z" = ["x"; " y"; ""; "z"].
Proof. reflexivity. Qed.

Example split_empty_ex : PyStr.split_comma "" = [""].
Proof. reflexivity. Qed.

Example extension_ex : PyStr.lower (PyStr.rsplit_dot_last "a.b.PNG") = "png".
Proof. reflexivity. Qed.

Example int_ex :
  PyInt.py_int " -1_000 " = Ok (-1000)
  /\ PyInt.py_int "007" = Ok 7
  /\ PyInt.py_int (String (ascii_of_N 160) "12") = Ok 12
  /\ PyStr.read_int "1__0" = PyStr.InvalidLiteral
  /\ PyStr.read_int "" = PyStr.InvalidLiteral
  /\ PyStr.read_int "+ 1" = PyStr.InvalidLiteral
  /\ PyStr.read_int (String (ascii_of_N 28) "12") = PyStr.InvalidLiteral
  /\ PyInt.py_int "abc"
     = Raise (ValueError "invalid literal for int() with base 10: 'abc'")
  /\ PyInt.py_int "a'b"
     = Raise (ValueError
                ("invalid literal for int() with base 10: "
                 +:+ String PyRepr.dquote
                       ("a'b" +:+ String PyRepr.dquote EmptyString)))
  /\ PyInt.py_int (String (ascii_of_N 28) "12")
     = Raise (ValueError
                ("invalid literal for int() with base 10: '"
                 +:+ String PyRepr.backslash "x1c12'")).
Proof. repeat split; reflexivity. Qed.

Example repr_ex :
  PyRepr.str_repr "ten" = "'ten'"
  /\ PyRepr.str_repr "a'b"
     = String PyRepr.dquote ("a'b" +:+ String PyRepr.dquote EmptyString)
  /\ PyRepr.str_repr
       (String (ascii_of_N 10)
          (String (ascii_of_N 233) (String PyRepr.backslash EmptyString)))
     = String "'" (String PyRepr.backslash
         (String "n" (String (ascii_of_N 233)
            (String PyRepr.backslash (String PyRepr.backslash "'"))))).
Proof. repeat split; reflexivity. Qed.

Lemma append_length (s t : string) :
  String.length (s +:+ t) = (String.length s + String.length t)%nat.
Proof. induction s as [|c s IH]; simpl; [reflexivity|now rewrite IH]. Qed.

Lemma char_repr_length (single : bool) (c : ascii) :
  String.length (PyRepr.char_repr single c) = PyRepr.char_len single c.
Proof.
unfold PyRepr.char_repr, PyRepr.char_len. cbn zeta.
destruct (PyStr.code c =? 92)%N; [reflexivity|].
destruct (PyStr.code c =? 9)%N; [reflexivity|].
destruct (PyStr.code c =? 10)%N; [reflexivity|].
destruct (PyStr.code c =? 13)%N; [reflexivity|].
cbn [orb].
destruct (PyStr.code c =? 39)%N; [now destruct single|].
now destruct ((PyStr.code c <? 32)
              || (127 <=? PyStr.code c) && (PyStr.code c <=? 160)
              || (PyStr.code c =? 173))%N.
Qed.

Lemma chars_repr_length (single : bool) (s : string) :
  String.length (PyRepr.chars_repr single s) = PyRepr.chars_len single s.
Proof.
induction s as [|c s IH]; [reflexivity|].
cbn [PyRepr.chars_repr PyRepr.chars_len].
now rewrite append_length, char_repr_length, IH.
Qed.

(** The text of [repr(s)] has the length the validators count. *)
Lemma str_repr_length (s : string) :
  String.length (PyRepr.str_repr s) = PyRepr.str_repr_len s.
Proof.
unfold PyRepr.str_repr, PyRepr.str_repr_len. cbn zeta.
cbn [String.length]. rewrite append_length, chars_repr_length.
cbn [String.length]. lia.
Qed.

Example str_len_ex :
  PyRepr.str_len (VList [VStr "a'b"; VInt (-12); VNone; VBool false]) = 25%nat
  /\ PyRepr.str_len (VDict (<["k" := VList []]> ∅)) = 9%nat
  /\ PyRepr.str_len (VInt 0) = 1%nat.
Proof. repeat split; vm_compute; reflexivity. Qed.

Example b64encode_ex :
  Base64.b64encode [Byte.x4d; Byte.x61; Byte.x6e] = "TWFu"
  /\ Base64.b64encode [Byte.x4d; Byte.x61] = "TWE="
  /\ Base64.b64encode [Byte.x4d] = "TQ==".
Proof. repeat split; reflexivity. Qed.

Example b64decode_ex :
  Base64.b64decode "TQ==" = Ok [Byte.x4d]
  /\ Base64.b64decode "T W-F!u" = Ok [Byte.x4d; Byte.x61; Byte.x6e]
  /\ Base64.b64decode "not-valid-base64!!!"
     = Raise (ValueError "Incorrect padding")
  /\ Base64.b64decode "TWFuT"
     = Raise (ValueError "Invalid base64-encoded string: number of data characters (5) cannot be 1 more than a multiple of 4").
Proof. repeat split; reflexivity. Qed.

Example test_valid_image :
  Validators.validate_image_file (VStr Samples.png_base64) (VStr "test.png")
  = Ok (true, None).
Proof. vm_compute. reflexivity. Qed.

Example test_missing_image_data :
  Validators.validate_image_file (VStr "") (VStr "test.png")
  = Ok (false, Some "Image data is required")
  /\ Validators.validate_image_file VNone (VStr "test.png")
     = Ok (false, Some "Image data is required").
Proof. split; reflexivity. Qed.

Example test_missing_filename :
  Validators.validate_image_file (VStr Samples.png_base64) (VStr "")
  = Ok (false, Some "Filename is required")
  /\ Validators.validate_image_file (VStr Samples.png_base64) VNone
     = Ok (false, Some "Filename is required").
Proof. split; reflexivity. Qed.

Example test_invalid_extension :
  exists msg,
    Validators.validate_image_file (VStr Samples.png_base64) (VStr "test.pdf")
    = Ok (false, Some msg)
    /\ PyStr.contains "not allowed" msg = true.
Proof. eexists. split; vm_compute; reflexivity. Qed.

Example test_no_extension :
  exists msg,
    Validators.validate_image_file (VStr Samples.png_base64) (VStr "testimage")
    = Ok (false, Some msg)
    /\ PyStr.contains "not allowed" msg = true.
Proof. eexists. split; vm_compute; reflexivity. Qed.

Example test_invalid_base64 :
  Validators.validate_image_file (VStr "not-valid-base64!!!") (VStr "test.png")
  = Ok (false, Some "Invalid base64 image data: Incorrect padding").
Proof. vm_compute. reflexivity. Qed.

Example test_metadata :
  Validators.validate_metadata (VDict ∅) = (true, None)
  /\ Validators.validate_metadata VNone = (true, None)
  /\ Validators.validate_metadata (VStr "not a dict")
     = (false, Some "Metadata must be a dictionary")
  /\ Validators.validate_metadata (VDict {[ "tags" := VStr "single-tag" ]})
     = (false, Some "Tags must be a list")
  /\ Validators.validate_metadata (VDict {[ "tags" := VList [VInt 123] ]})
     = (false, Some "Each tag must be a string of 50 characters or less").
Proof. repeat split; vm_compute; reflexivity. Qed.

Example test_image_id :
  Validators.validate_image_id (VStr "valid-image-id-123") = (true, None)
  /\ Validators.validate_image_id (VStr "") = (false, Some "Image ID is required")
  /\ Validators.validate_image_id VNone = (false, Some "Image ID is required")
  /\ Validators.validate_image_id (VStr (Bounds.chars "x" 129))
     = (false, Some "Image ID is too long")
  /\ Validators.validate_image_id (VInt 12345)
     = (false, Some "Image ID must be a string").
Proof. repeat split; vm_compute; reflexivity. Qed.

Example test_user_id :
  Validators.validate_user_id (VStr "user123") = (true, None)
  /\ Validators.validate_user_id (VStr "") = (false, Some "User ID is required")
  /\ Validators.validate_user_id (VStr (Bounds.chars "x" 129))
     = (false, Some "User ID is too long")
  /\ Validators.validate_user_id (VInt 12345)
     = (false, Some "User ID must be a string").
Proof. repeat split; vm_compute; reflexivity. Qed.

(** ** Base64: decoding an encoding gives the bytes back *)

Module Base64Facts.
Import Base64.
Local Open Scope N_scope.

Lemma below_spec (n : nat) (x : N) : x < N.of_nat n -> In x (below n).
Proof.
  intros Hx. unfold below. apply in_map_iff.
  exists (N.to_nat x). split; [apply N2Nat.id|].
  apply in_seq. lia.
Qed.

Lemma all1_spec n P : all1 n P = true -> forall x, x < N.of_nat n -> P x = true.
Proof.
  unfold all1. intros H x Hx.
  apply (proj1 (forallb_forall _ _) H), below_spec, Hx.
Qed.

Lemma all2_spec n m P :
  all2 n m P = true ->
  forall x y, x < N.of_nat n -> y < N.of_nat m -> P x y = true.
Proof.
  unfold all2. intros H x y Hx Hy.
  pose proof (proj1 (forallb_forall _ _) H x (below_spec _ _ Hx)) as Hrow.
  apply (proj1 (forallb_forall _ _) Hrow), below_spec, Hy.
Qed.

Lemma sextet_chars : all1 64 sextet_char_ok = true.
Proof. vm_compute. reflexivity. Qed.

Lemma a2b_b2a n : n < 64 -> a2b (b2a n) = Some n.
Proof.
  intros Hn. pose proof (all1_spec _ _ sextet_chars n Hn) as H.
  unfold sextet_char_ok in H.
  apply andb_prop in H as [H _]. apply andb_prop in H as [H _].
  destruct (a2b (b2a n)); [|discriminate].
  apply N.eqb_eq in H. now subst.
Qed.

Lemma b2a_not_pad n : n < 64 -> Ascii.eqb (b2a n) pad = false.
Proof.
  intros Hn. pose proof (all1_spec _ _ sextet_chars n Hn) as H.
  unfold sextet_char_ok in H.
  apply andb_prop in H as [H _]. apply andb_prop in H as [_ H].
  now apply negb_true_iff in H.
Qed.

Lemma b2a_ascii n : n < 64 -> (PyStr.code (b2a n) <? 128) = true.
Proof.
  intros Hn. pose proof (all1_spec _ _ sextet_chars n Hn) as H.
  unfold sextet_char_ok in H.
  now apply andb_prop in H as [_ H].
Qed.

Lemma groups : all2 256 256 group_ok = true.
Proof. vm_compute. reflexivity. Qed.

Lemma group_facts_of x y : x < 256 -> y < 256 -> group_facts x y.
Proof.
  intros Hx Hy. pose proof (all2_spec _ _ _ groups x y Hx Hy) as H.
  unfold group_ok in H.
  repeat (apply andb_prop in H as [H ?]).
  repeat match goal with
         | E : (_ <? _) = true |- _ => apply N.ltb_lt in E
         | E : (_ =? _) = true |- _ => apply N.eqb_eq in E
         end.
  now constructor.
Qed.

Lemma to_N_lt (b : Byte.byte) : Byte.to_N b < 256.
Proof. pose proof (Byte.to_N_bounded b). lia. Qed.

Lemma zero_lt : 0 < 256.
Proof. lia. Qed.

Lemma byte_of_to_N (b : Byte.byte) : byte_of_N (Byte.to_N b) = b.
Proof.
  unfold byte_of_N. rewrite N.mod_small by apply to_N_lt.
  now rewrite Byte.of_to_N.
Qed.

(** One step of the decoder on a character of the alphabet. *)
Lemma loop_sextet n r quad_pos leftchar pads emitted :
  n < 64 ->
  a2b_loop (String (b2a n) r) quad_pos leftchar pads emitted =
  match quad_pos with
  | O => a2b_loop r 1 n 0 emitted
  | 1%nat =>
      result_map
        (cons (byte_of_N (N.lor (N.shiftl leftchar 2) (N.shiftr n 4))))
        (a2b_loop r 2 (N.land n 15) 0 (emitted + 1))
  | 2%nat =>
      result_map
        (cons (byte_of_N (N.lor (N.shiftl leftchar 4) (N.shiftr n 2))))
        (a2b_loop r 3 (N.land n 3) 0 (emitted + 1))
  | _ =>
      result_map (cons (byte_of_N (N.lor (N.shiftl leftchar 6) n)))
        (a2b_loop r 0 0 0 (emitted + 1))
  end.
Proof.
  intros Hn. cbn [a2b_loop].
  rewrite (b2a_not_pad n Hn), (a2b_b2a n Hn). reflexivity.
Qed.

Lemma list_ind3 {A} (P : list A -> Prop) :
  P [] -> (forall a, P [a]) -> (forall a b, P [a; b]) ->
  (forall a b c l, P l -> P (a :: b :: c :: l)) ->
  forall l, P l.
Proof.
  intros H0 H1 H2 H3.
  fix IH 1. intros [|a [|b [|c l]]].
  - exact H0.
  - apply H1.
  - apply H2.
  - apply H3, IH.
Qed.

Lemma a2b_b2a_loop (data : bytes) :
  forall leftchar pads emitted,
    a2b_loop (b2a_base64 data) 0 leftchar pads emitted = Ok data.
Proof.
  induction data as [|a|a b|a b c l IH] using list_ind3;
    intros leftchar pads emitted.
  - reflexivity.
  - pose proof (group_facts_of _ _ (to_N_lt a) zero_lt) as Ha.
    cbn [b2a_base64].
    rewrite (loop_sextet _ _ _ _ _ _ (gf_s0 _ _ Ha)).
    rewrite (loop_sextet _ _ _ _ _ _ (gf_s1 _ _ Ha)).
    rewrite (gf_b0 _ _ Ha), byte_of_to_N. reflexivity.
  - pose proof (group_facts_of _ _ (to_N_lt a) (to_N_lt b)) as Hab.
    pose proof (group_facts_of _ _ (to_N_lt b) zero_lt) as Hb.
    cbn [b2a_base64].
    rewrite (loop_sextet _ _ _ _ _ _ (gf_s0 _ _ Hab)).
    rewrite (loop_sextet _ _ _ _ _ _ (gf_s1 _ _ Hab)).
    rewrite (loop_sextet _ _ _ _ _ _ (gf_s2 _ _ Hb)).
    rewrite (gf_b0 _ _ Hab), (gf_l1 _ _ Hab), (gf_b1 _ _ Hb), !byte_of_to_N.
    reflexivity.
  - pose proof (group_facts_of _ _ (to_N_lt a) (to_N_lt b)) as Hab.
    pose proof (group_facts_of _ _ (to_N_lt b) (to_N_lt c)) as Hbc.
    pose proof (group_facts_of _ _ (to_N_lt c) zero_lt) as Hc.
    cbn [b2a_base64].
    rewrite (loop_sextet _ _ _ _ _ _ (gf_s0 _ _ Hab)).
    rewrite (loop_sextet _ _ _ _ _ _ (gf_s1 _ _ Hab)).
    rewrite (loop_sextet _ _ _ _ _ _ (gf_s2 _ _ Hbc)).
    rewrite (loop_sextet _ _ _ _ _ _ (gf_s3 _ _ Hc)).
    rewrite (gf_b0 _ _ Hab), (gf_l1 _ _ Hab), (gf_b1 _ _ Hbc),
      (gf_l2 _ _ Hbc), (gf_b2 _ _ Hc), IH, !byte_of_to_N.
    reflexivity.
Qed.

Lemma b2a_base64_ascii (data : bytes) : is_ascii (b2a_base64 data) = true.
Proof.
  induction data as [|a|a b|a b c l IH] using list_ind3.
  - reflexivity.
  - pose proof (group_facts_of _ _ (to_N_lt a) zero_lt) as Ha.
    cbn [b2a_base64 is_ascii].
    rewrite (b2a_ascii _ (gf_s0 _ _ Ha)), (b2a_ascii _ (gf_s1 _ _ Ha)).
    reflexivity.
  - pose proof (group_facts_of _ _ (to_N_lt a) (to_N_lt b)) as Hab.
    pose proof (group_facts_of _ _ (to_N_lt b) zero_lt) as Hb.
    cbn [b2a_base64 is_ascii].
    rewrite (b2a_ascii _ (gf_s0 _ _ Hab)), (b2a_ascii _ (gf_s1 _ _ Hab)),
      (b2a_ascii _ (gf_s2 _ _ Hb)).
    reflexivity.
  - pose proof (group_facts_of _ _ (to_N_lt a) (to_N_lt b)) as Hab.
    pose proof (group_facts_of _ _ (to_N_lt b) (to_N_lt c)) as Hbc.
    pose proof (group_facts_of _ _ (to_N_lt c) zero_lt) as Hc.
    cbn [b2a_base64 is_ascii].
    rewrite (b2a_ascii _ (gf_s0 _ _ Hab)), (b2a_ascii _ (gf_s1 _ _ Hab)),
      (b2a_ascii _ (gf_s2 _ _ Hbc)), (b2a_ascii _ (gf_s3 _ _ Hc)), IH.
    reflexivity.
Qed.

(** [b64decode(b64encode(data)) == data] *)
Lemma b64decode_b64encode (data : bytes) :
  b64decode (b64encode data) = Ok data.
Proof.
  unfold b64decode, b64encode, a2b_base64.
  rewrite b2a_base64_ascii. apply a2b_b2a_loop.
Qed.

End Base64Facts.

(** ** The monad and the calls to the stores *)

Section MonadFacts.
Context {A B : Type}.

Lemma bind_ok (m : M A) (k : A -> M B) st a st' :
  m st = (Ok a, st') -> (m ≫= k) st = k a st'.
Proof. intros H. unfold mbind, M_bind, bind. now rewrite H. Qed.

Lemma bind_raise (m : M A) (k : A -> M B) st e st' :
  m st = (Raise e, st') -> (m ≫= k) st = (Raise e, st').
Proof. intros H. unfold mbind, M_bind, bind. now rewrite H. Qed.

Lemma bind_lift_ok (a : A) (k : A -> M B) st :
  (lift (Ok a) ≫= k) st = k a st.
Proof. reflexivity. Qed.

Lemma bind_lift_raise (e : exn) (k : A -> M B) st :
  (lift (Raise e) ≫= k) st = (Raise e, st).
Proof. reflexivity. Qed.

Lemma try_except_ok (m : M A) catches handler st a st' :
  m st = (Ok a, st') -> try_except m catches handler st = (Ok a, st').
Proof. intros H. unfold try_except. now rewrite H. Qed.

Lemma try_except_caught (m : M A) catches handler st e st' :
  m st = (Raise e, st') -> catches e = true ->
  try_except m catches handler st = handler e st'.
Proof. intros H Hc. unfold try_except. now rewrite H, Hc. Qed.

Lemma try_except_passed (m : M A) catches handler st e st' :
  m st = (Raise e, st') -> catches e = false ->
  try_except m catches handler st = (Raise e, st').
Proof. intros H Hc. unfold try_except. now rewrite H, Hc. Qed.
End MonadFacts.

Lemma store_call_ok env c st :
  fault env c = None -> store_call env c st = (Ok tt, logged c st).
Proof. intros H. unfold store_call. cbn. now rewrite H. Qed.

Lemma store_call_fail env c st e :
  fault env c = Some e -> store_call env c st = (Raise e, logged c st).
Proof. intros H. unfold store_call. cbn. now rewrite H. Qed.

Lemma key_string_ok (k : string) : k ≠ "" -> key_string (VStr k) = Ok k.
Proof.
  intros H. unfold key_string.
  destruct (String.eqb_spec k ""); [contradiction|reflexivity].
Qed.

Lemma get_item_ok env id st :
  id ≠ "" -> fault env (GetItem (VStr id)) = None ->
  get_item env (VStr id) st = (Ok (table st !! id), logged (GetItem (VStr id)) st).
Proof.
  intros Hid Hf. unfold get_item.
  rewrite (bind_ok _ _ _ _ _ (store_call_ok _ _ _ Hf)).
  now rewrite (key_string_ok _ Hid).
Qed.

Lemma get_item_fail env key st e :
  fault env (GetItem key) = Some e ->
  get_item env key st = (Raise e, logged (GetItem key) st).
Proof.
  intros Hf. unfold get_item.
  now rewrite (bind_raise _ _ _ _ _ (store_call_fail _ _ _ _ Hf)).
Qed.

Lemma delete_item_ok env id st :
  id ≠ "" -> fault env (DeleteItem (VStr id)) = None ->
  delete_item env (VStr id) st =
  (Ok tt, set_table (delete id (table st)) (logged (DeleteItem (VStr id)) st)).
Proof.
  intros Hid Hf. unfold delete_item.
  rewrite (bind_ok _ _ _ _ _ (store_call_ok _ _ _ Hf)).
  now rewrite (key_string_ok _ Hid).
Qed.

Lemma delete_item_fail env key st e :
  fault env (DeleteItem key) = Some e ->
  delete_item env key st = (Raise e, logged (DeleteItem key) st).
Proof.
  intros Hf. unfold delete_item.
  now rewrite (bind_raise _ _ _ _ _ (store_call_fail _ _ _ _ Hf)).
Qed.

(** A blob delete inside [try ... except Exception] always completes: the
    call is recorded, the table is untouched, and at most the bucket
    changes. *)
Lemma delete_object_swallowed env key st :
  exists b,
    try_except (delete_object env key) any_exception (fun _ => ret tt) st =
    (Ok tt, set_bucket b (logged (DeleteObject key) st)).
Proof.
  unfold delete_object.
  destruct (fault env (DeleteObject key)) as [e|] eqn:Hf.
  - exists (bucket st).
    erewrite try_except_caught;
      [|apply bind_raise, store_call_fail, Hf|reflexivity].
    now destruct st.
  - destruct (key_string key) as [k|e] eqn:Hk.
    + exists (delete k (bucket st)).
      erewrite try_except_ok; [reflexivity|].
      now rewrite (bind_ok _ _ _ _ _ (store_call_ok _ _ _ Hf)).
    + exists (bucket st).
      erewrite try_except_caught; [| |reflexivity].
      * now destruct st.
      * now rewrite (bind_ok _ _ _ _ _ (store_call_ok _ _ _ Hf)).
Qed.

Lemma validate_image_id_ok (id : string) :
  Validators.validate_image_id (VStr id) = (true, None) <->
  id ≠ "" /\ (String.length id <= 128)%nat.
Proof.
  unfold Validators.validate_image_id, truthy.
  destruct (String.eqb_spec id "") as [->|Hne]; cbn [negb].
  - split; [intros [=]|]. intros [H _]. now contradiction H.
  - destruct (Nat.ltb_spec 128 (String.length id)).
    + split; [intros [=]|]. intros [_ H']. lia.
    + split; [|reflexivity]. intros _. split; [assumption|lia].
Qed.

(** ** Delete *)

Section Delete.
Import DeleteImage.

Variables (env : Env) (ev : event) (st : state) (id : string) (item : dict).
Hypothesis Hfound : found env ev st id item.

Lemma found_id_nonempty : id ≠ "".
Proof. destruct Hfound as (_ & Hv & _). now apply validate_image_id_ok in Hv. Qed.

(** After the lookup the handler is at the authorization check. *)
Lemma delete_image_looked_up :
  delete_image env ev st =
  run_handler
    (if provided (request_param ev "user_id")
        && ne_str (dict_get item "user_id")
                  (default "" (request_param ev "user_id"))
     then ret forbidden_response
     else
       try_except (delete_object env (dict_get item "s3_key")) any_exception
         (fun _ => ret tt) ;;
       delete_item env (VStr id) ;;
       ret (deleted_response id))
    internal_error (logged (GetItem (VStr id)) st).
Proof.
  destruct Hfound as (Hid & Hv & Hf & Ht).
  unfold delete_image, delete_image_body, run_handler.
  fold (request_image_id ev). rewrite Hid, Hv. cbn [negb].
  rewrite (bind_ok _ _ _ _ _ (get_item_ok _ _ _ found_id_nonempty Hf)).
  rewrite Ht. reflexivity.
Qed.

Lemma authorized_passes :
  authorized ev item ->
  provided (request_param ev "user_id")
  && ne_str (dict_get item "user_id")
            (default "" (request_param ev "user_id")) = false.
Proof.
  intros [Hno|(uid & Hu & Ho)].
  - now rewrite Hno.
  - rewrite Hu. unfold dict_get. rewrite Ho. cbn.
    rewrite String.eqb_refl. apply andb_false_r.
Qed.

(** What an authorized delete of an existing record does. *)
Lemma delete_image_authorized :
  authorized ev item ->
  exists b,
    let st1 := set_bucket b (logged (DeleteObject (dict_get item "s3_key"))
                               (logged (GetItem (VStr id)) st)) in
    delete_image env ev st =
    match fault env (DeleteItem (VStr id)) with
    | None =>
        (deleted_response id,
         set_table (delete id (table st))
           (logged (DeleteItem (VStr id)) st1))
    | Some e => (internal_error e, logged (DeleteItem (VStr id)) st1)
    end.
Proof.
  intros Hauth.
  rewrite delete_image_looked_up, (authorized_passes Hauth).
  destruct (delete_object_swallowed env (dict_get item "s3_key")
              (logged (GetItem (VStr id)) st)) as (b & Hb).
  exists b. cbn zeta. unfold run_handler.
  rewrite (bind_ok _ _ _ _ _ Hb).
  destruct (fault env (DeleteItem (VStr id))) as [e|] eqn:Hf.
  - now rewrite (bind_raise _ _ _ _ _ (delete_item_fail _ _ _ _ Hf)).
  - now rewrite (bind_ok _ _ _ _ _ (delete_item_ok _ _ _ found_id_nonempty Hf)).
Qed.

End Delete.

(** C3. For every authorized delete of an existing record, the blob delete
    is attempted first and, whether it fails or not, the record delete is
    attempted next; the outcome of the record delete alone decides the
    response: when it succeeds the response is the 200 success response
    and the record is gone, when it fails with [e] the response is the 500
    INTERNAL_ERROR response for [e] and the table is unchanged. *)
Theorem delete_blob_then_record env ev st id item :
  found env ev st id item ->
  authorized ev item ->
  let r := (DeleteImage.delete_image env ev st).1 in
  let st' := (DeleteImage.delete_image env ev st).2 in
  trace st' = (trace st ++ [GetItem (VStr id);
                            DeleteObject (dict_get item "s3_key");
                            DeleteItem (VStr id)])%list
  /\ match fault env (DeleteItem (VStr id)) with
     | None =>
         r = deleted_response id /\ statusCode r = 200
         /\ table st' = delete id (table st)
     | Some e =>
         r = internal_error e /\ statusCode r = 500
         /\ error_code r = Some "INTERNAL_ERROR"
         /\ table st' = table st
     end.
Proof.
intros Hfound Hauth.
destruct (delete_image_authorized env ev st id item Hfound Hauth) as (b & ->).
destruct (fault env (DeleteItem (VStr id))) as [e|]; cbn.
- split; [now rewrite <- !app_assoc|]. repeat split; reflexivity.
- split; [now rewrite <- !app_assoc|]. repeat split; reflexivity.
Qed.

Lemma delete_blob_then_record_witness :
  let env := Demo.env [] Demo.s3_down in
  let ev := Demo.request [("image_id", "img-1")] [("user_id", "user123")] None in
  found env ev Demo.st "img-1" Demo.item
  /\ authorized ev Demo.item
  /\ trace (DeleteImage.delete_image env ev Demo.st).2 =
       [GetItem (VStr "img-1"); DeleteObject (VStr Demo.key);
        DeleteItem (VStr "img-1")]
  /\ (DeleteImage.delete_image env ev Demo.st).1 = deleted_response "img-1"
  /\ table (DeleteImage.delete_image env ev Demo.st).2 = ∅
  /\ bucket (DeleteImage.delete_image env ev Demo.st).2 = bucket Demo.st.
Proof.
  intros env ev.
  assert (Hf : found env ev Demo.st "img-1" Demo.item)
    by (repeat split; vm_compute; reflexivity).
  assert (Ha : authorized ev Demo.item)
    by (right; exists "user123"; split; vm_compute; reflexivity).
  destruct (delete_blob_then_record env ev Demo.st "img-1" Demo.item Hf Ha)
    as (Ht & Hr & _ & Htab).
  split; [exact Hf|]. split; [exact Ha|].
  split; [exact Ht|]. split; [exact Hr|].
  split; [rewrite Htab|]; vm_compute; reflexivity.
Defined.

Lemma ne_str_differs (v : value) (s : string) : v ≠ VStr s -> ne_str v s = true.
Proof.
intros H. destruct v; try reflexivity. cbn.
destruct (String.eqb_spec s0 s) as [->|]; [now contradiction H|reflexivity].
Qed.

(** C2, as the handler has it.  For every delete request on an existing
    record: if the [user_id] given is not empty and differs from the
    record's stored [user_id], the response is 403 FORBIDDEN, only the
    lookup has been made (neither delete is attempted) and table and
    bucket are unchanged; if [user_id] is absent or empty, the check is
    skipped: blob delete and record delete are attempted, and when the
    record delete succeeds the response is the success response and the
    record is gone. *)
Theorem delete_checks_owner env ev st id item :
  found env ev st id item ->
  (forall uid,
      request_param ev "user_id" = Some uid -> uid ≠ "" ->
      dict_get item "user_id" ≠ VStr uid ->
      DeleteImage.delete_image env ev st =
        (forbidden_response, logged (GetItem (VStr id)) st)
      /\ statusCode forbidden_response = 403
      /\ error_code forbidden_response = Some "FORBIDDEN")
  /\ (provided (request_param ev "user_id") = false ->
      let r := (DeleteImage.delete_image env ev st).1 in
      let st' := (DeleteImage.delete_image env ev st).2 in
      trace st' = (trace st ++ [GetItem (VStr id);
                                DeleteObject (dict_get item "s3_key");
                                DeleteItem (VStr id)])%list
      /\ (fault env (DeleteItem (VStr id)) = None ->
          r = deleted_response id /\ table st' = delete id (table st))).
Proof.
intros Hfound. split.
- intros uid Hu Hne Hdiff. split; [|split; reflexivity].
  rewrite (delete_image_looked_up env ev st id item Hfound), Hu.
  change (default "" (Some uid)) with uid.
  rewrite (ne_str_differs _ _ Hdiff). cbn [provided].
  destruct (String.eqb_spec uid ""); [contradiction|reflexivity].
- intros Hno.
  destruct (delete_image_authorized env ev st id item Hfound (or_introl Hno))
    as (b & ->).
  destruct (fault env (DeleteItem (VStr id))) as [e|]; cbn.
  + split; [now rewrite <- !app_assoc|]. intros [=].
  + split; [now rewrite <- !app_assoc|]. intros _. now split.
Qed.

Lemma delete_checks_owner_witness :
  let env := Demo.env [] Demo.no_fault in
  let other := Demo.request [("image_id", "img-1")] [("user_id", "otherUser")] None in
  let anonymous := Demo.request [("image_id", "img-1")] [] None in
  DeleteImage.delete_image env other Demo.st =
    (forbidden_response, logged (GetItem (VStr "img-1")) Demo.st)
  /\ (DeleteImage.delete_image env anonymous Demo.st).1 = deleted_response "img-1"
  /\ table (DeleteImage.delete_image env anonymous Demo.st).2 = ∅.
Proof.
intros env other anonymous.
assert (Hf1 : found env other Demo.st "img-1" Demo.item)
  by (repeat split; vm_compute; reflexivity).
assert (Hf2 : found env anonymous Demo.st "img-1" Demo.item)
  by (repeat split; vm_compute; reflexivity).
destruct (delete_checks_owner env other Demo.st "img-1" Demo.item Hf1)
  as (Hforbidden & _).
destruct (delete_checks_owner env anonymous Demo.st "img-1" Demo.item Hf2)
  as (_ & Hskipped).
split.
- apply (Hforbidden "otherUser"); [reflexivity|discriminate|discriminate].
- destruct (Hskipped eq_refl) as (_ & Hdone).
  destruct (Hdone eq_refl) as (Hr & Htab).
  split; [exact Hr|]. rewrite Htab. vm_compute. reflexivity.
Defined.

(** A delete whose [user_id] is the empty string differs from the owner
    and is served all the same: the record and the blob are deleted. *)
Lemma delete_empty_user_id_counterexample :
  let env := Demo.env [] Demo.no_fault in
  let ev := Demo.request [("image_id", "img-1")] [("user_id", "")] None in
  found env ev Demo.st "img-1" Demo.item
  /\ request_param ev "user_id" = Some ""
  /\ dict_get Demo.item "user_id" = VStr "user123"
  /\ statusCode (DeleteImage.delete_image env ev Demo.st).1 = 200
  /\ (DeleteImage.delete_image env ev Demo.st).1 = deleted_response "img-1"
  /\ table (DeleteImage.delete_image env ev Demo.st).2 !! "img-1" = None
  /\ bucket (DeleteImage.delete_image env ev Demo.st).2 !! Demo.key = None.
Proof.
intros env ev. split.
- repeat split; vm_compute; reflexivity.
- repeat split; vm_compute; reflexivity.
Qed.

(** ** Get *)

Lemma with_param_other (k v k' : string) (ev : event) :
  k ≠ k' -> request_param (with_param k v ev) k' = request_param ev k'.
Proof. intros H. unfold request_param, with_param. cbn. now rewrite lookup_insert_ne. Qed.

(** The statuses of the responses of the get handler. *)
Lemma get_image_status env ev st :
  statusCode (GetImage.get_image env ev st).1 ∈ [200; 400; 404; 500].
Proof.
unfold GetImage.get_image, GetImage.get_image_body, run_handler.
destruct (Validators.validate_image_id _) as [[] msg]; cbn [negb].
2: { cbn. set_solver. }
unfold mbind, M_bind, bind, try_except.
repeat case_match; unfold ret, raise in *; simplify_eq; cbn; set_solver.
Qed.

(** C1, as the handler has it.  The get handler reads no identity claim:
    a [user_id] parameter changes neither the response nor the calls made
    to the stores, and no response of a get is a 403. *)
Theorem get_ignores_user_id env ev st uid :
  GetImage.get_image env (with_param "user_id" uid ev) st =
    GetImage.get_image env ev st
  /\ statusCode (GetImage.get_image env ev st).1 ≠ 403.
Proof.
split.
- unfold GetImage.get_image, GetImage.get_image_body.
  change (pathParameters (with_param "user_id" uid ev)) with (pathParameters ev).
  unfold get_or.
  fold (request_param (with_param "user_id" uid ev) "download").
  fold (request_param ev "download").
  now rewrite with_param_other by discriminate.
- pose proof (get_image_status env ev st) as H.
  intros Heq. rewrite Heq in H.
  repeat (apply elem_of_cons in H as [H|H]; [discriminate|]).
  now apply elem_of_nil in H.
Qed.

(** An image of [user123] is fetched with [user_id=otherUser]: the
    response is a 200 that carries the image data, and the blob has been
    read; without [download] the response carries a presigned URL. *)
Lemma get_other_user_counterexample :
  let env := Demo.env [] Demo.no_fault in
  let download := Demo.request [("image_id", "img-1")]
                    [("user_id", "otherUser"); ("download", "true")] None in
  let view := Demo.request [("image_id", "img-1")]
                [("user_id", "otherUser")] None in
  found env download Demo.st "img-1" Demo.item
  /\ request_param download "user_id" = Some "otherUser"
  /\ dict_get Demo.item "user_id" = VStr "user123"
  /\ statusCode (GetImage.get_image env download Demo.st).1 = 200
  /\ body_dict (GetImage.get_image env download Demo.st).1 !! "image_data"
     = Some (VStr "iVBORw==")
  /\ trace (GetImage.get_image env download Demo.st).2
     = [GetItem (VStr "img-1"); GetObject (VStr Demo.key)]
  /\ statusCode (GetImage.get_image env view Demo.st).1 = 200
  /\ response_data (GetImage.get_image env view Demo.st).1 !! "download_url"
     = Some (VStr "https://s3.local/images/user123/img-1.png").
Proof.
intros env download view. split.
- repeat split; vm_compute; reflexivity.
- repeat split; vm_compute; reflexivity.
Qed.

Lemma metadata_of_no_key (item : dict) (k : string) :
  k ∉ ["image_id"; "user_id"; "filename"; "content_type"; "file_size"; "title";
       "description"; "tags"; "location"; "created_at"; "updated_at"] ->
  GetImage.metadata_of item !! k = None.
Proof.
intros Hk. unfold GetImage.metadata_of. rewrite lookup_omap.
repeat (rewrite lookup_insert_ne; [|intros <-; apply Hk; set_solver]).
reflexivity.
Qed.

Lemma metadata_of_no_s3_key (item : dict) :
  GetImage.metadata_of item !! "s3_key" = None.
Proof.
apply metadata_of_no_key. intros H.
repeat (apply elem_of_cons in H as [H|H]; [discriminate|]).
now apply elem_of_nil in H.
Qed.

(** No response of the get handler has a member [s3_key], neither in its
    body nor in its data. *)
Lemma get_image_no_s3_key env ev st :
  body_dict (GetImage.get_image env ev st).1 !! "s3_key" = None
  /\ response_data (GetImage.get_image env ev st).1 !! "s3_key" = None.
Proof.
unfold GetImage.get_image, GetImage.get_image_body, run_handler.
destruct (Validators.validate_image_id _) as [[] msg]; cbn [negb].
2: { split; reflexivity. }
unfold mbind, M_bind, bind, try_except.
repeat case_match; unfold ret, raise in *; simplify_eq;
  try (split; reflexivity).
all: split; [reflexivity|].
all: unfold response_data, body_dict; cbn; rewrite lookup_singleton_eq.
all: rewrite ?lookup_insert_ne by discriminate; apply metadata_of_no_s3_key.
Qed.

(** ** List *)

Lemma scan_and_respond_run env p st :
  run_handler (ListImages.scan_and_respond env p) ListImages.on_error st =
  scanned env p st.
Proof.
unfold run_handler, ListImages.scan_and_respond, scan, scanned.
destruct (fault env (Scan p)) as [e|] eqn:Hf.
- rewrite (bind_raise _ _ _ _ _
             (bind_raise _ _ _ _ _ (store_call_fail _ _ _ _ Hf))).
  reflexivity.
- rewrite (bind_ok _ _ _ _ _ (bind_ok _ _ _ _ _ (store_call_ok _ _ _ Hf))).
  reflexivity.
Qed.

(** The paths of the list handler. *)
Lemma list_images_cases env ev st :
  ListImages.list_images env ev st =
  let params := list_params ev in
  match ListImages.page_limit params with
  | Raise e => (ListImages.on_error e, st)
  | Ok limit =>
      if provided (params !! "last_evaluated_key") then
        match json_loads env (default "" (params !! "last_evaluated_key")) with
        | Ok k =>
            scanned env {| Limit := limit;
                           FilterExpression := ListImages.build_filter params;
                           ExclusiveStartKey := Some k |} st
        | Raise e =>
            (if is_JSONDecodeError e then invalid_pagination_response
             else ListImages.on_error e, st)
        end
      else
        scanned env {| Limit := limit;
                       FilterExpression := ListImages.build_filter params;
                       ExclusiveStartKey := None |} st
  end.
Proof.
cbn zeta. unfold ListImages.list_images, ListImages.list_images_body.
fold (list_params ev).
destruct (ListImages.page_limit (list_params ev)) as [limit|e]; [|reflexivity].
unfold run_handler at 1. rewrite bind_lift_ok.
destruct (provided _).
- destruct (json_loads env _) as [k|e]; [apply scan_and_respond_run|].
  now destruct (is_JSONDecodeError e).
- apply scan_and_respond_run.
Qed.

Lemma listed_images_listing env answer :
  listed_images (ListImages.listing env answer) =
  List.map VDict (List.map (delete "s3_key") (Items answer)).
Proof.
unfold listed_images, response_data, body_dict, ListImages.listing.
cbn. rewrite lookup_singleton_eq.
destruct (LastEvaluatedKey answer); reflexivity.
Qed.

Lemma listed_images_on_error e : listed_images (ListImages.on_error e) = [].
Proof. unfold ListImages.on_error. destruct (is_ValueError e); reflexivity. Qed.

(** Every response of the list handler lists records without [s3_key]:
    the records of a listing are those of the scan, each with [s3_key]
    removed, and an error response lists nothing. *)
Lemma list_images_records env ev st :
  exists items : list dict,
    listed_images (ListImages.list_images env ev st).1 =
    List.map VDict (List.map (delete "s3_key") items).
Proof.
rewrite list_images_cases. cbn zeta.
assert (Hs : forall p, exists items : list dict,
             listed_images (scanned env p st).1 =
             List.map VDict (List.map (delete "s3_key") items)).
{ intros p. unfold scanned. destruct (fault env (Scan p)).
  - exists []. apply listed_images_on_error.
  - eexists. apply listed_images_listing. }
destruct (ListImages.page_limit _).
- destruct (provided _); [|apply Hs].
  destruct (json_loads env _) as [k|e]; [apply Hs|].
  destruct (is_JSONDecodeError e); [now exists []|].
  exists []. apply listed_images_on_error.
- exists []. apply listed_images_on_error.
Qed.

(** C7. No record in a response of the list handler has a member
    [s3_key], whatever the filters and the stored records, and no response
    of the get handler has a member [s3_key], neither in its body nor in
    the metadata it returns as [data]. *)
Theorem storage_key_never_returned env ev st :
  (forall v, v ∈ listed_images (ListImages.list_images env ev st).1 ->
             exists record : dict, v = VDict record /\ record !! "s3_key" = None)
  /\ body_dict (GetImage.get_image env ev st).1 !! "s3_key" = None
  /\ response_data (GetImage.get_image env ev st).1 !! "s3_key" = None.
Proof.
split; [|apply get_image_no_s3_key].
destruct (list_images_records env ev st) as (items & ->).
intros v Hv.
apply list_elem_of_In, in_map_iff in Hv as (record & <- & Hrec).
apply in_map_iff in Hrec as (it & <- & _).
exists (delete "s3_key" it). split; [reflexivity|apply lookup_delete_eq].
Qed.

Lemma storage_key_never_returned_witness :
  let env := Demo.env [] Demo.no_fault in
  let ev := Demo.request [("image_id", "img-1")] [("user_id", "user123")] None in
  listed_images (ListImages.list_images env ev Demo.st).1 =
    [VDict (delete "s3_key" Demo.item)]
  /\ (exists record : dict,
        VDict (delete "s3_key" Demo.item) = VDict record
        /\ record !! "s3_key" = None)
  /\ response_data (GetImage.get_image env ev Demo.st).1 !! "s3_key" = None.
Proof.
intros env ev.
destruct (storage_key_never_returned env ev Demo.st) as (Hlist & _ & Hget).
assert (Himages : listed_images (ListImages.list_images env ev Demo.st).1 =
                  [VDict (delete "s3_key" Demo.item)])
  by (vm_compute; reflexivity).
split; [exact Himages|]. split; [|exact Hget].
apply Hlist. rewrite Himages. apply list_elem_of_here.
Defined.








(** C6, as the handler has it.  For every list request whose [limit] is
    absent or read by [int()] and whose [last_evaluated_key] is not empty
    and makes [json.loads] raise, no scan is made and the stores are as
    before.  When [json.loads] raises [JSONDecodeError] the response is
    400 INVALID_PAGINATION; every other exception goes to the outer
    clauses of the handler: a plain [ValueError] gives 400
    INVALID_PARAMETER, anything else 500 INTERNAL_ERROR. *)
Theorem list_invalid_cursor env ev st limit cursor e :
  ListImages.page_limit (list_params ev) = Ok limit ->
  list_params ev !! "last_evaluated_key" = Some cursor ->
  cursor ≠ "" ->
  json_loads env cursor = Raise e ->
  (is_JSONDecodeError e = true ->
   ListImages.list_images env ev st = (invalid_pagination_response, st)
   /\ statusCode invalid_pagination_response = 400
   /\ error_code invalid_pagination_response = Some "INVALID_PAGINATION")
  /\ (is_JSONDecodeError e = false ->
      ListImages.list_images env ev st = (ListImages.on_error e, st)
      /\ statusCode (ListImages.on_error e)
         = (if is_ValueError e then 400 else 500)
      /\ error_code (ListImages.on_error e)
         = Some (if is_ValueError e then "INVALID_PARAMETER"
                 else "INTERNAL_ERROR"))
  /\ trace (ListImages.list_images env ev st).2 = trace st.
Proof.
intros Hlimit Hcursor Hne Hparse.
assert (Hrun : ListImages.list_images env ev st =
               (if is_JSONDecodeError e then invalid_pagination_response
                else ListImages.on_error e, st)).
{ rewrite list_images_cases. cbn zeta. rewrite Hlimit, Hcursor.
  cbn [provided default from_option id]. rewrite Hparse.
  destruct (String.eqb_spec cursor ""); [contradiction|reflexivity]. }
rewrite Hrun. split; [|split; [|reflexivity]].
- intros ->. repeat split; reflexivity.
- intros ->. split; [reflexivity|].
  unfold ListImages.on_error. now destruct (is_ValueError e).
Qed.

Lemma list_invalid_cursor_witness :
  let env := Demo.env [(Demo.cursor, Demo.cursor_key)] Demo.no_fault in
  let ev := Demo.request [] [("last_evaluated_key", "{not json")] None in
  ListImages.list_images env ev Demo.st = (invalid_pagination_response, Demo.st)
  /\ trace (ListImages.list_images env ev Demo.st).2 = [].
Proof.
intros env ev.
destruct (list_invalid_cursor env ev Demo.st 20 "{not json"
            (JSONDecodeError "Expecting value"))
  as (Hjson & _ & Htrace); try reflexivity; [discriminate|].
destruct (Hjson eq_refl) as (Hrun & _).
split; [exact Hrun|exact Htrace].
Defined.

(** Three requests whose cursor does not parse and that do not end in
    INVALID_PAGINATION: with a [limit] that is not an integer the request
    fails with INVALID_PARAMETER; with the empty cursor the listing is
    scanned from the beginning and answered with 200; with a cursor
    nested so deeply that [json.loads] raises [RecursionError] the request
    fails with 500 INTERNAL_ERROR. *)
Lemma list_cursor_counterexample :
  let env := Demo.env [(Demo.cursor, Demo.cursor_key)] Demo.no_fault in
  let bad_limit := Demo.request []
                     [("limit", "abc"); ("last_evaluated_key", "{not json")]
                     None in
  let empty_cursor := Demo.request [] [("last_evaluated_key", "")] None in
  let deep := Demo.request [] [("last_evaluated_key", DemoDeep.cursor)] None in
  json_loads env Demo.cursor = Ok Demo.cursor_key
  /\ json_loads env "{not json" = Raise (JSONDecodeError "Expecting value")
  /\ error_code (ListImages.list_images env bad_limit Demo.st).1
     = Some "INVALID_PARAMETER"
  /\ list_params empty_cursor !! "last_evaluated_key" = Some ""
  /\ json_loads env "" = Raise (JSONDecodeError "Expecting value")
  /\ statusCode (ListImages.list_images env empty_cursor Demo.st).1 = 200
  /\ trace (ListImages.list_images env empty_cursor Demo.st).2
     = [Scan {| Limit := 20; FilterExpression := None;
                ExclusiveStartKey := None |}]
  /\ listed_images (ListImages.list_images env empty_cursor Demo.st).1
     = [VDict (delete "s3_key" Demo.item)]
  /\ json_loads DemoDeep.env DemoDeep.cursor = Raise DemoDeep.error
  /\ statusCode (ListImages.list_images DemoDeep.env deep Demo.st).1 = 500
  /\ error_code (ListImages.list_images DemoDeep.env deep Demo.st).1
     = Some "INTERNAL_ERROR".
Proof.
intros env bad_limit empty_cursor deep. repeat split; vm_compute; reflexivity.
Qed.

(** *** The filter of a list request *)

Lemma prefix_spec (t s : string) :
  String.prefix t s = true <-> exists post, s = t +:+ post.
Proof.
revert s. induction t as [|c t IH]; intros s.
- destruct s; cbn; split; eauto.
- destruct s as [|d s]; cbn.
  + split; [discriminate|]. intros (post & [=]).
  + destruct (ascii_dec c d) as [->|Hne].
    * rewrite IH. split; intros (post & H); exists post.
      -- now rewrite H.
      -- now injection H.
    * split; [discriminate|]. intros (post & H). injection H as H1 _.
      congruence.
Qed.

Lemma contains_spec (t s : string) :
  PyStr.contains t s = true <-> is_substring t s.
Proof.
unfold is_substring. induction s as [|d s IH].
- cbn [PyStr.contains]. rewrite orb_false_r, prefix_spec. split.
  + intros (post & ->). now exists "", post.
  + intros ([|] & post & H); [now exists post|discriminate].
- cbn [PyStr.contains]. rewrite orb_true_iff, prefix_spec, IH. split.
  + intros [(post & ->)|(pre & post & ->)].
    * now exists "", post.
    * now exists (String d pre), post.
  + intros ([|e pre] & post & H).
    * left. now exists post.
    * right. injection H as -> ->. now exists pre, post.
Qed.

Lemma eval_Equals it a v :
  eval_cond (Equals a v) it = true <-> exact_match it a v.
Proof.
unfold exact_match. cbn. destruct (it !! a) as [[]|]; try (split; discriminate).
rewrite String.eqb_eq. split; congruence.
Qed.

Lemma existsb_member (l : list value) (v : string) :
  existsb (fun x => match x with VStr s => String.eqb s v | _ => false end) l
  = true <-> VStr v ∈ l.
Proof.
rewrite existsb_exists. split.
- intros (x & Hin & Hx). destruct x; try discriminate.
  apply String.eqb_eq in Hx as ->. now apply list_elem_of_In.
- intros Hin. exists (VStr v). split; [now apply list_elem_of_In|].
  apply String.eqb_refl.
Qed.

Lemma eval_Contains it a v :
  eval_cond (Contains a v) it = true <-> contains_match it a v.
Proof.
unfold contains_match, substring_match, member_match. cbn.
destruct (it !! a) as [x|].
- destruct x;
    try (split; [discriminate|intros [(s' & [=] & _)|(l' & [=] & _)]]).
  + rewrite contains_spec. split.
    * intros H. left. eauto.
    * intros [(s' & [= <-] & H)|(l' & [=] & _)]. exact H.
  + rewrite existsb_member. split.
    * intros H. right. eauto.
    * intros [(s' & [=] & _)|(l' & [= <-] & H)]. exact H.
- split; [discriminate|]. intros [(s' & [=] & _)|(l' & [=] & _)].
Qed.

Lemma eval_GreaterThanEquals it a v :
  eval_cond (GreaterThanEquals a v) it = true <-> not_before it a v.
Proof.
unfold not_before. cbn. destruct (it !! a) as [x|].
- destruct x; try (split; [discriminate|intros (s' & [=] & _)]).
  split; [eauto|]. now intros (s' & [= <-] & H).
- split; [discriminate|]. intros (s' & [=] & _).
Qed.

Lemma eval_LessThanEquals it a v :
  eval_cond (LessThanEquals a v) it = true <-> not_after it a v.
Proof.
unfold not_after. cbn. destruct (it !! a) as [x|].
- destruct x; try (split; [discriminate|intros (s' & [=] & _)]).
  split; [eauto|]. now intros (s' & [= <-] & H).
- split; [discriminate|]. intros (s' & [=] & _).
Qed.

Section Filter.
Import ListImages.
Variables (params : gmap string string) (it : dict).

Lemma eval_and_with fe c :
  eval_cond (and_with fe c) it = holds fe it && eval_cond c it.
Proof. now destruct fe. Qed.

(** One [if criterion:] step of the construction. *)
Lemma holds_step fe k (mk : string -> cond) :
  holds (if provided (params !! k)
         then Some (and_with fe (mk (default "" (params !! k)))) else fe) it
  = holds fe it && test_of params k (fun s => eval_cond (mk s) it).
Proof.
unfold test_of, criterion, provided.
destruct (params !! k) as [s|]; [destruct (String.eqb s "")|]; cbn [negb].
- now rewrite andb_true_r.
- cbn [holds]. now rewrite eval_and_with.
- now rewrite andb_true_r.
Qed.

(** The loop over the tags builds the disjunction of the tests. *)
Lemma tags_loop (l : list string) (acc : option cond) :
  match fold_left (fun acc tag => Some (or_with acc (Contains "tags" tag)))
                  l acc with
  | Some c =>
      eval_cond c it =
      match acc with Some a => eval_cond a it | None => false end
      || existsb (fun tag => eval_cond (Contains "tags" tag) it) l
  | None => acc = None /\ l = []
  end.
Proof.
revert acc. induction l as [|tag l IH]; intros acc.
- cbn [fold_left existsb]. destruct acc; [now rewrite orb_false_r|now split].
- cbn [fold_left existsb]. specialize (IH (Some (or_with acc (Contains "tags" tag)))).
  destruct (fold_left _ l _) as [c|]; [|now destruct IH].
  rewrite IH. destruct acc; cbn [or_with eval_cond]; [now rewrite orb_assoc|reflexivity].
Qed.

Lemma split_comma_nonempty (s : string) : PyStr.split_comma s ≠ [].
Proof.
destruct s as [|c s]; cbn; [discriminate|].
destruct (Ascii.eqb c ","); [discriminate|].
now destruct (PyStr.split_comma s).
Qed.

Lemma tags_condition_spec (tags : string) :
  exists c, tags_condition tags = Some c /\ eval_cond c it = tag_test it tags.
Proof.
unfold tags_condition, tag_test. fold (candidates tags).
pose proof (tags_loop (candidates tags) None) as H.
destruct (fold_left _ _ _) as [c|].
- exists c. split; [reflexivity|exact H].
- destruct H as [_ H]. unfold candidates in H.
  apply map_eq_nil in H. now apply split_comma_nonempty in H.
Qed.

Lemma holds_tags_step fe :
  holds (if provided (params !! "tags")
         then match tags_condition (default "" (params !! "tags")) with
              | Some tc => Some (and_with fe tc)
              | None => fe
              end
         else fe) it
  = holds fe it && test_of params "tags" (tag_test it).
Proof.
unfold test_of, criterion, provided.
destruct (params !! "tags") as [s|]; [destruct (String.eqb s "")|]; cbn [negb].
- now rewrite andb_true_r.
- cbn [default from_option id].
  destruct (tags_condition_spec s) as (c & -> & Hc).
  cbn [holds]. now rewrite eval_and_with, Hc.
- now rewrite andb_true_r.
Qed.

(** The filter of a request is the conjunction of the tests of its
    criteria. *)
Lemma accepts_conjunction :
  accepts params it =
  test_of params "user_id" (fun u => eval_cond (Equals "user_id" u) it)
  && test_of params "title" (fun t => eval_cond (Contains "title" t) it)
  && test_of params "tags" (tag_test it)
  && test_of params "location" (fun l => eval_cond (Contains "location" l) it)
  && test_of params "created_after"
       (fun a => eval_cond (GreaterThanEquals "created_at" a) it)
  && test_of params "created_before"
       (fun b => eval_cond (LessThanEquals "created_at" b) it).
Proof.
change (accepts params it) with (holds (build_filter params) it).
unfold build_filter. cbn zeta.
rewrite (holds_step _ "created_before" (LessThanEquals "created_at")).
rewrite (holds_step _ "created_after" (GreaterThanEquals "created_at")).
rewrite (holds_step _ "location" (Contains "location")).
rewrite holds_tags_step.
rewrite (holds_step _ "title" (Contains "title")).
change (Equals "user_id" (default "" (params !! "user_id")))
  with (and_with None (Equals "user_id" (default "" (params !! "user_id")))).
rewrite (holds_step None "user_id" (Equals "user_id")).
reflexivity.
Qed.

Lemma test_of_true k (test : string -> bool) :
  test_of params k test = true <->
  forall s, criterion params k = Some s -> test s = true.
Proof.
unfold test_of. destruct (criterion params k) as [s|].
- split; [now intros H s' [= <-]|auto].
- split; [discriminate|reflexivity].
Qed.

Lemma tag_test_true (tags : string) :
  tag_test it tags = true <->
  exists tag, tag ∈ candidates tags /\ contains_match it "tags" tag.
Proof.
unfold tag_test. rewrite existsb_exists. split.
- intros (tag & Hin & H). exists tag.
  split; [now apply list_elem_of_In|now apply eval_Contains].
- intros (tag & Hin & H). exists tag.
  split; [now apply list_elem_of_In|now apply eval_Contains].
Qed.

End Filter.

(** C4, as the handler has it.  The list filter accepts a record exactly
    when every criterion given with a non-empty value holds of it:
    [user_id] is an exact match, [title] and [location] are [contains]
    tests (a substring match on a string attribute), [created_after] and
    [created_before] are inclusive bounds on [created_at], and [tags]
    holds when one of its comma-separated candidates, trimmed, passes the
    [contains] test on [tags] (membership in the list of tags).  A
    criterion that is absent or empty does not constrain, and when none
    is given every record is accepted. *)
Theorem list_filter_conjunction (params : gmap string string) (it : dict) :
  (ListImages.accepts params it = true <->
     (forall u, criterion params "user_id" = Some u ->
                exact_match it "user_id" u)
     /\ (forall t, criterion params "title" = Some t ->
                   contains_match it "title" t)
     /\ (forall ts, criterion params "tags" = Some ts ->
                    exists tag, tag ∈ candidates ts
                                /\ contains_match it "tags" tag)
     /\ (forall l, criterion params "location" = Some l ->
                   contains_match it "location" l)
     /\ (forall a, criterion params "created_after" = Some a ->
                   not_before it "created_at" a)
     /\ (forall b, criterion params "created_before" = Some b ->
                   not_after it "created_at" b))
  /\ ((forall k, k ∈ criteria -> criterion params k = None) ->
      ListImages.accepts params it = true).
Proof.
assert (Hiff :
  ListImages.accepts params it = true <->
     (forall u, criterion params "user_id" = Some u ->
                exact_match it "user_id" u)
     /\ (forall t, criterion params "title" = Some t ->
                   contains_match it "title" t)
     /\ (forall ts, criterion params "tags" = Some ts ->
                    exists tag, tag ∈ candidates ts
                                /\ contains_match it "tags" tag)
     /\ (forall l, criterion params "location" = Some l ->
                   contains_match it "location" l)
     /\ (forall a, criterion params "created_after" = Some a ->
                   not_before it "created_at" a)
     /\ (forall b, criterion params "created_before" = Some b ->
                   not_after it "created_at" b)).
{ rewrite accepts_conjunction, !andb_true_iff, !test_of_true.
  setoid_rewrite eval_Equals. setoid_rewrite eval_Contains.
  setoid_rewrite eval_GreaterThanEquals. setoid_rewrite eval_LessThanEquals.
  setoid_rewrite tag_test_true. tauto. }
split; [exact Hiff|].
intros Hnone. apply Hiff.
assert (Hk : forall k s, In k criteria -> criterion params k = Some s -> False).
{ intros k s Hin Hs. rewrite Hnone in Hs by now apply list_elem_of_In.
  discriminate. }
repeat split; intros s Hs; exfalso; refine (Hk _ _ _ Hs); cbn; tauto.
Qed.

Lemma list_filter_conjunction_witness :
  let params := Records.query [("user_id", "A"); ("tags", "x, y")] in
  ListImages.accepts params Records.R3 = true
  /\ ListImages.accepts (Records.query [("limit", "5")]) Records.R2 = true.
Proof.
intros params. split.
- apply (proj1 (list_filter_conjunction params Records.R3)).
  repeat split; intros s Hs; vm_compute in Hs; try discriminate;
    injection Hs as <-.
  + reflexivity.
  + exists "y". split.
    * vm_compute. set_solver.
    * right. exists [VStr "x"; VStr "y"]. split; [reflexivity|set_solver].
- apply (proj2 (list_filter_conjunction (Records.query [("limit", "5")])
                  Records.R2)).
  intros k Hk. unfold criteria in Hk.
  repeat (apply elem_of_cons in Hk as [->|Hk]; [vm_compute; reflexivity|]).
  now apply elem_of_nil in Hk.
Defined.

(** The filter example of the specification. *)
Example filter_by_owner :
  List.filter (ListImages.accepts (Records.query [("user_id", "A")]))
    [Records.R1; Records.R2; Records.R3] = [Records.R1; Records.R3].
Proof. vm_compute. reflexivity. Qed.

Example filter_by_tags :
  List.filter (ListImages.accepts (Records.query [("tags", "x,y")]))
    [Records.R1; Records.R2; Records.R3]
  = [Records.R1; Records.R2; Records.R3].
Proof. vm_compute. reflexivity. Qed.

Example filter_by_owner_and_tag :
  List.filter
    (ListImages.accepts (Records.query [("user_id", "A"); ("tags", "y")]))
    [Records.R1; Records.R2; Records.R3] = [Records.R3].
Proof. vm_compute. reflexivity. Qed.

(** A criterion given with the empty value does not constrain: with
    [user_id] empty the record of owner [A] is accepted, though its owner
    is not the empty string. *)
Lemma list_filter_counterexample :
  let params := Records.query [("user_id", "")] in
  params !! "user_id" = Some ""
  /\ Records.R1 !! "user_id" = Some (VStr "A")
  /\ ~ exact_match Records.R1 "user_id" ""
  /\ ListImages.accepts params Records.R1 = true.
Proof.
intros params. repeat split; try (vm_compute; reflexivity).
unfold exact_match. vm_compute. discriminate.
Qed.

(** ** Validation of metadata *)

Lemma dict_nonempty (m : dict) (k : string) (v : value) :
  m !! k = Some v -> truthy (VDict m) = true.
Proof.
intros H. cbn. apply negb_true_iff, bool_decide_eq_false.
intros ->. now rewrite lookup_empty in H.
Qed.

Lemma too_long_false (limit : nat) (o : option value) :
  (forall v, o = Some v -> (PyRepr.str_len v <= limit)%nat) ->
  Validators.too_long limit o = false.
Proof.
intros H. destruct o as [v|]; [|reflexivity].
cbn. apply Nat.ltb_ge, H. reflexivity.
Qed.

Lemma too_long_true (limit : nat) (v : value) :
  (limit < PyRepr.str_len v)%nat -> Validators.too_long limit (Some v) = true.
Proof. intros H. cbn. now apply Nat.ltb_lt. Qed.

Lemma no_bad_tag (tags : list string) :
  Forall (fun t => (String.length t <= 50)%nat) tags ->
  existsb Validators.bad_tag (List.map VStr tags) = false.
Proof.
induction 1 as [|t tags Ht _ IH]; [reflexivity|].
cbn [List.map existsb Validators.bad_tag]. rewrite IH, orb_false_r.
now apply Nat.ltb_ge.
Qed.

Lemma long_tag_is_bad (l : list value) (t : string) :
  VStr t ∈ l -> (50 < String.length t)%nat ->
  existsb Validators.bad_tag l = true.
Proof.
intros Hin Hlen. apply existsb_exists. exists (VStr t).
split; [now apply list_elem_of_In|]. now apply Nat.ltb_lt.
Qed.

(** C8. Metadata validation accepts every metadata object whose fields
    are within their bounds, in particular exactly at them: a title of
    256 characters, a description of 2048 characters, a list of 20 tags,
    tags of 50 characters.  It rejects every metadata object with a title
    longer than 256, a description longer than 2048, more than 20 tags,
    or a tag longer than 50 characters. *)
Theorem validate_metadata_bounds (m : dict) :
  ((forall v, m !! "title" = Some v -> (PyRepr.str_len v <= 256)%nat) ->
   (forall v, m !! "description" = Some v -> (PyRepr.str_len v <= 2048)%nat) ->
   (forall v, m !! "tags" = Some v ->
      exists tags, v = VList (List.map VStr tags)
                   /\ (List.length tags <= 20)%nat
                   /\ Forall (fun t => (String.length t <= 50)%nat) tags) ->
   Validators.validate_metadata (VDict m) = (true, None))
  /\ (forall v, m !! "title" = Some v -> (256 < PyRepr.str_len v)%nat ->
        (Validators.validate_metadata (VDict m)).1 = false)
  /\ (forall v, m !! "description" = Some v -> (2048 < PyRepr.str_len v)%nat ->
        (Validators.validate_metadata (VDict m)).1 = false)
  /\ (forall l, m !! "tags" = Some (VList l) -> (20 < List.length l)%nat ->
        (Validators.validate_metadata (VDict m)).1 = false)
  /\ (forall l t, m !! "tags" = Some (VList l) -> VStr t ∈ l ->
        (50 < String.length t)%nat ->
        (Validators.validate_metadata (VDict m)).1 = false).
Proof.
unfold Validators.validate_metadata, Validators.metadata_checks. repeat split.
- intros Htitle Hdesc Htags.
  destruct (truthy (VDict m)); [|reflexivity]. cbn [negb].
  rewrite (too_long_false _ _ Htitle), (too_long_false _ _ Hdesc).
  destruct (m !! "tags") as [v|]; [|reflexivity].
  destruct (Htags v eq_refl) as (tags & -> & Hn & Hlen).
  rewrite length_map. apply Nat.ltb_ge in Hn. rewrite Hn.
  now rewrite (no_bad_tag _ Hlen).
- intros v Hv Hlen. rewrite (dict_nonempty _ _ _ Hv), Hv. cbn [negb].
  now rewrite (too_long_true _ _ Hlen).
- intros v Hv Hlen. rewrite (dict_nonempty _ _ _ Hv), Hv. cbn [negb].
  rewrite (too_long_true _ _ Hlen). now destruct (Validators.too_long _ _).
- intros l Hl Hlen. rewrite (dict_nonempty _ _ _ Hl), Hl. cbn [negb].
  apply Nat.ltb_lt in Hlen. rewrite Hlen.
  now repeat destruct (Validators.too_long _ _).
- intros l t Hl Hin Hlen. rewrite (dict_nonempty _ _ _ Hl), Hl. cbn [negb].
  rewrite (long_tag_is_bad _ _ Hin Hlen).
  repeat destruct (Validators.too_long _ _); try reflexivity.
  now destruct (_ <? _)%nat.
Qed.

Lemma validate_metadata_bounds_witness :
  Validators.validate_metadata (VDict Bounds.at_bounds) = (true, None)
  /\ (Validators.validate_metadata (VDict Bounds.long_title)).1 = false
  /\ (Validators.validate_metadata (VDict Bounds.long_description)).1 = false
  /\ (Validators.validate_metadata (VDict Bounds.many_tags)).1 = false
  /\ (Validators.validate_metadata (VDict Bounds.long_tag)).1 = false.
Proof.
split; [|split; [|split; [|split]]].
- apply (proj1 (validate_metadata_bounds Bounds.at_bounds)).
  + intros v [= <-]. apply Nat.leb_le. vm_compute. reflexivity.
  + intros v [= <-]. apply Nat.leb_le. vm_compute. reflexivity.
  + intros v [= <-]. exists (List.repeat (Bounds.chars "g" 50) 20).
    split; [reflexivity|]. split; [apply Nat.leb_le; vm_compute; reflexivity|].
    apply Forall_forall. intros t Ht.
    apply list_elem_of_In, repeat_spec in Ht as ->.
    apply Nat.leb_le. vm_compute. reflexivity.
- apply (proj1 (proj2 (validate_metadata_bounds Bounds.long_title))
           (VStr (Bounds.chars "t" 257))); [reflexivity|].
  apply Nat.ltb_lt. vm_compute. reflexivity.
- apply (proj1 (proj2 (proj2 (validate_metadata_bounds Bounds.long_description)))
           (VStr (Bounds.chars "d" 2049))); [reflexivity|].
  apply Nat.ltb_lt. vm_compute. reflexivity.
- apply (proj1 (proj2 (proj2 (proj2
           (validate_metadata_bounds Bounds.many_tags))))
           (List.map VStr (List.repeat "g" 21))); [reflexivity|].
  apply Nat.ltb_lt. vm_compute. reflexivity.
- apply (proj2 (proj2 (proj2 (proj2
           (validate_metadata_bounds Bounds.long_tag))))
           [VStr "g"; VStr (Bounds.chars "g" 51)] (Bounds.chars "g" 51));
    [reflexivity|set_solver|].
  apply Nat.ltb_lt. vm_compute. reflexivity.
Defined.

(** ** Upload *)

Lemma add_optional_spec metadata k0 db_item db_item' :
  UploadImage.add_optional metadata k0 db_item = Ok db_item' ->
  (forall k, k ≠ k0 -> db_item' !! k = db_item !! k)
  /\ (forall v, db_item' !! k0 = Some v ->
                truthy v = true \/ db_item !! k0 = Some v).
Proof.
unfold UploadImage.add_optional.
destruct (UploadImage.value_get metadata k0 VNone) as [v0|e]; [|discriminate].
intros [= <-]. destruct (truthy v0) eqn:Hv0.
- split.
  + intros k Hk. now rewrite lookup_insert_ne.
  + intros v. rewrite lookup_insert_eq. intros [= <-]. now left.
- split; [reflexivity|]. intros v Hv. now right.
Qed.

(** The optional fields leave the other members of the item alone, and
    an optional field they add has a true value. *)
Lemma add_optional_fields_spec metadata db_item item :
  UploadImage.add_optional_fields metadata db_item = Ok item ->
  (forall k, k ∉ optional_fields -> item !! k = db_item !! k)
  /\ (forall k v, k ∈ optional_fields -> item !! k = Some v ->
                  truthy v = true \/ db_item !! k = Some v).
Proof.
unfold UploadImage.add_optional_fields, UploadImage.and_then.
destruct (UploadImage.add_optional metadata "title" db_item)
  as [i1|] eqn:H1; [|discriminate].
destruct (UploadImage.add_optional metadata "description" i1)
  as [i2|] eqn:H2; [|discriminate].
destruct (UploadImage.add_optional metadata "tags" i2)
  as [i3|] eqn:H3; [|discriminate].
intros H4.
apply add_optional_spec in H1 as [O1 T1], H2 as [O2 T2],
  H3 as [O3 T3], H4 as [O4 T4].
split.
- intros k Hk. unfold optional_fields in Hk.
  rewrite O4, O3, O2, O1; [reflexivity|..]; intros ->; apply Hk; set_solver.
- intros k v Hk Hv. unfold optional_fields in Hk.
  repeat (apply elem_of_cons in Hk as [->|Hk]).
  + rewrite O4, O3, O2 in Hv by discriminate. now apply T1.
  + rewrite O4, O3 in Hv by discriminate.
    destruct (T2 _ Hv) as [?|Hv']; [now left|].
    right. now rewrite <- O1 by discriminate.
  + rewrite O4 in Hv by discriminate.
    destruct (T3 _ Hv) as [?|Hv']; [now left|].
    right. now rewrite <- O1, <- O2 by discriminate.
  + destruct (T4 _ Hv) as [?|Hv']; [now left|].
    right. now rewrite <- O1, <- O2, <- O3 by discriminate.
  + now apply elem_of_nil in Hk.
Qed.

Lemma key_string_inv (v : value) (k : string) :
  key_string v = Ok k -> v = VStr k /\ k ≠ "".
Proof.
destruct v; try discriminate. cbn.
destruct (String.eqb_spec s ""); [discriminate|]. now intros [= <-].
Qed.

Lemma value_get_inv (v : value) (k : string) (dflt x : value) :
  UploadImage.value_get v k dflt = Ok x ->
  exists d, v = VDict d /\ x = default dflt (d !! k).
Proof. destruct v; try discriminate. intros [= <-]. eauto. Qed.

(** A string literal is not in a list of other literals. *)
Ltac not_listed :=
  let H := fresh in
  intros H;
  repeat (apply elem_of_cons in H as [H|H]; [discriminate|]);
  now apply elem_of_nil in H.

(** A 201 of the upload handler: what has been decoded, put and
    answered. *)
Lemma upload_created env ev st r st1 :
  UploadImage.upload_image env ev st = (r, st1) ->
  statusCode r = 201 ->
  exists image_data stored key item,
    created env ev st st1 image_data stored key item
    /\ dict_get (response_data r) "image_id" = VStr (uuid4 env).
Proof.
unfold UploadImage.upload_image, UploadImage.upload_image_body,
  UploadImage.upload_parsed, run_handler.
unfold put_object, put_item, store_call, log, modify, lift, ret, raise.
unfold mbind, M_bind, bind.
intros Hrun Hstatus.
repeat case_match; simplify_eq; try (cbn in Hstatus; discriminate).
all: try (destruct (is_JSONDecodeError _); cbn in Hstatus; discriminate).
match goal with
| Hd : Validators.b64decode_value ?a = Ok ?stored,
  Hb : UploadImage.value_get ?body "image_data" VNone = Ok ?a,
  Hk : key_string (VStr ?key) = Ok _,
  Hi : key_string (dict_get ?item "image_id") = Ok _,
  Ho : UploadImage.add_optional_fields _ _ = Ok ?item |- _ =>
    destruct a as [| | |image_data| |]; try discriminate;
    apply value_get_inv in Hb as (d & -> & Hdata);
    apply key_string_inv in Hk as ([= <-] & Hkey);
    apply add_optional_fields_spec in Ho as (Hother & _);
    pose proof (Hother "image_id" ltac:(not_listed)) as Hid;
    pose proof (Hother "s3_key" ltac:(not_listed)) as Hs3;
    unfold dict_get in Hi; rewrite Hid in Hi;
    apply key_string_inv in Hi as ([= <-] & Huuid);
    exists image_data, stored, key, item
end.
split; [|reflexivity].
constructor; try assumption.
- exists d. split; [assumption|].
  destruct (d !! "image_data"); [cbn in Hdata; congruence|discriminate].
- cbn. now rewrite lookup_insert_eq.
- cbn. now rewrite lookup_insert_eq.
- eexists. cbn. now rewrite <- app_assoc.
Qed.

Lemma get_object_ok env key st obj :
  key ≠ "" -> fault env (GetObject (VStr key)) = None ->
  bucket st !! key = Some obj ->
  get_object env (VStr key) st = (Ok obj, logged (GetObject (VStr key)) st).
Proof.
intros Hkey Hf Hobj. unfold get_object.
rewrite (bind_ok _ _ _ _ _ (store_call_ok _ _ _ Hf)).
rewrite (key_string_ok _ Hkey), bind_lift_ok.
unfold gets, mbind, M_bind, bind. cbn. now rewrite Hobj.
Qed.

(** A get with [download=true] of a record whose blob is in the bucket
    answers with the encoding of the blob. *)
Lemma get_image_download env ev st id item key obj :
  found env ev st id item ->
  wants_download ev = true ->
  item !! "s3_key" = Some (VStr key) -> key ≠ "" ->
  fault env (GetObject (VStr key)) = None ->
  bucket st !! key = Some obj ->
  GetImage.get_image env ev st =
  (download_response (VStr id) item (Body obj),
   logged (GetObject (VStr key)) (logged (GetItem (VStr id)) st)).
Proof.
intros Hfound Hdl Hs3 Hkey Hf Hobj.
pose proof (found_id_nonempty env ev st id item Hfound) as Hid.
destruct Hfound as (Hreq & Hv & Hfg & Ht).
unfold GetImage.get_image, GetImage.get_image_body, run_handler.
fold (request_image_id ev). rewrite Hreq, Hv. cbn [negb].
fold (wants_download ev). rewrite Hdl.
rewrite (bind_ok _ _ _ _ _ (get_item_ok _ _ _ Hid Hfg)), Ht.
replace (dict_get item "s3_key") with (VStr key)
  by (unfold dict_get; now rewrite Hs3).
erewrite try_except_ok; [reflexivity|].
erewrite bind_ok; [|apply get_object_ok; eassumption].
reflexivity.
Qed.

(** A get response that carries [image_data] carries the encoding of the
    blob the record of the requested id points to. *)
Lemma get_image_data_inv env ev st encoded :
  body_dict (GetImage.get_image env ev st).1 !! "image_data"
    = Some (VStr encoded) ->
  exists id item key obj,
    request_image_id ev = VStr id
    /\ table st !! id = Some item
    /\ dict_get item "s3_key" = VStr key
    /\ bucket st !! key = Some obj
    /\ encoded = Base64.b64encode (Body obj).
Proof.
unfold GetImage.get_image, GetImage.get_image_body, run_handler.
fold (request_image_id ev).
destruct (Validators.validate_image_id _) as [[] msg]; cbn [negb];
  [|discriminate].
unfold get_item, get_object, generate_presigned_url, store_call, log, modify,
  gets, lift, ret, raise, try_except.
unfold mbind, M_bind, bind.
intros H.
repeat case_match; simplify_eq; try (cbn in H; discriminate).
match goal with
| Hid : key_string (request_image_id ev) = Ok ?id,
  Hkey : key_string (dict_get ?item "s3_key") = Ok ?key,
  Hobj : bucket _ !! ?key = Some ?obj |- _ =>
    apply key_string_inv in Hid as (Hid & _);
    apply key_string_inv in Hkey as (Hkey & _);
    exists id, item, key, obj
end.
cbn in H. injection H as <-. now repeat split.
Qed.

(** C9. For every successful upload (201) followed by a get of the image
    id the upload returned: whenever the response of the get carries
    [image_data], that text decodes to the very bytes the upload decoded
    from its own [image_data] and put in the bucket; and with
    [download=true] and no failure of the stores the get answers 200 and
    carries it. *)
Theorem upload_download_roundtrip env env' ev ev' st r st1 :
  UploadImage.upload_image env ev st = (r, st1) ->
  statusCode r = 201 ->
  String.length (uuid4 env) = 36%nat ->
  request_image_id ev' = dict_get (response_data r) "image_id" ->
  exists image_data stored key item,
    created env ev st st1 image_data stored key item
    /\ Base64.b64decode image_data = Ok stored
    /\ (forall encoded,
          body_dict (GetImage.get_image env' ev' st1).1 !! "image_data"
            = Some (VStr encoded) ->
          Base64.b64decode encoded = Ok stored)
    /\ (wants_download ev' = true -> (forall c, fault env' c = None) ->
        statusCode (GetImage.get_image env' ev' st1).1 = 200
        /\ body_dict (GetImage.get_image env' ev' st1).1 !! "image_data"
           = Some (VStr (Base64.b64encode stored))).
Proof.
intros Hup H201 Huuid Hreq.
destruct (upload_created env ev st r st1 Hup H201)
  as (image_data & stored & key & item & Hc & Hid).
rewrite Hid in Hreq.
pose proof (cr_bucket _ _ _ _ _ _ _ _ Hc) as Hb.
pose proof (cr_item_key _ _ _ _ _ _ _ _ Hc) as Hitem.
pose proof (cr_table _ _ _ _ _ _ _ _ Hc) as Htable.
destruct (bucket st1 !! key) as [obj|] eqn:Hobj; [|discriminate].
injection Hb as Hbody.
exists image_data, stored, key, item.
split; [exact Hc|]. split; [exact (cr_decoded _ _ _ _ _ _ _ _ Hc)|]. split.
- intros encoded Hdata.
  apply get_image_data_inv in Hdata
    as (id' & item' & key' & obj' & Hid' & Hitem' & Hkey' & Hobj' & ->).
  rewrite Hreq in Hid'. injection Hid' as <-.
  rewrite Htable in Hitem'. injection Hitem' as <-.
  unfold dict_get in Hkey'. rewrite Hitem in Hkey'. injection Hkey' as <-.
  rewrite Hobj in Hobj'. injection Hobj' as <-.
  rewrite Hbody. apply Base64Facts.b64decode_b64encode.
- intros Hdl Hnofault.
  assert (Hfound : found env' ev' st1 (uuid4 env) item).
  { repeat split; [exact Hreq| |apply Hnofault|exact Htable].
    apply validate_image_id_ok. split; [exact (cr_id _ _ _ _ _ _ _ _ Hc)|lia]. }
  rewrite (get_image_download env' ev' st1 _ _ _ _ Hfound Hdl Hitem
             (cr_key _ _ _ _ _ _ _ _ Hc) (Hnofault _) Hobj).
  rewrite Hbody. split; reflexivity.
Qed.

Lemma upload_download_roundtrip_witness :
  let up := UploadImage.upload_image DemoUpload.env DemoUpload.ev Demo.empty in
  let get := GetImage.get_image DemoUpload.env DemoUpload.download up.2 in
  statusCode up.1 = 201
  /\ bucket up.2 !! DemoUpload.key =
       Some {| Body := Demo.blob; ContentType := "image/png" |}
  /\ table up.2 !! DemoUpload.id = Some DemoUpload.item
  /\ body_dict get.1 !! "image_data" = Some (VStr "iVBORw==")
  /\ (exists image_data stored key item,
        created DemoUpload.env DemoUpload.ev Demo.empty up.2
          image_data stored key item
        /\ Base64.b64decode image_data = Ok stored
        /\ Base64.b64decode "iVBORw==" = Ok stored
        /\ statusCode get.1 = 200).
Proof.
intros up get.
assert (Hdata : body_dict get.1 !! "image_data" = Some (VStr "iVBORw=="))
  by (vm_compute; reflexivity).
split; [vm_compute; reflexivity|].
split; [vm_compute; reflexivity|].
split; [vm_compute; reflexivity|].
split; [exact Hdata|].
destruct (upload_download_roundtrip DemoUpload.env DemoUpload.env
            DemoUpload.ev DemoUpload.download Demo.empty up.1 up.2)
  as (image_data & stored & key & item & Hc & Hdec & Hround & Hserved).
- apply surjective_pairing.
- vm_compute. reflexivity.
- vm_compute. reflexivity.
- vm_compute. reflexivity.
- exists image_data, stored, key, item.
  split; [exact Hc|]. split; [exact Hdec|].
  split; [exact (Hround _ Hdata)|].
  apply Hserved; [vm_compute; reflexivity|intros c; reflexivity].
Defined.

Lemma base_item_optional image_id user_id s3_key filename content_type
    decoded_image timestamp k :
  k ∈ optional_fields ->
  UploadImage.base_item image_id user_id s3_key filename content_type
    decoded_image timestamp !! k = None.
Proof.
intros Hk. unfold optional_fields in Hk.
repeat (apply elem_of_cons in Hk as [->|Hk]; [reflexivity|]).
now apply elem_of_nil in Hk.
Qed.

Lemma truthy_not_empty (v : value) :
  truthy v = true -> v ≠ VStr "" /\ v ≠ VList [].
Proof. intros H. split; intros ->; discriminate. Qed.

(** The record an upload writes is a base item with the optional fields
    of some metadata added. *)
Lemma upload_put_item env ev st item :
  PutItem item ∈ trace (UploadImage.upload_image env ev st).2 ->
  PutItem item ∉ trace st ->
  exists metadata image_id user_id s3_key filename content_type
         decoded_image timestamp,
    UploadImage.add_optional_fields metadata
      (UploadImage.base_item image_id user_id s3_key filename content_type
         decoded_image timestamp) = Ok item.
Proof.
unfold UploadImage.upload_image, UploadImage.upload_image_body,
  UploadImage.upload_parsed, run_handler.
unfold put_object, put_item, store_call, log, modify, lift, ret, raise.
unfold mbind, M_bind, bind.
intros Hin Hout.
repeat case_match; simplify_eq; cbn in Hin;
  repeat (apply elem_of_app in Hin as [Hin|Hin]);
  try contradiction;
  try (apply list_elem_of_singleton in Hin; simplify_eq);
  eauto 10.
Qed.

Lemma empty_field_falsy (k : string) (v : value) :
  empty_field k v -> truthy v = false.
Proof. now intros [(_ & ->)|(_ & ->)]. Qed.

Section EmptyField.
Variables (m : dict) (k : string) (v : value).
Hypothesis Hfield : m !! k = Some v.

Lemma add_optional_delete k' db_item :
  truthy v = false ->
  UploadImage.add_optional (VDict (delete k m)) k' db_item =
  UploadImage.add_optional (VDict m) k' db_item.
Proof.
intros Hv. unfold UploadImage.add_optional, UploadImage.value_get.
destruct (decide (k = k')) as [<-|Hne].
- rewrite lookup_delete_eq, Hfield. cbn. now rewrite Hv.
- now rewrite lookup_delete_ne.
Qed.

(** The record built with a falsy optional field is the record built
    without the field. *)
Lemma add_optional_fields_delete db_item :
  truthy v = false ->
  UploadImage.add_optional_fields (VDict (delete k m)) db_item =
  UploadImage.add_optional_fields (VDict m) db_item.
Proof.
intros Hv. unfold UploadImage.add_optional_fields.
rewrite (add_optional_delete "title" db_item Hv).
destruct (UploadImage.add_optional (VDict m) "title" db_item) as [i1|];
  [|reflexivity]; cbn [UploadImage.and_then].
rewrite (add_optional_delete "description" i1 Hv).
destruct (UploadImage.add_optional (VDict m) "description" i1) as [i2|];
  [|reflexivity]; cbn [UploadImage.and_then].
rewrite (add_optional_delete "tags" i2 Hv).
destruct (UploadImage.add_optional (VDict m) "tags" i2) as [i3|];
  [|reflexivity]; cbn [UploadImage.and_then].
apply (add_optional_delete "location" i3 Hv).
Qed.

Lemma metadata_checks_delete :
  empty_field k v ->
  Validators.metadata_checks (delete k m) = Validators.metadata_checks m.
Proof.
unfold Validators.metadata_checks.
intros [(Hk & ->)|(-> & ->)].
- repeat (apply elem_of_cons in Hk as [->|Hk]);
    [..|now apply elem_of_nil in Hk];
    rewrite ?lookup_delete_eq, ?lookup_delete_ne by discriminate;
    rewrite ?Hfield; reflexivity.
- rewrite lookup_delete_eq, !lookup_delete_ne by discriminate.
  rewrite Hfield. reflexivity.
Qed.

Lemma validate_metadata_checks (d : dict) :
  Validators.validate_metadata (VDict d) = Validators.metadata_checks d.
Proof.
unfold Validators.validate_metadata.
destruct (truthy (VDict d)) eqn:Hd; [reflexivity|].
cbn in Hd. apply negb_false_iff, bool_decide_eq_true in Hd as ->.
reflexivity.
Qed.

Lemma validate_metadata_delete :
  empty_field k v ->
  Validators.validate_metadata (VDict (delete k m)) =
  Validators.validate_metadata (VDict m).
Proof.
intros H. rewrite !validate_metadata_checks. now apply metadata_checks_delete.
Qed.

End EmptyField.

(** An upload whose metadata has an optional field given empty runs as
    the upload without that field: same response, same calls, same
    stores. *)
Lemma upload_parsed_delete env (d m : dict) k v st :
  d !! "metadata" = Some (VDict m) ->
  m !! k = Some v ->
  empty_field k v ->
  UploadImage.upload_parsed env
    (VDict (<["metadata" := VDict (delete k m)]> d)) st =
  UploadImage.upload_parsed env (VDict d) st.
Proof.
intros Hmeta Hfield Hempty.
pose proof (empty_field_falsy k v Hempty) as Hfalsy.
unfold UploadImage.upload_parsed, UploadImage.value_get.
rewrite (lookup_insert_ne d "metadata" "image_data") by discriminate.
rewrite (lookup_insert_ne d "metadata" "filename") by discriminate.
rewrite (lookup_insert_ne d "metadata" "user_id") by discriminate.
rewrite lookup_insert_eq, Hmeta. cbn [default from_option id].
rewrite !bind_lift_ok.
rewrite (validate_metadata_delete m k v Hfield Hempty).
destruct (Validators.validate_user_id _) as [[] ?]; [|reflexivity].
cbn [negb].
destruct (Validators.validate_image_file _ _) as [[[] ?]|]; [|reflexivity..].
rewrite !bind_lift_ok. cbn [negb].
destruct (Validators.validate_metadata (VDict m)) as [[] ?]; [|reflexivity].
cbn [negb].
destruct (UploadImage.file_extension_of _); [|reflexivity].
rewrite !bind_lift_ok.
destruct (UploadImage.format_str _); [|reflexivity].
rewrite !bind_lift_ok.
destruct (Validators.b64decode_value _); [|reflexivity].
rewrite !bind_lift_ok.
unfold mbind, M_bind, bind.
destruct (put_object _ _ _ _ _) as [[[]|] st2]; [|reflexivity].
now rewrite (add_optional_fields_delete m k v Hfield _ Hfalsy).
Qed.

(** C10. The record an upload writes never has an optional field (title,
    description, tags, location) with a falsy value, so never an empty
    string nor an empty list of tags; and an optional field given empty
    is treated as an absent one: the record built is the same, and the
    whole upload (response, calls, stores) runs as without the field. *)
Theorem upload_omits_empty_fields env ev st :
  (forall item k v,
      PutItem item ∈ trace (UploadImage.upload_image env ev st).2 ->
      PutItem item ∉ trace st ->
      k ∈ optional_fields -> item !! k = Some v ->
      truthy v = true /\ v ≠ VStr "" /\ v ≠ VList [])
  /\ (forall (d m : dict) k v,
        d !! "metadata" = Some (VDict m) -> m !! k = Some v ->
        empty_field k v ->
        (forall db_item,
            UploadImage.add_optional_fields (VDict (delete k m)) db_item =
            UploadImage.add_optional_fields (VDict m) db_item)
        /\ UploadImage.upload_parsed env
             (VDict (<["metadata" := VDict (delete k m)]> d)) st =
           UploadImage.upload_parsed env (VDict d) st).
Proof.
split.
- intros item k v Hin Hout Hk Hv.
  destruct (upload_put_item env ev st item Hin Hout)
    as (metadata & image_id & user_id & s3_key & filename & content_type
        & decoded_image & timestamp & Hitem).
  apply add_optional_fields_spec in Hitem as (_ & Htrue).
  destruct (Htrue k v Hk Hv) as [Ht|Hbase].
  + split; [exact Ht|now apply truthy_not_empty].
  + now rewrite base_item_optional in Hbase.
- intros d m k v Hmeta Hfield Hempty. split.
  + intros db_item. apply (add_optional_fields_delete m k v Hfield).
    now apply (empty_field_falsy k v).
  + now apply (upload_parsed_delete env d m k v).
Qed.

Lemma upload_omits_empty_fields_witness :
  let up := UploadImage.upload_image DemoUpload.env DemoUpload.ev Demo.empty in
  trace up.2 = [PutObject DemoUpload.key Demo.blob "image/png";
                PutItem DemoUpload.item]
  /\ DemoUpload.item !! "description" = None
  /\ DemoUpload.item !! "tags" = None
  /\ (truthy (VStr "Red pixel") = true
      /\ VStr "Red pixel" ≠ VStr "" /\ VStr "Red pixel" ≠ VList [])
  /\ UploadImage.upload_parsed DemoUpload.env
       (VDict (<["metadata" := VDict (delete "description" DemoUpload.metadata)]>
                 DemoUpload.parsed)) Demo.empty =
     UploadImage.upload_parsed DemoUpload.env (VDict DemoUpload.parsed)
       Demo.empty.
Proof.
intros up.
assert (Htrace : trace up.2 = [PutObject DemoUpload.key Demo.blob "image/png";
                               PutItem DemoUpload.item])
  by (vm_compute; reflexivity).
destruct (upload_omits_empty_fields DemoUpload.env DemoUpload.ev Demo.empty)
  as (Hstored & Habsent).
split; [exact Htrace|].
split; [vm_compute; reflexivity|]. split; [vm_compute; reflexivity|].
split.
- apply (Hstored DemoUpload.item "title" (VStr "Red pixel")).
  + fold up. rewrite Htrace. apply list_elem_of_further, list_elem_of_here.
  + apply not_elem_of_nil.
  + apply list_elem_of_here.
  + reflexivity.
- apply (Habsent DemoUpload.parsed DemoUpload.metadata "description" (VStr "")).
  + reflexivity.
  + reflexivity.
  + left. split; [|reflexivity].
    apply list_elem_of_further, list_elem_of_here.
Defined.


(** * Further properties of the validators and the handlers *)

(** ** Validators *)

Lemma validate_user_id_ok (id : string) :
  Validators.validate_user_id (VStr id) = (true, None) <->
  id ≠ "" /\ (String.length id <= 128)%nat.
Proof.
unfold Validators.validate_user_id, truthy.
destruct (String.eqb_spec id "") as [->|Hne]; cbn [negb].
- split; [intros [=]|]. intros [H _]. now contradiction H.
- destruct (Nat.ltb_spec 128 (String.length id)).
  + split; [intros [=]|]. intros [_ H']. lia.
  + split; [|reflexivity]. intros _. split; [assumption|lia].
Qed.

(** A verdict rejects exactly when it carries a message. *)
Ltac verdict_message :=
  cbn; split;
  [ let H := fresh in intros H; first [discriminate H | eexists; reflexivity]
  | let H := fresh in intros (? & H); first [discriminate H | reflexivity] ].

(** X1. [validate_image_id] and [validate_user_id] accept exactly the
    non-empty strings of at most 128 characters; every other object
    ([None], a number, a list, the empty string, a longer string) is
    rejected, and a verdict carries a message exactly when it rejects. *)
Theorem identifier_validation (v : value) :
  (Validators.validate_image_id v = (true, None) <->
     exists s, v = VStr s /\ s ≠ "" /\ (String.length s <= 128)%nat)
  /\ (Validators.validate_user_id v = (true, None) <->
        exists s, v = VStr s /\ s ≠ "" /\ (String.length s <= 128)%nat)
  /\ ((Validators.validate_image_id v).1 = false <->
        exists msg, (Validators.validate_image_id v).2 = Some msg)
  /\ ((Validators.validate_user_id v).1 = false <->
        exists msg, (Validators.validate_user_id v).2 = Some msg).
Proof.
split; [|split; [|split]].
- split.
  + intros H. destruct v;
      try (unfold Validators.validate_image_id in H;
           destruct (negb (truthy _)); discriminate).
    exists s. split; [reflexivity|]. now apply validate_image_id_ok.
  + intros (s & -> & H). now apply validate_image_id_ok.
- split.
  + intros H. destruct v;
      try (unfold Validators.validate_user_id in H;
           destruct (negb (truthy _)); discriminate).
    exists s. split; [reflexivity|]. now apply validate_user_id_ok.
  + intros (s & -> & H). now apply validate_user_id_ok.
- unfold Validators.validate_image_id.
  destruct (negb (truthy v)); [verdict_message|].
  destruct v; try verdict_message.
  destruct (_ <? _)%nat; verdict_message.
- unfold Validators.validate_user_id.
  destruct (negb (truthy v)); [verdict_message|].
  destruct v; try verdict_message.
  destruct (_ <? _)%nat; verdict_message.
Qed.

Lemma truthy_str (s : string) : truthy (VStr s) = true <-> s ≠ "".
Proof.
cbn. destruct (String.eqb_spec s ""); split; intros; try easy.
Qed.

Lemma contains_dot_nonempty (f : string) :
  PyStr.contains "." f = true -> f ≠ "".
Proof. intros H ->. discriminate. Qed.

(** What an accepting verdict of [validate_image_file] has checked. *)
Lemma validate_image_file_accepts (image_data filename : value) msg :
  Validators.validate_image_file image_data filename = Ok (true, msg) ->
  exists s f data,
    image_data = VStr s /\ s ≠ ""
    /\ filename = VStr f /\ PyStr.contains "." f = true
    /\ PyStr.lower (PyStr.rsplit_dot_last f) ∈ Config.ALLOWED_EXTENSIONS
    /\ Base64.b64decode s = Ok data
    /\ Validators.size_of data <= Config.MAX_IMAGE_SIZE_BYTES.
Proof.
unfold Validators.validate_image_file.
destruct (truthy image_data) eqn:Hi; cbn [negb]; [|discriminate].
destruct (truthy filename) eqn:Hf; cbn [negb]; [|discriminate].
destruct (Validators.extension_of filename) as [ext|] eqn:Hext;
  [|discriminate].
destruct (bool_decide (ext ∈ Config.ALLOWED_EXTENSIONS)) eqn:Hallowed;
  cbn [negb]; [|discriminate].
destruct (Validators.b64decode_value image_data) as [data|] eqn:Hdec;
  [|discriminate].
destruct (Z.ltb_spec Config.MAX_IMAGE_SIZE_BYTES (Validators.size_of data));
  [discriminate|].
intros _.
destruct image_data as [| | |s| |]; try discriminate.
assert (Hstr : exists f, filename = VStr f /\ PyStr.contains "." f = true
                         /\ ext = PyStr.lower (PyStr.rsplit_dot_last f)).
{ destruct filename as [| | |f| |]; try discriminate; cbn in Hext.
  - destruct (PyStr.contains "." f) eqn:Hdot.
    + injection Hext as <-. eauto.
    + injection Hext as <-. vm_compute in Hallowed. discriminate.
  - destruct (existsb _ l); [discriminate|]. injection Hext as <-.
    vm_compute in Hallowed. discriminate.
  - destruct (bool_decide _); [discriminate|]. injection Hext as <-.
    vm_compute in Hallowed. discriminate. }
destruct Hstr as (f & -> & Hdot & ->).
exists s, f, data. repeat split; try assumption.
- now apply truthy_str.
- now apply bool_decide_eq_true in Hallowed.
Qed.

(** What makes [validate_image_file] accept. *)
Lemma validate_image_file_accepted (s f : string) (data : bytes) :
  s ≠ "" -> PyStr.contains "." f = true ->
  PyStr.lower (PyStr.rsplit_dot_last f) ∈ Config.ALLOWED_EXTENSIONS ->
  Base64.b64decode s = Ok data ->
  Validators.size_of data <= Config.MAX_IMAGE_SIZE_BYTES ->
  Validators.validate_image_file (VStr s) (VStr f) = Ok (true, None).
Proof.
intros Hs Hdot Hext Hdec Hsize.
unfold Validators.validate_image_file.
rewrite (proj2 (truthy_str s) Hs).
rewrite (proj2 (truthy_str f) (contains_dot_nonempty f Hdot)).
cbn [negb Validators.extension_of Validators.b64decode_value].
rewrite Hdot, (bool_decide_eq_true_2 _ Hext), Hdec. cbn [negb].
destruct (Z.ltb_spec Config.MAX_IMAGE_SIZE_BYTES (Validators.size_of data));
  [lia|reflexivity].
Qed.

(** X2. [validate_image_file] accepts exactly when the image data is a
    non-empty string that decodes from base64 to at most 10 MiB and the
    file name is a string with a dot whose last extension, lowercased, is
    one of the allowed ones. *)
Theorem image_file_validation (image_data filename : value) :
  Validators.validate_image_file image_data filename = Ok (true, None) <->
  exists s f data,
    image_data = VStr s /\ s ≠ ""
    /\ filename = VStr f /\ PyStr.contains "." f = true
    /\ PyStr.lower (PyStr.rsplit_dot_last f) ∈ Config.ALLOWED_EXTENSIONS
    /\ Base64.b64decode s = Ok data
    /\ Validators.size_of data <= Config.MAX_IMAGE_SIZE_BYTES.
Proof.
split; [apply validate_image_file_accepts|].
intros (s & f & data & -> & Hs & -> & Hdot & Hext & Hdec & Hsize).
now apply validate_image_file_accepted with (data := data).
Qed.

Lemma no_bad_tag_inv (l : list value) :
  existsb Validators.bad_tag l = false ->
  exists tags, l = List.map VStr tags
               /\ Forall (fun t => (String.length t <= 50)%nat) tags.
Proof.
induction l as [|x l IH]; cbn [existsb].
- intros _. now exists [].
- intros H. apply orb_false_elim in H as [Hx Hl].
  destruct (IH Hl) as (tags & -> & Hall).
  destruct x as [| | |t| |]; try discriminate.
  exists (t :: tags). split; [reflexivity|].
  constructor; [|exact Hall].
  change ((50 <? String.length t)%nat = false) in Hx. now apply Nat.ltb_ge in Hx.
Qed.

Lemma too_long_false_inv (limit : nat) (o : option value) :
  Validators.too_long limit o = false ->
  forall v, o = Some v -> (PyRepr.str_len v <= limit)%nat.
Proof.
intros H v ->. change ((limit <? PyRepr.str_len v)%nat = false) in H.
now apply Nat.ltb_ge in H.
Qed.

(** X3. [validate_metadata] accepts exactly the falsy objects (no
    metadata: [None], an empty dictionary, an empty string or list, zero)
    and the dictionaries whose title and description, if present, render
    in at most 256 and 2048 characters and whose tags, if present, are a
    list of at most 20 strings of at most 50 characters each.  Nothing
    else is inspected: any [location], and any other member, passes. *)
Theorem metadata_validation (metadata : value) :
  Validators.validate_metadata metadata = (true, None) <->
  truthy metadata = false
  \/ exists m,
       metadata = VDict m
       /\ (forall v, m !! "title" = Some v -> (PyRepr.str_len v <= 256)%nat)
       /\ (forall v, m !! "description" = Some v ->
                     (PyRepr.str_len v <= 2048)%nat)
       /\ (forall v, m !! "tags" = Some v ->
             exists tags, v = VList (List.map VStr tags)
                          /\ (List.length tags <= 20)%nat
                          /\ Forall (fun t => (String.length t <= 50)%nat) tags).
Proof.
split.
- unfold Validators.validate_metadata.
  destruct (truthy metadata) eqn:Ht; cbn [negb]; [|now left].
  destruct metadata as [| | | | |m]; try discriminate.
  unfold Validators.metadata_checks.
  destruct (Validators.too_long 256 _) eqn:Htitle; [discriminate|].
  destruct (Validators.too_long 2048 _) eqn:Hdesc; [discriminate|].
  intros H. right. exists m. split; [reflexivity|].
  split; [exact (too_long_false_inv _ _ Htitle)|].
  split; [exact (too_long_false_inv _ _ Hdesc)|].
  intros v Hv. rewrite Hv in H.
  destruct v as [| | | |l|]; try discriminate.
  destruct (Nat.ltb_spec 20 (List.length l)); [discriminate|].
  destruct (existsb Validators.bad_tag l) eqn:Hbad; [discriminate|].
  destruct (no_bad_tag_inv l Hbad) as (tags & -> & Hall).
  exists tags. rewrite length_map in *. now repeat split.
- intros [Hfalsy|(m & -> & Htitle & Hdesc & Htags)].
  + unfold Validators.validate_metadata. now rewrite Hfalsy.
  + rewrite validate_metadata_checks. unfold Validators.metadata_checks.
    rewrite (too_long_false _ _ Htitle), (too_long_false _ _ Hdesc).
    destruct (m !! "tags") as [v|]; [|reflexivity].
    destruct (Htags v eq_refl) as (tags & -> & Hn & Hlen).
    rewrite length_map. apply Nat.ltb_ge in Hn. rewrite Hn.
    now rewrite (no_bad_tag _ Hlen).
Qed.

(** ** Responses of the handlers *)

(** Unfolds the calls to the stores and the monad. *)
Ltac unfold_calls :=
  unfold get_item, delete_item, put_item, scan, get_object, delete_object,
    put_object, generate_presigned_url, store_call, log, modify, gets, lift,
    ret, raise, try_except;
  unfold mbind, M_bind, bind.

(** Closes [conforms allowed r] for an explicit response [r]. *)
Ltac conforms_leaf :=
  split;
  [ repeat first [ apply list_elem_of_here | apply list_elem_of_further ]
  | split; reflexivity ].

Lemma internal_error_conforms allowed e :
  (500, Some "INTERNAL_ERROR") ∈ allowed -> conforms allowed (internal_error e).
Proof. intros H. split; [exact H|split; reflexivity]. Qed.

Lemma get_image_conforms env ev st :
  conforms get_outcomes (GetImage.get_image env ev st).1.
Proof.
unfold GetImage.get_image, GetImage.get_image_body, run_handler.
destruct (Validators.validate_image_id _) as [[] msg]; cbn [negb];
  [|conforms_leaf].
unfold_calls.
repeat case_match; simplify_eq; cbn [fst]; conforms_leaf.
Qed.

Lemma delete_image_conforms env ev st :
  conforms delete_outcomes (DeleteImage.delete_image env ev st).1.
Proof.
unfold DeleteImage.delete_image, DeleteImage.delete_image_body, run_handler.
destruct (Validators.validate_image_id _) as [[] msg]; cbn [negb];
  [|conforms_leaf].
unfold_calls.
repeat case_match; simplify_eq; cbn [fst]; conforms_leaf.
Qed.

Lemma on_error_conforms e : conforms list_outcomes (ListImages.on_error e).
Proof. unfold ListImages.on_error. destruct (is_ValueError e); conforms_leaf. Qed.

Lemma list_images_conforms env ev st :
  conforms list_outcomes (ListImages.list_images env ev st).1.
Proof.
rewrite list_images_cases. cbn zeta.
assert (Hs : forall p, conforms list_outcomes (scanned env p st).1).
{ intros p. unfold scanned. destruct (fault env (Scan p)).
  - apply on_error_conforms.
  - cbn [fst]. unfold ListImages.listing.
    destruct (LastEvaluatedKey _); conforms_leaf. }
destruct (ListImages.page_limit _); [|apply on_error_conforms].
destruct (provided _); [|apply Hs].
destruct (json_loads env _) as [k|e]; [apply Hs|].
destruct (is_JSONDecodeError e); [conforms_leaf|apply on_error_conforms].
Qed.

Lemma upload_image_conforms env ev st :
  conforms upload_outcomes (UploadImage.upload_image env ev st).1.
Proof.
unfold UploadImage.upload_image, UploadImage.upload_image_body,
  UploadImage.upload_parsed, run_handler.
unfold_calls.
repeat case_match; simplify_eq; cbn [fst];
  try (destruct (is_JSONDecodeError _)); conforms_leaf.
Qed.

(** X4. Every response of a handler has one of the handler's outcomes
    (status and error code), carries the default JSON and CORS headers,
    and has an [error] member in its body exactly when its status is 400
    or more. *)
Theorem handler_responses env ev st :
  conforms get_outcomes (GetImage.get_image env ev st).1
  /\ conforms delete_outcomes (DeleteImage.delete_image env ev st).1
  /\ conforms list_outcomes (ListImages.list_images env ev st).1
  /\ conforms upload_outcomes (UploadImage.upload_image env ev st).1.
Proof.
split; [apply get_image_conforms|].
split; [apply delete_image_conforms|].
split; [apply list_images_conforms|apply upload_image_conforms].
Qed.

(** ** What the handlers leave alone *)

Lemma scanned_same_stores env p st : same_stores st (scanned env p st).2.
Proof. unfold scanned. destruct (fault env (Scan p)); now split. Qed.

(** X5. A get and a list only read: whatever the request and whatever
    fails, the table and the bucket are afterwards what they were, and the
    trace has only grown. *)
Theorem get_and_list_read_only env ev st :
  same_stores st (GetImage.get_image env ev st).2
  /\ same_stores st (ListImages.list_images env ev st).2
  /\ (exists calls, trace (GetImage.get_image env ev st).2
                    = (trace st ++ calls)%list)
  /\ (exists calls, trace (ListImages.list_images env ev st).2
                    = (trace st ++ calls)%list).
Proof.
assert (Hget : same_stores st (GetImage.get_image env ev st).2
               /\ exists calls, trace (GetImage.get_image env ev st).2
                                = (trace st ++ calls)%list).
{ unfold GetImage.get_image, GetImage.get_image_body, run_handler.
  destruct (Validators.validate_image_id _) as [[] msg]; cbn [negb].
  2: { split; [now split|]. exists []. now rewrite app_nil_r. }
  unfold_calls.
  repeat case_match; simplify_eq; cbn;
    (split; [now split|]); rewrite <- ?app_assoc; eauto. }
assert (Hlist : same_stores st (ListImages.list_images env ev st).2
               /\ exists calls, trace (ListImages.list_images env ev st).2
                                = (trace st ++ calls)%list).
{ rewrite list_images_cases. cbn zeta.
  assert (Hs : forall p, same_stores st (scanned env p st).2
               /\ exists calls, trace (scanned env p st).2
                                = (trace st ++ calls)%list).
  { intros p. split; [apply scanned_same_stores|].
    unfold scanned. destruct (fault env (Scan p)); cbn; eauto. }
  assert (H0 : same_stores st st
               /\ exists calls, trace st = (trace st ++ calls)%list).
  { split; [now split|]. exists []. now rewrite app_nil_r. }
  destruct (ListImages.page_limit _); [|exact H0].
  destruct (provided _); [|apply Hs].
  destruct (json_loads env _) as [k|e]; [apply Hs|].
  destruct (is_JSONDecodeError e); exact H0. }
destruct Hget as (? & ?), Hlist as (? & ?). auto.
Qed.

(** ** The gates of get and delete *)

Lemma get_image_invalid env ev st :
  (Validators.validate_image_id (request_image_id ev)).1 = false ->
  GetImage.get_image env ev st =
  (ResponseHelpers.create_error_response 400
     (ResponseHelpers.opt_str
        (Validators.validate_image_id (request_image_id ev)).2)
     (Some "INVALID_IMAGE_ID"), st).
Proof.
intros H. unfold GetImage.get_image, GetImage.get_image_body, run_handler.
fold (request_image_id ev).
destruct (Validators.validate_image_id _) as [valid msg].
cbn in H. now subst.
Qed.

Lemma delete_image_invalid env ev st :
  (Validators.validate_image_id (request_image_id ev)).1 = false ->
  DeleteImage.delete_image env ev st =
  (ResponseHelpers.create_error_response 400
     (ResponseHelpers.opt_str
        (Validators.validate_image_id (request_image_id ev)).2)
     (Some "INVALID_IMAGE_ID"), st).
Proof.
intros H.
unfold DeleteImage.delete_image, DeleteImage.delete_image_body, run_handler.
fold (request_image_id ev).
destruct (Validators.validate_image_id _) as [valid msg].
cbn in H. now subst.
Qed.

(** With a valid id the lookup is the first call of a get and of a
    delete, and the response is not a 400. *)
Lemma valid_id_looked_up env ev st :
  (Validators.validate_image_id (request_image_id ev)).1 = true ->
  (statusCode (GetImage.get_image env ev st).1 ≠ 400
   /\ exists calls,
        trace (GetImage.get_image env ev st).2
        = (trace st ++ GetItem (request_image_id ev) :: calls)%list)
  /\ (statusCode (DeleteImage.delete_image env ev st).1 ≠ 400
      /\ exists calls,
           trace (DeleteImage.delete_image env ev st).2
           = (trace st ++ GetItem (request_image_id ev) :: calls)%list).
Proof.
intros Hvalid. split.
- unfold GetImage.get_image, GetImage.get_image_body, run_handler.
  fold (request_image_id ev).
  destruct (Validators.validate_image_id _) as [valid msg].
  cbn in Hvalid. subst valid. cbn [negb].
  unfold_calls.
  repeat case_match; simplify_eq; cbn;
    (split; [discriminate|]); rewrite <- ?app_assoc; cbn; eauto.
- unfold DeleteImage.delete_image, DeleteImage.delete_image_body, run_handler.
  fold (request_image_id ev).
  destruct (Validators.validate_image_id _) as [valid msg].
  cbn in Hvalid. subst valid. cbn [negb].
  unfold_calls.
  repeat case_match; simplify_eq; cbn;
    (split; [discriminate|]); rewrite <- ?app_assoc; cbn; eauto.
Qed.

Lemma validate_image_id_rejects (v : value) :
  (Validators.validate_image_id v).1 = false ->
  exists msg, (Validators.validate_image_id v).2 = Some msg.
Proof.
unfold Validators.validate_image_id.
destruct (negb (truthy v)); [eauto|].
destruct v as [| | |s| |]; cbn [fst snd]; eauto.
destruct (128 <? String.length s)%nat; cbn [fst snd]; eauto. discriminate.
Qed.

(** X6. A get or a delete answers 400 exactly when [validate_image_id]
    rejects the image id of the request; the response is then 400
    INVALID_IMAGE_ID with the message of the validator, no call to a
    store has been made and the state is untouched.  With a valid id the
    first call is the lookup of that id. *)
Theorem image_id_gate env ev st :
  let verdict := Validators.validate_image_id (request_image_id ev) in
  (statusCode (GetImage.get_image env ev st).1 = 400 <-> verdict.1 = false)
  /\ (statusCode (DeleteImage.delete_image env ev st).1 = 400 <->
      verdict.1 = false)
  /\ (verdict.1 = false ->
      exists msg,
        verdict.2 = Some msg
        /\ outcome (GetImage.get_image env ev st).1
           = (400, Some "INVALID_IMAGE_ID")
        /\ error_message (GetImage.get_image env ev st).1 = VStr msg
        /\ outcome (DeleteImage.delete_image env ev st).1
           = (400, Some "INVALID_IMAGE_ID")
        /\ error_message (DeleteImage.delete_image env ev st).1 = VStr msg
        /\ (GetImage.get_image env ev st).2 = st
        /\ (DeleteImage.delete_image env ev st).2 = st)
  /\ (verdict.1 = true ->
      (exists calls,
          trace (GetImage.get_image env ev st).2
          = (trace st ++ GetItem (request_image_id ev) :: calls)%list)
      /\ (exists calls,
             trace (DeleteImage.delete_image env ev st).2
             = (trace st ++ GetItem (request_image_id ev) :: calls)%list)).
Proof.
intros verdict. subst verdict.
destruct (Validators.validate_image_id (request_image_id ev)).1 eqn:Hvalid.
- destruct (valid_id_looked_up env ev st Hvalid) as ((Hg & Tg) & (Hd & Td)).
  repeat split; try discriminate; try tauto.
- rewrite (get_image_invalid env ev st Hvalid),
    (delete_image_invalid env ev st Hvalid).
  split; [now split|]. split; [now split|]. split; [|discriminate].
  intros _.
  destruct (validate_image_id_rejects _ Hvalid) as (msg & Hmsg).
  exists msg. rewrite Hmsg. repeat split; reflexivity.
Qed.

Lemma image_id_gate_witness :
  let env := Demo.env [] Demo.no_fault in
  let bad := Demo.request [("image_id", "")] [] None in
  let good := Demo.request [("image_id", "img-1")] [] None in
  statusCode (GetImage.get_image env bad Demo.st).1 = 400
  /\ (exists msg,
        Some "Image ID is required" = Some msg
        /\ outcome (GetImage.get_image env bad Demo.st).1
           = (400, Some "INVALID_IMAGE_ID")
        /\ error_message (GetImage.get_image env bad Demo.st).1 = VStr msg
        /\ outcome (DeleteImage.delete_image env bad Demo.st).1
           = (400, Some "INVALID_IMAGE_ID")
        /\ error_message (DeleteImage.delete_image env bad Demo.st).1
           = VStr msg
        /\ (GetImage.get_image env bad Demo.st).2 = Demo.st
        /\ (DeleteImage.delete_image env bad Demo.st).2 = Demo.st)
  /\ exists calls,
       trace (DeleteImage.delete_image env good Demo.st).2
       = GetItem (VStr "img-1") :: calls.
Proof.
intros env bad good.
destruct (image_id_gate env bad Demo.st) as (Hg & _ & Hbad & _).
destruct (image_id_gate env good Demo.st) as (_ & _ & _ & Hgood).
split; [apply Hg; reflexivity|].
split; [apply Hbad; reflexivity|].
apply Hgood. reflexivity.
Defined.


(** ** Lookups that find nothing *)

Lemma get_image_not_found env ev st id :
  request_image_id ev = VStr id ->
  Validators.validate_image_id (VStr id) = (true, None) ->
  fault env (GetItem (VStr id)) = None ->
  table st !! id = None ->
  GetImage.get_image env ev st =
  (not_found_response, logged (GetItem (VStr id)) st).
Proof.
intros Hreq Hv Hf Ht.
assert (Hid : id ≠ "") by now apply validate_image_id_ok in Hv.
unfold GetImage.get_image, GetImage.get_image_body, run_handler.
fold (request_image_id ev). rewrite Hreq, Hv. cbn [negb].
now rewrite (bind_ok _ _ _ _ _ (get_item_ok _ _ _ Hid Hf)), Ht.
Qed.

Lemma delete_image_not_found env ev st id :
  request_image_id ev = VStr id ->
  Validators.validate_image_id (VStr id) = (true, None) ->
  fault env (GetItem (VStr id)) = None ->
  table st !! id = None ->
  DeleteImage.delete_image env ev st =
  (not_found_response, logged (GetItem (VStr id)) st).
Proof.
intros Hreq Hv Hf Ht.
assert (Hid : id ≠ "") by now apply validate_image_id_ok in Hv.
unfold DeleteImage.delete_image, DeleteImage.delete_image_body, run_handler.
fold (request_image_id ev). rewrite Hreq, Hv. cbn [negb].
now rewrite (bind_ok _ _ _ _ _ (get_item_ok _ _ _ Hid Hf)), Ht.
Qed.

(** X7. A get or a delete of an id under which the table holds no record
    answers 404 IMAGE_NOT_FOUND (never a 500) after the lookup alone: no
    blob is read, presigned or deleted and no record is deleted. *)
Theorem unknown_image_not_found env ev st id :
  request_image_id ev = VStr id ->
  Validators.validate_image_id (VStr id) = (true, None) ->
  fault env (GetItem (VStr id)) = None ->
  table st !! id = None ->
  GetImage.get_image env ev st =
    (not_found_response, logged (GetItem (VStr id)) st)
  /\ DeleteImage.delete_image env ev st =
       (not_found_response, logged (GetItem (VStr id)) st)
  /\ outcome not_found_response = (404, Some "IMAGE_NOT_FOUND").
Proof.
intros Hreq Hv Hf Ht.
split; [now apply get_image_not_found|].
split; [now apply delete_image_not_found|reflexivity].
Qed.

Lemma unknown_image_not_found_witness :
  let env := Demo.env [] Demo.no_fault in
  let ev := Demo.request [("image_id", "nonexistent-id")] [] None in
  GetImage.get_image env ev Demo.st =
    (not_found_response, logged (GetItem (VStr "nonexistent-id")) Demo.st)
  /\ DeleteImage.delete_image env ev Demo.st =
       (not_found_response, logged (GetItem (VStr "nonexistent-id")) Demo.st).
Proof.
intros env ev.
destruct (unknown_image_not_found env ev Demo.st "nonexistent-id")
  as (Hg & Hd & _); try reflexivity.
now split.
Defined.

(** ** Get: a record without its blob, and the metadata view *)

Lemma get_object_missing env key st :
  key ≠ "" -> fault env (GetObject (VStr key)) = None ->
  bucket st !! key = None ->
  get_object env (VStr key) st =
  (Raise (NoSuchKey "The specified key does not exist."),
   logged (GetObject (VStr key)) st).
Proof.
intros Hkey Hf Hobj. unfold get_object.
rewrite (bind_ok _ _ _ _ _ (store_call_ok _ _ _ Hf)).
rewrite (key_string_ok _ Hkey), bind_lift_ok.
unfold gets, mbind, M_bind, bind. cbn. now rewrite Hobj.
Qed.

Lemma get_object_fail env key st e :
  fault env (GetObject key) = Some e ->
  get_object env key st = (Raise e, logged (GetObject key) st).
Proof.
intros Hf. unfold get_object.
now rewrite (bind_raise _ _ _ _ _ (store_call_fail _ _ _ _ Hf)).
Qed.

(** A get with [download=true] after the lookup has found [item]. *)
Lemma get_image_download_step env ev st id item :
  found env ev st id item ->
  wants_download ev = true ->
  GetImage.get_image env ev st =
  run_handler
    (try_except
       (s3_response ← get_object env (dict_get item "s3_key") ;
        ret (download_response (VStr id) item (Body s3_response)))
       is_NoSuchKey
       (fun _ => ret file_not_found_response))
    internal_error (logged (GetItem (VStr id)) st).
Proof.
intros Hfound Hdl.
pose proof (found_id_nonempty env ev st id item Hfound) as Hid.
destruct Hfound as (Hreq & Hv & Hfg & Ht).
unfold GetImage.get_image, GetImage.get_image_body, run_handler.
fold (request_image_id ev). rewrite Hreq, Hv. cbn [negb].
fold (wants_download ev). rewrite Hdl.
now rewrite (bind_ok _ _ _ _ _ (get_item_ok _ _ _ Hid Hfg)), Ht.
Qed.

(** X8. A get with [download=true] of a record whose blob is not in the
    bucket answers 404 FILE_NOT_FOUND, a code of its own, and so does one
    whose blob read fails with [NoSuchKey]; any other failure of the blob
    read is a 500 INTERNAL_ERROR.  The stores are left as they were. *)
Theorem missing_blob_not_found env ev st id item key :
  found env ev st id item ->
  wants_download ev = true ->
  item !! "s3_key" = Some (VStr key) -> key ≠ "" ->
  let st' := logged (GetObject (VStr key)) (logged (GetItem (VStr id)) st) in
  (fault env (GetObject (VStr key)) = None -> bucket st !! key = None ->
   GetImage.get_image env ev st = (file_not_found_response, st'))
  /\ (forall e, fault env (GetObject (VStr key)) = Some e ->
      GetImage.get_image env ev st =
      (if is_NoSuchKey e then file_not_found_response else internal_error e,
       st'))
  /\ outcome file_not_found_response = (404, Some "FILE_NOT_FOUND").
Proof.
intros Hfound Hdl Hs3 Hkey st'.
rewrite (get_image_download_step env ev st id item Hfound Hdl).
replace (dict_get item "s3_key") with (VStr key)
  by (unfold dict_get; now rewrite Hs3).
split; [|split; [|reflexivity]].
- intros Hf Hobj. unfold run_handler.
  now rewrite (try_except_caught _ _ _ _ _ _
    (bind_raise _ _ _ _ _ (get_object_missing env key (logged (GetItem (VStr id)) st)
       Hkey Hf Hobj))
    eq_refl).
- intros e Hf. unfold run_handler.
  pose proof (bind_raise _
    (fun s3_response =>
       ret (download_response (VStr id) item (Body s3_response)))
    _ _ _ (get_object_fail env (VStr key) (logged (GetItem (VStr id)) st) e Hf))
    as Hrun.
  destruct (is_NoSuchKey e) eqn:He.
  + now rewrite (try_except_caught _ _ _ _ _ _ Hrun He).
  + now rewrite (try_except_passed _ _ _ _ _ _ Hrun He).
Qed.

Lemma missing_blob_not_found_witness :
  let env := Demo.env [] Demo.no_fault in
  let ev := Demo.request [("image_id", "img-1")] [("download", "true")] None in
  let st := set_bucket ∅ Demo.st in
  GetImage.get_image env ev st =
  (file_not_found_response,
   logged (GetObject (VStr Demo.key)) (logged (GetItem (VStr "img-1")) st)).
Proof.
intros env ev st.
assert (Hf : found env ev st "img-1" Demo.item)
  by (repeat split; vm_compute; reflexivity).
destruct (missing_blob_not_found env ev st "img-1" Demo.item Demo.key Hf)
  as (Hmissing & _); [reflexivity|reflexivity|discriminate|].
apply Hmissing; reflexivity.
Defined.

Lemma metadata_of_shown (item : dict) (k : string) :
  k ∈ metadata_attributes -> GetImage.metadata_of item !! k = shown item k.
Proof.
intros Hk. unfold GetImage.metadata_of, shown, dict_get.
rewrite lookup_omap.
repeat (apply elem_of_cons in Hk as [->|Hk];
  [repeat (rewrite lookup_insert_ne by discriminate);
   rewrite lookup_insert_eq; now destruct (item !! _) as [[]|]|]).
now apply elem_of_nil in Hk.
Qed.

(** The presigning step of a get always completes. *)
Lemma presign_run env (item : dict) st :
  exists o : option string,
    try_except
      (u ← generate_presigned_url env (dict_get item "s3_key") 3600 ;
       ret (Some u))
      any_exception (fun _ => ret None) st =
    (Ok o, logged (GeneratePresignedUrl (dict_get item "s3_key") 3600) st)
    /\ (if provided o then Some (ResponseHelpers.opt_str o) else None) =
       VStr <$> presigned env item.
Proof.
unfold presigned, try_except, generate_presigned_url, store_call, log, modify,
  mbind, M_bind, bind, lift, ret, raise, any_exception.
destruct (fault env _) as [e|]; [now exists None|].
destruct (key_string _) as [k|e]; [|now exists None].
exists (Some (presigned_url env k 3600)). split; [reflexivity|].
cbn [provided ResponseHelpers.opt_str]. now destruct (String.eqb _ "").
Qed.

Lemma response_data_success (d : dict) msg code :
  response_data (ResponseHelpers.create_success_response (VDict d) msg code)
  = d.
Proof.
unfold response_data, body_dict, ResponseHelpers.create_success_response.
destruct msg as [m|]; [destruct (String.eqb m "")|]; cbn [negb];
  cbn [ResponseHelpers.create_response body].
- now rewrite lookup_singleton_eq.
- rewrite lookup_insert_ne by discriminate. now rewrite lookup_singleton_eq.
- now rewrite lookup_singleton_eq.
Qed.

Lemma metadata_attributes_not_url (k : string) :
  k ∈ metadata_attributes -> k ≠ "download_url" /\ k ≠ "url_expires_in".
Proof.
intros Hk.
repeat (apply elem_of_cons in Hk as [->|Hk]; [now split|]).
now apply elem_of_nil in Hk.
Qed.

(** X9. A get without [download=true] of a stored record answers 200 and
    shows of the record exactly the eleven metadata attributes it has with
    a value other than [None], each unchanged, plus [download_url] and
    [url_expires_in] = 3600 when the presigner answers with a non-empty
    URL.  A failing presigner does not fail the get: the two members are
    left out.  Only the lookup and the presigner are called. *)
Theorem get_image_metadata_view env ev st id item :
  found env ev st id item ->
  wants_download ev = false ->
  let r := (GetImage.get_image env ev st).1 in
  statusCode r = 200
  /\ (forall k, k ∈ metadata_attributes ->
        response_data r !! k = shown item k)
  /\ response_data r !! "download_url" = VStr <$> presigned env item
  /\ response_data r !! "url_expires_in" =
       (fun _ => VInt 3600) <$> presigned env item
  /\ (forall k, k ∉ metadata_attributes -> k ≠ "download_url" ->
        k ≠ "url_expires_in" -> response_data r !! k = None)
  /\ (GetImage.get_image env ev st).2 =
       logged (GeneratePresignedUrl (dict_get item "s3_key") 3600)
         (logged (GetItem (VStr id)) st).
Proof.
intros Hfound Hdl.
pose proof (found_id_nonempty env ev st id item Hfound) as Hid.
destruct Hfound as (Hreq & Hv & Hfg & Ht).
unfold GetImage.get_image, GetImage.get_image_body, run_handler.
fold (request_image_id ev). rewrite Hreq, Hv. cbn [negb].
fold (wants_download ev). rewrite Hdl.
rewrite (bind_ok _ _ _ _ _ (get_item_ok _ _ _ Hid Hfg)), Ht.
destruct (presign_run env item (logged (GetItem (VStr id)) st))
  as (o & Hrun & Ho).
rewrite (bind_ok _ _ _ _ _ Hrun). cbn [ret fst snd].
rewrite response_data_success.
destruct (presigned env item) as [url|] eqn:Hp;
  destruct (provided o) eqn:Hprov; try discriminate.
- injection Ho as Ho.
  split; [reflexivity|]. split.
  { intros k Hk.
    destruct (metadata_attributes_not_url k Hk) as [H1 H2].
    rewrite lookup_insert_ne, lookup_insert_ne by congruence.
    now apply metadata_of_shown. }
  split; [rewrite lookup_insert_ne by discriminate;
          now rewrite lookup_insert_eq, Ho|].
  split; [now rewrite lookup_insert_eq|].
  split; [|reflexivity].
  intros k Hk H1 H2.
  rewrite lookup_insert_ne, lookup_insert_ne by congruence.
  now apply metadata_of_no_key.
- split; [reflexivity|]. split.
  { intros k Hk. now apply metadata_of_shown. }
  split; [apply metadata_of_no_key; intros H;
          now apply metadata_attributes_not_url in H as [? ?]|].
  split; [apply metadata_of_no_key; intros H;
          now apply metadata_attributes_not_url in H as [? ?]|].
  split; [|reflexivity].
  intros k Hk _ _. now apply metadata_of_no_key.
Qed.

Lemma get_image_metadata_view_witness :
  let env := Demo.env [] presigner_down in
  let ev := Demo.request [("image_id", "img-1")] [] None in
  let r := (GetImage.get_image env ev Demo.st).1 in
  statusCode r = 200
  /\ response_data r !! "filename" = Some (VStr "test.png")
  /\ response_data r !! "download_url" = None.
Proof.
intros env ev r.
assert (Hf : found env ev Demo.st "img-1" Demo.item)
  by (repeat split; vm_compute; reflexivity).
destruct (get_image_metadata_view env ev Demo.st "img-1" Demo.item Hf eq_refl)
  as (Hstatus & Hshown & Hurl & _).
split; [exact Hstatus|]. split; [|exact Hurl].
apply (Hshown "filename"). unfold metadata_attributes. repeat constructor.
Defined.

(** ** Delete: what is removed, and what is left *)

(** The blob delete of a delete request, whose failure is swallowed. *)
Lemma delete_object_run env key st :
  try_except (delete_object env key) any_exception (fun _ => ret tt) st =
  (Ok tt,
   set_bucket
     (match fault env (DeleteObject key), key_string key with
      | None, Ok k => delete k (bucket st)
      | _, _ => bucket st
      end)
     (logged (DeleteObject key) st)).
Proof.
unfold try_except, delete_object, store_call, log, modify, lift, ret, raise,
  mbind, M_bind, bind, any_exception.
destruct (fault env (DeleteObject key)); [now destruct st|].
destruct (key_string key); [reflexivity|now destruct st].
Qed.

(** An authorized delete of an existing record whose record delete does
    not fail. *)
Lemma delete_image_run env ev st id item :
  found env ev st id item ->
  authorized ev item ->
  fault env (DeleteItem (VStr id)) = None ->
  DeleteImage.delete_image env ev st =
  (deleted_response id,
   set_table (delete id (table st))
     (logged (DeleteItem (VStr id))
        (set_bucket
           (match fault env (DeleteObject (dict_get item "s3_key")),
                  key_string (dict_get item "s3_key") with
            | None, Ok k => delete k (bucket st)
            | _, _ => bucket st
            end)
           (logged (DeleteObject (dict_get item "s3_key"))
              (logged (GetItem (VStr id)) st))))).
Proof.
intros Hfound Hauth Hf.
rewrite (delete_image_looked_up env ev st id item Hfound).
rewrite (authorized_passes ev item Hauth).
unfold run_handler.
rewrite (bind_ok _ _ _ _ _ (delete_object_run env _ _)).
now rewrite (bind_ok _ _ _ _ _
  (delete_item_ok _ _ _ (found_id_nonempty env ev st id item Hfound) Hf)).
Qed.

(** X10. An authorized delete of an existing record whose record delete
    succeeds answers 200 and removes that record and nothing else from the
    table; in the bucket only the blob the record names can change: it is
    gone when the blob delete succeeds, and when the blob delete fails it
    stays behind, orphaned, although the response reports the deletion. *)
Theorem delete_removes_one_image env ev st id item :
  found env ev st id item ->
  authorized ev item ->
  fault env (DeleteItem (VStr id)) = None ->
  let r := (DeleteImage.delete_image env ev st).1 in
  let st' := (DeleteImage.delete_image env ev st).2 in
  r = deleted_response id
  /\ table st' !! id = None
  /\ (forall id', id' ≠ id -> table st' !! id' = table st !! id')
  /\ (forall key, item !! "s3_key" ≠ Some (VStr key) ->
        bucket st' !! key = bucket st !! key)
  /\ (forall key, item !! "s3_key" = Some (VStr key) -> key ≠ "" ->
        bucket st' !! key =
        match fault env (DeleteObject (VStr key)) with
        | None => None
        | Some _ => bucket st !! key
        end).
Proof.
intros Hfound Hauth Hf.
rewrite (delete_image_run env ev st id item Hfound Hauth Hf).
cbn [fst snd table bucket set_table set_bucket logged].
split; [reflexivity|]. split; [apply lookup_delete_eq|].
split; [intros id' Hid'; now apply lookup_delete_ne|]. split.
- intros key Hkey.
  destruct (fault env (DeleteObject _)); [reflexivity|].
  destruct (key_string _) as [k|] eqn:Hk; [|reflexivity].
  apply key_string_inv in Hk as [Hk _].
  apply lookup_delete_ne. intros ->. apply Hkey.
  unfold dict_get in Hk. destruct (item !! "s3_key"); [|discriminate].
  now rewrite <- Hk.
- intros key Hitem Hkey.
  replace (dict_get item "s3_key") with (VStr key)
    by (unfold dict_get; now rewrite Hitem).
  destruct (fault env (DeleteObject _)); [reflexivity|].
  rewrite (key_string_ok _ Hkey). apply lookup_delete_eq.
Qed.

Lemma delete_removes_one_image_witness :
  let env := Demo.env [] Demo.s3_down in
  let ev := Demo.request [("image_id", "img-1")] [("user_id", "user123")] None in
  let st' := (DeleteImage.delete_image env ev Demo.st).2 in
  (DeleteImage.delete_image env ev Demo.st).1 = deleted_response "img-1"
  /\ table st' !! "img-1" = None
  /\ bucket st' !! Demo.key = bucket Demo.st !! Demo.key.
Proof.
intros env ev st'.
assert (Hf : found env ev Demo.st "img-1" Demo.item)
  by (repeat split; vm_compute; reflexivity).
assert (Ha : authorized ev Demo.item)
  by (right; exists "user123"; split; reflexivity).
destruct (delete_removes_one_image env ev Demo.st "img-1" Demo.item Hf Ha
            eq_refl) as (Hr & Hgone & _ & _ & Hblob).
split; [exact Hr|]. split; [exact Hgone|].
apply (Hblob Demo.key); [reflexivity|discriminate].
Defined.

(** X11. After a delete that answered 200, a second delete and a get of
    the same image id answer 404 IMAGE_NOT_FOUND, whoever asks and
    whatever the blob delete did. *)
Theorem delete_then_not_found env env' ev ev' st id item :
  found env ev st id item ->
  authorized ev item ->
  fault env (DeleteItem (VStr id)) = None ->
  request_image_id ev' = VStr id ->
  fault env' (GetItem (VStr id)) = None ->
  let st' := (DeleteImage.delete_image env ev st).2 in
  (DeleteImage.delete_image env ev st).1 = deleted_response id
  /\ (DeleteImage.delete_image env' ev' st').1 = not_found_response
  /\ (GetImage.get_image env' ev' st').1 = not_found_response
  /\ same_stores st' (DeleteImage.delete_image env' ev' st').2.
Proof.
intros Hfound Hauth Hf Hreq Hf' st'.
assert (Hv : Validators.validate_image_id (VStr id) = (true, None))
  by now destruct Hfound as (_ & Hv & _).
assert (Hgone : table st' !! id = None).
{ unfold st'. rewrite (delete_image_run env ev st id item Hfound Hauth Hf).
  apply lookup_delete_eq. }
rewrite (delete_image_not_found env' ev' st' id Hreq Hv Hf' Hgone).
rewrite (get_image_not_found env' ev' st' id Hreq Hv Hf' Hgone).
split; [now rewrite (delete_image_run env ev st id item Hfound Hauth Hf)|].
repeat split.
Qed.

Lemma delete_then_not_found_witness :
  let env := Demo.env [] Demo.no_fault in
  let ev := Demo.request [("image_id", "img-1")] [] None in
  let st' := (DeleteImage.delete_image env ev Demo.st).2 in
  (DeleteImage.delete_image env ev Demo.st).1 = deleted_response "img-1"
  /\ (DeleteImage.delete_image env ev st').1 = not_found_response
  /\ (GetImage.get_image env ev st').1 = not_found_response.
Proof.
intros env ev st'.
assert (Hf : found env ev Demo.st "img-1" Demo.item)
  by (repeat split; vm_compute; reflexivity).
assert (Ha : authorized ev Demo.item) by (left; reflexivity).
destruct (delete_then_not_found env env ev ev Demo.st "img-1" Demo.item Hf Ha
            eq_refl eq_refl eq_refl) as (H1 & H2 & H3 & _).
repeat split; assumption.
Defined.

(** ** Upload: what a 201 has stored *)

Lemma default_none_str (o : option value) (s : string) :
  default VNone o = VStr s -> o = Some (VStr s).
Proof. destruct o; cbn; [now intros ->|discriminate]. Qed.

Lemma format_str_inv (v : value) (s : string) :
  UploadImage.format_str v = Ok s -> v = VStr s.
Proof. destruct v; try discriminate. now intros [= ->]. Qed.

Lemma validate_user_id_accepts (v : value) msg :
  Validators.validate_user_id v = (true, msg) ->
  msg = None /\ exists s, v = VStr s /\ s ≠ "".
Proof.
unfold Validators.validate_user_id.
destruct (truthy v) eqn:Ht; cbn [negb]; [|discriminate].
destruct v; try discriminate.
destruct (_ <? _)%nat; [discriminate|]. intros [= <-].
split; [reflexivity|]. eexists. split; [reflexivity|]. now apply truthy_str.
Qed.

(** A 201 of the upload handler: the request it has accepted, the item
    it has built and the state it has left. *)
Lemma upload_accepted env ev st r st1 :
  UploadImage.upload_image env ev st = (r, st1) ->
  statusCode r = 201 ->
  exists (d : dict) user filename image_data data item,
    let id := uuid4 env in
    let ext := PyStr.lower (PyStr.rsplit_dot_last filename) in
    let key := UploadImage.s3_key_of user id ext in
    let content_type :=
      get_or UploadImage.content_type_map ext "application/octet-stream" in
    let now := utcnow_isoformat env in
    UploadImage.parse_body env ev = Ok (VDict d)
    /\ d !! "user_id" = Some (VStr user)
    /\ d !! "filename" = Some (VStr filename)
    /\ d !! "image_data" = Some (VStr image_data)
    /\ ext ∈ Config.ALLOWED_EXTENSIONS
    /\ Base64.b64decode image_data = Ok data
    /\ Validators.size_of data <= Config.MAX_IMAGE_SIZE_BYTES
    /\ UploadImage.add_optional_fields (metadata_of_body d)
         (UploadImage.base_item id (VStr user) key (VStr filename)
            content_type data now) = Ok item
    /\ id ≠ ""
    /\ r = UploadImage.uploaded_response id (VStr filename) key now
    /\ st1 =
       set_table (<[id := item]> (table st))
         (logged (PutItem item)
            (set_bucket
               (<[key := {| Body := data; ContentType := content_type |}]>
                  (bucket st))
               (logged (PutObject key data content_type) st))).
Proof.
unfold UploadImage.upload_image, UploadImage.upload_image_body,
  UploadImage.upload_parsed, run_handler.
unfold put_object, put_item, store_call, log, modify, lift, ret, raise.
unfold mbind, M_bind, bind.
intros Hrun Hstatus.
repeat case_match; simplify_eq; try (cbn in Hstatus; discriminate).
all: try (destruct (is_JSONDecodeError _); cbn in Hstatus; discriminate).
match goal with
| Hb : UploadImage.value_get ?body "image_data" VNone = Ok ?a,
  Hn : UploadImage.value_get ?body "filename" VNone = Ok ?f,
  Hu : UploadImage.value_get ?body "user_id" VNone = Ok ?u,
  Hm : UploadImage.value_get ?body "metadata" (VDict ∅) = Ok ?m,
  Hfile : Validators.validate_image_file ?a ?f = Ok (?b, _),
  Hb' : negb ?b = false,
  Hext : UploadImage.file_extension_of ?f = Ok ?ext,
  Huser : UploadImage.format_str ?u = Ok ?user,
  Hd : Validators.b64decode_value ?a = Ok ?data,
  Hk : key_string (VStr _) = Ok _,
  Hi : key_string (dict_get ?item "image_id") = Ok _,
  Ho : UploadImage.add_optional_fields _ _ = Ok ?item |- _ =>
    apply negb_false_iff in Hb'; subst b;
    apply validate_image_file_accepts in Hfile
      as (s & name & data' & -> & _ & -> & _ & Hallowed & Hdec & Hsize);
    apply format_str_inv in Huser as ->;
    apply value_get_inv in Hb as (d & -> & Hdata);
    injection Hn as Hname; injection Hu as Huid; injection Hm as <-;
    injection Hext as <-;
    cbn [Validators.b64decode_value] in Hd;
    rewrite Hdec in Hd; injection Hd as ->;
    apply key_string_inv in Hk as ([= <-] & _);
    pose proof (proj1 (add_optional_fields_spec _ _ _ Ho) "image_id"
                  ltac:(not_listed)) as Hid;
    unfold UploadImage.base_item in Hid; rewrite lookup_insert_eq in Hid;
    unfold dict_get in Hi; rewrite Hid in Hi;
    apply key_string_inv in Hi as ([= <-] & Huuid);
    symmetry in Hdata;
    exists d, user, name, s, data, item
end.
cbn zeta.
split; [reflexivity|].
split; [now apply default_none_str|].
split; [now apply default_none_str|].
split; [now apply default_none_str|].
repeat (split; [assumption|]).
split; reflexivity.
Qed.

Lemma allowed_content_type (ext : string) :
  ext ∈ Config.ALLOWED_EXTENSIONS ->
  exists content_type,
    UploadImage.content_type_map !! ext = Some content_type
    /\ content_type ∈ image_content_types.
Proof.
unfold Config.ALLOWED_EXTENSIONS.
rewrite !elem_of_union, !elem_of_singleton.
intros [[[[->| ->]| ->]| ->]| ->]; eexists;
  (split; [reflexivity|unfold image_content_types; repeat constructor]).
Qed.

Lemma s3_key_nonempty user id ext : UploadImage.s3_key_of user id ext ≠ "".
Proof. discriminate. Qed.

(** X12. An upload that answers 201 has put exactly one blob and one
    record: the blob, the decoded image data, under
    [images/<user_id>/<image_id>.<extension>] with the image content type
    of the lowercased extension of the file name (never the
    [application/octet-stream] default), and then the record under the new
    image id; every other blob and record is as before, and the response
    names the id, the file name, the key and the time of creation. *)
Theorem upload_stores_blob_and_record env ev st r st1 :
  UploadImage.upload_image env ev st = (r, st1) ->
  statusCode r = 201 ->
  exists (d : dict) user filename image_data data content_type item,
    let id := uuid4 env in
    let ext := PyStr.lower (PyStr.rsplit_dot_last filename) in
    let key := UploadImage.s3_key_of user id ext in
    UploadImage.parse_body env ev = Ok (VDict d)
    /\ d !! "user_id" = Some (VStr user)
    /\ d !! "filename" = Some (VStr filename)
    /\ d !! "image_data" = Some (VStr image_data)
    /\ Base64.b64decode image_data = Ok data
    /\ UploadImage.content_type_map !! ext = Some content_type
    /\ content_type ∈ image_content_types
    /\ trace st1 = (trace st ++ [PutObject key data content_type;
                                 PutItem item])%list
    /\ bucket st1 =
       <[key := {| Body := data; ContentType := content_type |}]> (bucket st)
    /\ table st1 = <[id := item]> (table st)
    /\ item !! "image_id" = Some (VStr id)
    /\ item !! "s3_key" = Some (VStr key)
    /\ item !! "content_type" = Some (VStr content_type)
    /\ r = UploadImage.uploaded_response id (VStr filename) key
             (utcnow_isoformat env).
Proof.
intros Hrun H201.
destruct (upload_accepted env ev st r st1 Hrun H201)
  as (d & user & filename & image_data & data & item & Hbody & Huser & Hname
      & Hdata & Hallowed & Hdec & _ & Hitem & _ & -> & ->).
destruct (allowed_content_type _ Hallowed) as (content_type & Hct & Hin).
exists d, user, filename, image_data, data, content_type, item.
cbn zeta.
assert (Hget : get_or UploadImage.content_type_map
                 (PyStr.lower (PyStr.rsplit_dot_last filename))
                 "application/octet-stream" = content_type)
  by (unfold get_or; now rewrite Hct).
rewrite Hget in Hitem |- *.
apply add_optional_fields_spec in Hitem as (Hother & _).
repeat (split; [assumption|]).
split; [cbn [trace logged set_table set_bucket]; now rewrite <- app_assoc|].
split; [reflexivity|]. split; [reflexivity|].
split; [rewrite (Hother "image_id") by not_listed;
        unfold UploadImage.base_item; now rewrite lookup_insert_eq|].
split; [rewrite (Hother "s3_key") by not_listed;
        unfold UploadImage.base_item;
        rewrite lookup_insert_ne by discriminate;
        rewrite lookup_insert_ne by discriminate;
        now rewrite lookup_insert_eq|].
split; [|reflexivity].
rewrite (Hother "content_type") by not_listed.
unfold UploadImage.base_item.
do 4 (rewrite lookup_insert_ne by discriminate).
now rewrite lookup_insert_eq.
Qed.

Lemma upload_stores_blob_and_record_witness :
  let up := UploadImage.upload_image DemoUpload.env DemoUpload.ev Demo.empty in
  statusCode up.1 = 201
  /\ exists user filename data content_type item,
       content_type ∈ image_content_types
       /\ bucket up.2 =
          <[UploadImage.s3_key_of user DemoUpload.id
              (PyStr.lower (PyStr.rsplit_dot_last filename)) :=
              {| Body := data; ContentType := content_type |}]> ∅
       /\ table up.2 = <[DemoUpload.id := item]> ∅.
Proof.
intros up.
assert (H201 : statusCode up.1 = 201) by (vm_compute; reflexivity).
split; [exact H201|].
destruct (upload_stores_blob_and_record DemoUpload.env DemoUpload.ev
            Demo.empty up.1 up.2 (surjective_pairing _) H201)
  as (d & user & filename & image_data & data & content_type & item & _ & _
      & _ & _ & _ & _ & Hct & _ & Hbucket & Htable & _).
exists user, filename, data, content_type, item.
split; [exact Hct|]. split; [exact Hbucket|exact Htable].
Defined.

Lemma add_optional_kept metadata k db_item db_item' :
  UploadImage.add_optional metadata k db_item = Ok db_item' ->
  db_item' !! k =
  match kept metadata k with
  | Some v => Some v
  | None => db_item !! k
  end.
Proof.
unfold UploadImage.add_optional, UploadImage.value_get, kept.
destruct metadata as [| | | | |m]; try discriminate.
destruct (m !! k) as [v|]; cbn [default from_option].
- unfold id. destruct (truthy v); intros [= <-];
    [apply lookup_insert_eq|reflexivity].
- now intros [= <-].
Qed.

(** The optional fields of the item are those of the metadata whose
    value is true. *)
Lemma add_optional_fields_kept metadata db_item item k :
  UploadImage.add_optional_fields metadata db_item = Ok item ->
  k ∈ optional_fields -> db_item !! k = None ->
  item !! k = kept metadata k.
Proof.
unfold UploadImage.add_optional_fields, UploadImage.and_then.
destruct (UploadImage.add_optional metadata "title" db_item)
  as [i1|] eqn:H1; [|discriminate].
destruct (UploadImage.add_optional metadata "description" i1)
  as [i2|] eqn:H2; [|discriminate].
destruct (UploadImage.add_optional metadata "tags" i2)
  as [i3|] eqn:H3; [|discriminate].
intros H4 Hk Hbase.
pose proof (add_optional_kept _ _ _ _ H1) as K1.
pose proof (add_optional_kept _ _ _ _ H2) as K2.
pose proof (add_optional_kept _ _ _ _ H3) as K3.
pose proof (add_optional_kept _ _ _ _ H4) as K4.
apply add_optional_spec in H1 as [O1 _], H2 as [O2 _], H3 as [O3 _],
  H4 as [O4 _].
unfold optional_fields in Hk.
repeat (apply elem_of_cons in Hk as [->|Hk]).
- rewrite O4, O3, O2, K1, Hbase by discriminate.
  match goal with |- context [kept ?m ?f] => now destruct (kept m f) end.
- rewrite O4, O3, K2, O1, Hbase by discriminate.
  match goal with |- context [kept ?m ?f] => now destruct (kept m f) end.
- rewrite O4, K3, O2, O1, Hbase by discriminate.
  match goal with |- context [kept ?m ?f] => now destruct (kept m f) end.
- rewrite K4, O3, O2, O1, Hbase by discriminate.
  match goal with |- context [kept ?m ?f] => now destruct (kept m f) end.
- now apply elem_of_nil in Hk.
Qed.

Lemma base_item_other image_id user_id s3_key filename content_type
    decoded_image timestamp k :
  k ∉ required_attributes ->
  UploadImage.base_item image_id user_id s3_key filename content_type
    decoded_image timestamp !! k = None.
Proof.
intros Hk. unfold UploadImage.base_item.
repeat (rewrite lookup_insert_ne;
        [|intros <-; apply Hk; unfold required_attributes;
          repeat constructor]).
reflexivity.
Qed.

(** X13. The record a 201 upload has stored under the new id holds the
    user id and the file name of the request unchanged, the size of the
    decoded image (at most 10 MiB), one time stamp as both [created_at]
    and [updated_at], and of title, description, tags and location
    exactly those the metadata gives with a true value, unchanged; it has
    no other attribute than these and the id, the key and the content
    type, so no other member of the request is stored. *)
Theorem upload_record_content env ev st r st1 :
  UploadImage.upload_image env ev st = (r, st1) ->
  statusCode r = 201 ->
  exists (d : dict) image_data data item,
    UploadImage.parse_body env ev = Ok (VDict d)
    /\ table st1 !! uuid4 env = Some item
    /\ d !! "image_data" = Some (VStr image_data)
    /\ Base64.b64decode image_data = Ok data
    /\ Validators.size_of data <= Config.MAX_IMAGE_SIZE_BYTES
    /\ item !! "user_id" = d !! "user_id"
    /\ item !! "filename" = d !! "filename"
    /\ item !! "file_size" = Some (VInt (Validators.size_of data))
    /\ item !! "created_at" = Some (VStr (utcnow_isoformat env))
    /\ item !! "updated_at" = Some (VStr (utcnow_isoformat env))
    /\ (forall k, k ∈ optional_fields ->
          item !! k = kept (metadata_of_body d) k)
    /\ (forall k, k ∉ required_attributes -> k ∉ optional_fields ->
          item !! k = None).
Proof.
intros Hrun H201.
destruct (upload_accepted env ev st r st1 Hrun H201)
  as (d & user & filename & image_data & data & item & Hbody & Huser & Hname
      & Hdata & _ & Hdec & Hsize & Hitem & _ & -> & ->).
exists d, image_data, data, item. cbn zeta in Hitem.
pose proof (add_optional_fields_spec _ _ _ Hitem) as (Hother & _).
split; [assumption|].
split; [cbn; apply lookup_insert_eq|].
repeat (split; [assumption|]).
split; [rewrite (Hother "user_id") by not_listed; rewrite Huser;
        unfold UploadImage.base_item;
        rewrite lookup_insert_ne by discriminate;
        now rewrite lookup_insert_eq|].
split; [rewrite (Hother "filename") by not_listed; rewrite Hname;
        unfold UploadImage.base_item;
        do 3 (rewrite lookup_insert_ne by discriminate);
        now rewrite lookup_insert_eq|].
split; [rewrite (Hother "file_size") by not_listed;
        unfold UploadImage.base_item;
        do 5 (rewrite lookup_insert_ne by discriminate);
        now rewrite lookup_insert_eq|].
split; [rewrite (Hother "created_at") by not_listed;
        unfold UploadImage.base_item;
        do 6 (rewrite lookup_insert_ne by discriminate);
        now rewrite lookup_insert_eq|].
split; [rewrite (Hother "updated_at") by not_listed;
        unfold UploadImage.base_item;
        do 7 (rewrite lookup_insert_ne by discriminate);
        now rewrite lookup_insert_eq|].
split.
- intros k Hk. apply (add_optional_fields_kept _ _ _ _ Hitem Hk).
  now apply base_item_optional.
- intros k Hk Hopt. rewrite (Hother k Hopt). now apply base_item_other.
Qed.

Lemma upload_record_content_witness :
  let up := UploadImage.upload_image DemoUpload.env DemoUpload.ev Demo.empty in
  statusCode up.1 = 201
  /\ exists item,
       table up.2 !! DemoUpload.id = Some item
       /\ item !! "created_at" = item !! "updated_at"
       /\ item !! "owner" = None.
Proof.
intros up.
assert (H201 : statusCode up.1 = 201) by (vm_compute; reflexivity).
split; [exact H201|].
destruct (upload_record_content DemoUpload.env DemoUpload.ev Demo.empty
            up.1 up.2 (surjective_pairing _) H201)
  as (d & image_data & data & item & _ & Htable & _ & _ & _ & _ & _ & _
      & Hcreated & Hupdated & _ & Hnone).
exists item. split; [exact Htable|].
split; [now rewrite Hcreated, Hupdated|].
apply Hnone; not_listed.
Defined.

(** ** Upload: what a failure leaves behind *)

(** Closes a goal whose hypothesis [H] puts the outcome of an explicit
    response in a list that does not have it. *)
Ltac outcome_mismatch H :=
  exfalso;
  repeat (apply elem_of_cons in H as [H|H];
          [first [ apply (f_equal fst) in H; cbn in H; discriminate H
                 | apply (f_equal snd) in H; vm_compute in H; discriminate H ]
          |]);
  now apply elem_of_nil in H.

Lemma upload_rejected env ev st :
  outcome (UploadImage.upload_image env ev st).1 ∈ rejected_outcomes ->
  (UploadImage.upload_image env ev st).2 = st.
Proof.
unfold UploadImage.upload_image, UploadImage.upload_image_body,
  UploadImage.upload_parsed, run_handler.
unfold_calls.
repeat case_match; simplify_eq; cbn [fst snd]; intros Hout;
  try reflexivity;
  try (destruct (is_JSONDecodeError _));
  outcome_mismatch Hout.
Qed.

Lemma upload_unreadable env ev st s e :
  event_body ev = Some s -> json_loads env s = Raise e ->
  UploadImage.upload_image env ev st = (upload_on_error e, st).
Proof.
intros Hbody Hjson.
unfold UploadImage.upload_image, UploadImage.upload_image_body,
  UploadImage.parse_body, run_handler.
now rewrite Hbody, Hjson.
Qed.

(** X14. An upload that a validator rejects (400 INVALID_USER_ID,
    INVALID_IMAGE or INVALID_METADATA) and one whose body is not JSON (400
    INVALID_JSON) have called neither store: the table, the bucket and
    the trace are what they were.  Nor is a store called when reading the
    body fails otherwise; the answer is then 500 INTERNAL_ERROR. *)
Theorem upload_rejection_stores_nothing env ev st :
  (outcome (UploadImage.upload_image env ev st).1 ∈ rejected_outcomes ->
   (UploadImage.upload_image env ev st).2 = st)
  /\ (forall s e,
        event_body ev = Some s -> json_loads env s = Raise e ->
        is_JSONDecodeError e = true ->
        outcome (UploadImage.upload_image env ev st).1
          = (400, Some "INVALID_JSON")
        /\ (UploadImage.upload_image env ev st).2 = st)
  /\ (forall s e,
        event_body ev = Some s -> json_loads env s = Raise e ->
        is_JSONDecodeError e = false ->
        outcome (UploadImage.upload_image env ev st).1
          = (500, Some "INTERNAL_ERROR")
        /\ (UploadImage.upload_image env ev st).2 = st).
Proof.
split; [apply upload_rejected|]. split.
- intros s e Hbody Hjson He.
  rewrite (upload_unreadable env ev st s e Hbody Hjson).
  unfold upload_on_error. rewrite He. now split.
- intros s e Hbody Hjson He.
  rewrite (upload_unreadable env ev st s e Hbody Hjson).
  unfold upload_on_error. rewrite He. now split.
Qed.

Lemma upload_rejection_stores_nothing_witness :
  let env := Demo.env [("{}", VDict ∅)] Demo.no_fault in
  let ev body := {| pathParameters := None; queryStringParameters := None;
                    event_body := Some body |} in
  (UploadImage.upload_image env (ev "{}") Demo.st).2 = Demo.st
  /\ (UploadImage.upload_image env (ev "{") Demo.st).2 = Demo.st.
Proof.
intros env ev. split.
- apply (proj1 (upload_rejection_stores_nothing env (ev "{}") Demo.st)).
  apply list_elem_of_here.
- apply (proj1 (proj2 (upload_rejection_stores_nothing env (ev "{") Demo.st))
           "{" (JSONDecodeError "Expecting value"));
    reflexivity.
Defined.

Lemma upload_no_record env ev st :
  statusCode (UploadImage.upload_image env ev st).1 ≠ 201 ->
  table (UploadImage.upload_image env ev st).2 = table st.
Proof.
unfold UploadImage.upload_image, UploadImage.upload_image_body,
  UploadImage.upload_parsed, run_handler.
unfold_calls.
repeat case_match; simplify_eq; cbn [fst snd]; intros Hstatus;
  try reflexivity.
now contradiction Hstatus.
Qed.

Lemma put_object_ok env key data content_type st :
  key ≠ "" -> fault env (PutObject key data content_type) = None ->
  put_object env key data content_type st =
  (Ok tt,
   set_bucket
     (<[key := {| Body := data; ContentType := content_type |}]> (bucket st))
     (logged (PutObject key data content_type) st)).
Proof.
intros Hkey Hf. unfold put_object.
rewrite (bind_ok _ _ _ _ _ (store_call_ok _ _ _ Hf)).
now rewrite (key_string_ok _ Hkey).
Qed.

Lemma put_item_ok env (item : dict) k st :
  item !! "image_id" = Some (VStr k) -> k ≠ "" ->
  fault env (PutItem item) = None ->
  put_item env item st =
  (Ok tt, set_table (<[k := item]> (table st)) (logged (PutItem item) st)).
Proof.
intros Hitem Hid Hf. unfold put_item.
rewrite (bind_ok _ _ _ _ _ (store_call_ok _ _ _ Hf)).
unfold dict_get. rewrite Hitem. cbn [default from_option id].
now rewrite (key_string_ok _ Hid).
Qed.

Lemma put_item_fail env item st e :
  fault env (PutItem item) = Some e ->
  put_item env item st = (Raise e, logged (PutItem item) st).
Proof.
intros Hf. unfold put_item.
now rewrite (bind_raise _ _ _ _ _ (store_call_fail _ _ _ _ Hf)).
Qed.

(** A well-formed upload whose blob put does not fail goes on to build
    and put the record. *)
Lemma upload_blob_put env ev st d user filename image_data data :
  well_formed_upload env ev d user filename image_data data ->
  fault env (PutObject (blob_key env user filename) data
               (blob_content_type filename)) = None ->
  UploadImage.upload_image env ev st =
  run_handler
    (db_item ← lift (UploadImage.add_optional_fields (metadata_of_body d)
                       (UploadImage.base_item (uuid4 env) (VStr user)
                          (blob_key env user filename) (VStr filename)
                          (blob_content_type filename) data
                          (utcnow_isoformat env))) ;
     put_item env db_item ;;
     ret (UploadImage.uploaded_response (uuid4 env) (VStr filename)
            (blob_key env user filename) (utcnow_isoformat env)))
    upload_on_error (blob_put env user filename data st).
Proof.
intros (Hbody & Huser & Hname & Hdata & Hvu & Hvf & Hdec & Hvm) Hf.
assert (Hg1 : UploadImage.value_get (VDict d) "image_data" VNone
              = Ok (VStr image_data))
  by (unfold UploadImage.value_get; now rewrite Hdata).
assert (Hg2 : UploadImage.value_get (VDict d) "filename" VNone
              = Ok (VStr filename))
  by (unfold UploadImage.value_get; now rewrite Hname).
assert (Hg3 : UploadImage.value_get (VDict d) "user_id" VNone
              = Ok (VStr user))
  by (unfold UploadImage.value_get; now rewrite Huser).
assert (Hg4 : UploadImage.value_get (VDict d) "metadata" (VDict ∅)
              = Ok (metadata_of_body d)) by reflexivity.
unfold UploadImage.upload_image, UploadImage.upload_image_body.
unfold run_handler at 1.
rewrite Hbody, bind_lift_ok.
unfold UploadImage.upload_parsed.
rewrite Hg1, bind_lift_ok, Hg2, bind_lift_ok, Hg3, bind_lift_ok, Hg4,
  bind_lift_ok.
rewrite Hvu. cbn [negb]. rewrite Hvf, bind_lift_ok. cbn [negb].
rewrite Hvm. cbn [negb].
cbn [UploadImage.file_extension_of UploadImage.format_str
     Validators.b64decode_value].
rewrite !bind_lift_ok, Hdec, bind_lift_ok.
fold (blob_key env user filename). fold (blob_content_type filename).
now rewrite (bind_ok _ _ _ _ _
  (put_object_ok env _ _ _ st (s3_key_nonempty _ _ _) Hf)).
Qed.

Lemma add_optional_fields_not_dict (metadata : value) (db_item : dict) :
  (forall m, metadata ≠ VDict m) ->
  exists e, UploadImage.add_optional_fields metadata db_item = Raise e
            /\ is_JSONDecodeError e = false.
Proof.
intros Hm.
destruct metadata as [| | | | |m]; try (eexists; split; reflexivity).
now contradiction (Hm m).
Qed.

(** X15. An upload that does not answer 201 has written no record.  But
    the blob is put before the record, and nothing takes it back: a
    well-formed upload whose blob is put leaves the blob in the bucket,
    with no record for it, when the record put fails, and also when its
    metadata is a false value that is not a dictionary ([null], an empty
    string or list, zero), which [validate_metadata] accepts and the
    handler then reads with [.get]: a 500 INTERNAL_ERROR. *)
Theorem upload_failure_may_orphan_blob env ev st :
  let r := (UploadImage.upload_image env ev st).1 in
  let st1 := (UploadImage.upload_image env ev st).2 in
  (statusCode r ≠ 201 -> table st1 = table st)
  /\ (forall d user filename image_data data,
        well_formed_upload env ev d user filename image_data data ->
        fault env (PutObject (blob_key env user filename) data
                     (blob_content_type filename)) = None ->
        (forall m, metadata_of_body d ≠ VDict m) ->
        outcome r = (500, Some "INTERNAL_ERROR")
        /\ table st1 = table st
        /\ bucket st1 =
           <[blob_key env user filename :=
               {| Body := data; ContentType := blob_content_type filename |}]>
             (bucket st))
  /\ (forall d user filename image_data data item e,
        well_formed_upload env ev d user filename image_data data ->
        fault env (PutObject (blob_key env user filename) data
                     (blob_content_type filename)) = None ->
        UploadImage.add_optional_fields (metadata_of_body d)
          (UploadImage.base_item (uuid4 env) (VStr user)
             (blob_key env user filename) (VStr filename)
             (blob_content_type filename) data (utcnow_isoformat env))
        = Ok item ->
        fault env (PutItem item) = Some e ->
        r = upload_on_error e
        /\ table st1 = table st
        /\ bucket st1 =
           <[blob_key env user filename :=
               {| Body := data; ContentType := blob_content_type filename |}]>
             (bucket st)).
Proof.
cbn zeta. split; [apply upload_no_record|]. split.
- intros d user filename image_data data Hwf Hf Hm.
  rewrite (upload_blob_put env ev st d user filename image_data data Hwf Hf).
  destruct (add_optional_fields_not_dict (metadata_of_body d)
              (UploadImage.base_item (uuid4 env) (VStr user)
                 (blob_key env user filename) (VStr filename)
                 (blob_content_type filename) data (utcnow_isoformat env)) Hm)
    as (e & He & Hjson).
  unfold run_handler. rewrite He, bind_lift_raise.
  unfold upload_on_error. rewrite Hjson. now repeat split.
- intros d user filename image_data data item e Hwf Hf Hitem Hfe.
  rewrite (upload_blob_put env ev st d user filename image_data data Hwf Hf).
  unfold run_handler. rewrite Hitem, bind_lift_ok.
  rewrite (bind_raise _ _ _ _ _ (put_item_fail env item _ e Hfe)).
  now repeat split.
Qed.

Lemma upload_failure_may_orphan_blob_witness :
  let up := UploadImage.upload_image DemoNull.env DemoNull.ev Demo.empty in
  outcome up.1 = (500, Some "INTERNAL_ERROR")
  /\ table up.2 = ∅
  /\ bucket up.2 =
     {[ DemoUpload.key := {| Body := Demo.blob; ContentType := "image/png" |} ]}.
Proof.
intros up.
assert (Hwf : well_formed_upload DemoNull.env DemoNull.ev DemoNull.parsed
                "user123" "pixel.PNG" "iVBORw==" Demo.blob)
  by (repeat split; vm_compute; reflexivity).
destruct (upload_failure_may_orphan_blob DemoNull.env DemoNull.ev Demo.empty)
  as (_ & Hnull & _).
apply (Hnull DemoNull.parsed "user123" "pixel.PNG" "iVBORw==" Demo.blob Hwf);
  [reflexivity|discriminate].
Defined.

(** ** Upload, then delete *)

(** X16. An upload that answered 201, followed by a delete of the image id
    it returned (authorized for the stored record, the stores answering),
    takes the record and the blob away again; when the id and the key
    were unused before the upload, the table and the bucket are back to
    what they were. *)
Theorem upload_then_delete env env' ev ev' st r st1 :
  UploadImage.upload_image env ev st = (r, st1) ->
  statusCode r = 201 ->
  (String.length (uuid4 env) <= 128)%nat ->
  request_image_id ev' = dict_get (response_data r) "image_id" ->
  (forall item, table st1 !! uuid4 env = Some item -> authorized ev' item) ->
  (forall c, fault env' c = None) ->
  let del := DeleteImage.delete_image env' ev' st1 in
  exists key,
    dict_get (response_data r) "s3_key" = VStr key
    /\ del.1 = deleted_response (uuid4 env)
    /\ table del.2 = delete (uuid4 env) (table st)
    /\ bucket del.2 = delete key (bucket st)
    /\ (table st !! uuid4 env = None -> table del.2 = table st)
    /\ (bucket st !! key = None -> bucket del.2 = bucket st).
Proof.
intros Hrun H201 Hlen Hreq Hauth Hfault.
destruct (upload_accepted env ev st r st1 Hrun H201)
  as (d & user & filename & image_data & data & item & _ & _ & _ & _ & _ & _
      & _ & Hitem & Hid & -> & ->).
cbn zeta in Hitem.
apply add_optional_fields_spec in Hitem as (Hother & _).
assert (Hkey : item !! "s3_key"
               = Some (VStr (blob_key env user filename))).
{ rewrite (Hother "s3_key") by not_listed. unfold UploadImage.base_item.
  do 2 (rewrite lookup_insert_ne by discriminate).
  now rewrite lookup_insert_eq. }
unfold UploadImage.uploaded_response in Hreq |- *.
rewrite response_data_success in Hreq |- *.
unfold dict_get in Hreq. rewrite lookup_insert_eq in Hreq.
cbn [default from_option id] in Hreq.
set (st1 := set_table _ _) in *.
assert (Htable : table st1 !! uuid4 env = Some item)
  by apply lookup_insert_eq.
assert (Hfound : found env' ev' st1 (uuid4 env) item).
{ split; [exact Hreq|]. split; [now apply validate_image_id_ok|].
  split; [apply Hfault|exact Htable]. }
exists (blob_key env user filename).
rewrite (delete_image_run env' ev' st1 (uuid4 env) item Hfound
           (Hauth item Htable) (Hfault _)).
assert (Hget : dict_get item "s3_key" = VStr (blob_key env user filename))
  by (unfold dict_get; now rewrite Hkey).
rewrite Hget, Hfault.
rewrite (key_string_ok (blob_key env user filename) (s3_key_nonempty _ _ _)).
cbn [fst snd table bucket set_table set_bucket logged st1].
split.
{ unfold dict_get. rewrite lookup_insert_ne by discriminate.
  rewrite lookup_insert_ne by discriminate.
  now rewrite lookup_insert_eq. }
split; [reflexivity|].
split; [apply delete_insert_eq|].
split; [apply delete_insert_eq|].
split; intros Hfresh; now apply delete_insert_id.
Qed.

Lemma upload_then_delete_witness :
  let up := UploadImage.upload_image DemoUpload.env DemoUpload.ev Demo.empty in
  let ev' := Demo.request [("image_id", DemoUpload.id)] [] None in
  let del := DeleteImage.delete_image DemoUpload.env ev' up.2 in
  statusCode up.1 = 201
  /\ del.1 = deleted_response DemoUpload.id
  /\ table del.2 = ∅
  /\ bucket del.2 = ∅.
Proof.
intros up ev' del.
assert (H201 : statusCode up.1 = 201) by (vm_compute; reflexivity).
split; [exact H201|].
destruct (upload_then_delete DemoUpload.env DemoUpload.env DemoUpload.ev ev'
            Demo.empty up.1 up.2 (surjective_pairing _) H201)
  as (key & _ & Hr & _ & _ & Htable & Hbucket).
- vm_compute. lia.
- vm_compute. reflexivity.
- intros item _. left. reflexivity.
- intros c. reflexivity.
- split; [exact Hr|]. split; [now apply Htable|now apply Hbucket].
Defined.

(** ** List: the page *)

Lemma on_error_not_ok e : statusCode (ListImages.on_error e) ≠ 200.
Proof. unfold ListImages.on_error. now destruct (is_ValueError e). Qed.

Lemma response_data_listing env answer :
  response_data (ListImages.listing env answer) =
  let items := List.map (delete "s3_key") (Items answer) in
  let result : dict :=
    <["images" := VList (List.map VDict items)]>
   (<["count" := VInt (Z.of_nat (List.length items))]>
   (<["scanned_count" := VInt (ScannedCount answer)]> ∅)) in
  match LastEvaluatedKey answer with
  | Some k =>
      <["has_more" := VBool true]>
        (<["last_evaluated_key" := VStr (json_dumps env k)]> result)
  | None => <["has_more" := VBool false]> result
  end.
Proof. unfold ListImages.listing. now rewrite response_data_success. Qed.

(** The page of a listing built from the answer of the scan. *)
Lemma listing_page env answer :
  let r := ListImages.listing env answer in
  response_data r !! "count"
    = Some (VInt (Z.of_nat (List.length (listed_images r))))
  /\ response_data r !! "scanned_count" = Some (VInt (ScannedCount answer))
  /\ response_data r !! "has_more"
     = Some (VBool (bool_decide (is_Some (LastEvaluatedKey answer))))
  /\ response_data r !! "last_evaluated_key"
     = (fun k => VStr (json_dumps env k)) <$> LastEvaluatedKey answer.
Proof.
cbn zeta. rewrite listed_images_listing, response_data_listing. cbn zeta.
rewrite !length_map.
destruct (LastEvaluatedKey answer) as [k|]; cbn [fmap option_fmap option_map].
- split; [now do 3 (rewrite lookup_insert_ne by discriminate);
               rewrite lookup_insert_eq|].
  split; [now do 4 (rewrite lookup_insert_ne by discriminate);
               rewrite lookup_insert_eq|].
  split; [now rewrite lookup_insert_eq|].
  rewrite lookup_insert_ne by discriminate. now rewrite lookup_insert_eq.
- split; [now do 2 (rewrite lookup_insert_ne by discriminate);
               rewrite lookup_insert_eq|].
  split; [now do 3 (rewrite lookup_insert_ne by discriminate);
               rewrite lookup_insert_eq|].
  split; [now rewrite lookup_insert_eq|].
  now do 3 (rewrite lookup_insert_ne by discriminate).
Qed.

(** X17. A list request that answers 200 has made one scan, and its page
    is consistent with the answer of the store: [count] is the number of
    images listed, [scanned_count] is the store's, and [has_more] is true
    exactly when the store gave a last evaluated key, which is then handed
    out, serialised, as [last_evaluated_key]; on the last page that member
    is absent. *)
Theorem list_page_shape env ev st :
  let r := (ListImages.list_images env ev st).1 in
  statusCode r = 200 ->
  exists p,
    trace (ListImages.list_images env ev st).2 = (trace st ++ [Scan p])%list
    /\ let answer := scan_answer env (table st) p in
       response_data r !! "count"
         = Some (VInt (Z.of_nat (List.length (listed_images r))))
       /\ response_data r !! "scanned_count"
          = Some (VInt (ScannedCount answer))
       /\ response_data r !! "has_more"
          = Some (VBool (bool_decide (is_Some (LastEvaluatedKey answer))))
       /\ response_data r !! "last_evaluated_key"
          = (fun k => VStr (json_dumps env k)) <$> LastEvaluatedKey answer.
Proof.
rewrite list_images_cases. cbn zeta.
assert (Hs : forall p,
  statusCode (scanned env p st).1 = 200 ->
  exists q,
    trace (scanned env p st).2 = (trace st ++ [Scan q])%list
    /\ let answer := scan_answer env (table st) q in
       response_data (scanned env p st).1 !! "count"
         = Some (VInt (Z.of_nat
                         (List.length (listed_images (scanned env p st).1))))
       /\ response_data (scanned env p st).1 !! "scanned_count"
          = Some (VInt (ScannedCount answer))
       /\ response_data (scanned env p st).1 !! "has_more"
          = Some (VBool (bool_decide (is_Some (LastEvaluatedKey answer))))
       /\ response_data (scanned env p st).1 !! "last_evaluated_key"
          = (fun k => VStr (json_dumps env k)) <$> LastEvaluatedKey answer).
{ intros p. unfold scanned. destruct (fault env (Scan p)); cbn [fst snd].
  - intros H. now apply on_error_not_ok in H.
  - intros _. exists p. split; [reflexivity|]. apply listing_page. }
destruct (ListImages.page_limit _) as [limit|e]; cbn [fst snd].
- destruct (provided _); [|apply Hs].
  destruct (json_loads env _) as [k|e]; [apply Hs|].
  destruct (is_JSONDecodeError e); intros H;
    [discriminate H|now apply on_error_not_ok in H].
- intros H. now apply on_error_not_ok in H.
Qed.

Lemma list_page_shape_witness :
  let env := Demo.env [] Demo.no_fault in
  let ev := Demo.request [] [("user_id", "user123")] None in
  let r := (ListImages.list_images env ev Demo.st).1 in
  response_data r !! "count" = Some (VInt 1)
  /\ response_data r !! "has_more" = Some (VBool false)
  /\ response_data r !! "last_evaluated_key" = None.
Proof.
intros env ev r.
destruct (list_page_shape env ev Demo.st) as (p & Htrace & H);
  [vm_compute; reflexivity|].
injection Htrace as <-.
destruct H as (Hcount & _ & Hmore & Hkey).
split; [exact Hcount|]. split; [exact Hmore|exact Hkey].
Defined.

(** ** The client factories *)

Lemma is_local_environment_false (environ : gmap string string) :
  AwsClients.is_local_environment environ = false <->
  environ !! "AWS_SAM_LOCAL" ≠ Some "true"
  /\ exists v, environ !! "LOCALSTACK" = Some v /\ PyStr.lower v ≠ "true".
Proof.
unfold AwsClients.is_local_environment, get_or.
rewrite orb_false_iff, bool_decide_eq_false, String.eqb_neq.
split; intros [Hsam Hls]; (split; [exact Hsam|]).
- destruct (environ !! "LOCALSTACK") as [v|]; [now exists v|].
  now contradiction Hls.
- destruct Hls as (v & -> & Hv). exact Hv.
Qed.

(** X18. The handlers run against the local endpoint unless the
    environment switches it off: [is_local_environment] is false exactly
    when [AWS_SAM_LOCAL] is not [true] and [LOCALSTACK] is set to
    something that does not lowercase to [true]; an environment that does
    not set [LOCALSTACK] is local.  The three factories agree: each
    connects to the LocalStack endpoint with the credentials of the
    environment when local, and gives neither an endpoint nor credentials
    otherwise, always in the configured region. *)
Theorem local_unless_switched_off (environ : gmap string string) :
  (AwsClients.is_local_environment environ = false <->
     environ !! "AWS_SAM_LOCAL" ≠ Some "true"
     /\ exists v, environ !! "LOCALSTACK" = Some v
                  /\ PyStr.lower v ≠ "true")
  /\ (environ !! "LOCALSTACK" = None ->
      AwsClients.is_local_environment environ = true)
  /\ target (AwsClients.get_s3_client environ)
     = target (AwsClients.get_dynamodb_resource environ)
  /\ target (AwsClients.get_dynamodb_resource environ)
     = target (AwsClients.get_dynamodb_client environ)
  /\ target (AwsClients.get_s3_client environ)
     = if AwsClients.is_local_environment environ
       then (Some (get_or environ "LOCALSTACK_ENDPOINT" "http://localhost:4566"),
             environ !! "AWS_ACCESS_KEY_ID",
             environ !! "AWS_SECRET_ACCESS_KEY",
             get_or environ "AWS_REGION" "us-east-1")
       else (None, None, None, get_or environ "AWS_REGION" "us-east-1").
Proof.
split; [apply is_local_environment_false|]. split.
- intros Hunset.
  destruct (AwsClients.is_local_environment environ) eqn:Hlocal;
    [reflexivity|].
  apply is_local_environment_false in Hlocal as (_ & v & Hv & _).
  congruence.
- unfold AwsClients.get_s3_client, AwsClients.get_dynamodb_resource,
    AwsClients.get_dynamodb_client.
  now destruct (AwsClients.is_local_environment environ).
Qed.

Lemma local_unless_switched_off_witness :
  AwsClients.is_local_environment ∅ = true
  /\ AwsClients.is_local_environment {[ "LOCALSTACK" := "False" ]} = false.
Proof.
split.
- apply (proj1 (proj2 (local_unless_switched_off ∅))). reflexivity.
- apply (proj1 (local_unless_switched_off {[ "LOCALSTACK" := "False" ]})).
  split; [discriminate|]. exists "False". split; [reflexivity|discriminate].
Defined.

(** ** The payload script and the upload *)

Lemma b64encode_nonempty (data : bytes) :
  data ≠ [] -> Base64.b64encode data ≠ "".
Proof.
intros Hdata. destruct data as [|b0 [|b1 [|b2 r]]]; [easy|discriminate..].
Qed.

Lemma add_optional_fields_dict (m db_item : dict) :
  exists item, UploadImage.add_optional_fields (VDict m) db_item = Ok item.
Proof.
unfold UploadImage.add_optional_fields, UploadImage.and_then,
  UploadImage.add_optional, UploadImage.value_get.
eauto.
Qed.

(** A well-formed upload with a dictionary as metadata, the stores
    answering, is stored and answered with 201. *)
Lemma upload_well_formed env ev st d m user filename image_data data :
  well_formed_upload env ev d user filename image_data data ->
  metadata_of_body d = VDict m ->
  uuid4 env ≠ "" ->
  (forall c, fault env c = None) ->
  let up := UploadImage.upload_image env ev st in
  statusCode up.1 = 201
  /\ bucket up.2 !! blob_key env user filename
     = Some {| Body := data; ContentType := blob_content_type filename |}.
Proof.
intros Hwf Hm Huuid Hfault.
rewrite (upload_blob_put env ev st d user filename image_data data Hwf
           (Hfault _)).
rewrite Hm.
destruct (add_optional_fields_dict m
            (UploadImage.base_item (uuid4 env) (VStr user)
               (blob_key env user filename) (VStr filename)
               (blob_content_type filename) data (utcnow_isoformat env)))
  as (item & Hitem).
assert (Hid : item !! "image_id" = Some (VStr (uuid4 env))).
{ apply add_optional_fields_spec in Hitem as (Hother & _).
  rewrite (Hother "image_id") by not_listed.
  unfold UploadImage.base_item. now rewrite lookup_insert_eq. }
unfold run_handler. rewrite Hitem, bind_lift_ok.
rewrite (bind_ok _ _ _ _ _ (put_item_ok env item _ _ Hid Huuid (Hfault _))).
cbn [ret fst snd bucket set_table logged blob_put set_bucket].
split; [reflexivity|apply lookup_insert_eq].
Qed.

(** X19. The payload that [create_payload] writes for an image file passes
    the three validators of the upload whenever the file is not empty,
    holds at most 10 MiB, and has a name with an allowed extension; sent
    as the body of an upload (the stores answering) it is answered with
    201, and the blob stored is the content of the file, byte for byte.
    For a path at which there is nothing, nothing is written. *)
Theorem generated_payload_uploads (files : gmap string GeneratePayload.node)
    (image_path : string) :
  (files !! image_path = None ->
   GeneratePayload.create_payload files image_path = GeneratePayload.NotFound)
  /\ (forall content,
        files !! image_path = Some (GeneratePayload.File content) ->
        content ≠ [] ->
        Validators.size_of content <= Config.MAX_IMAGE_SIZE_BYTES ->
        PyStr.contains "." (GeneratePayload.basename image_path) = true ->
        PyStr.lower (PyStr.rsplit_dot_last
                       (GeneratePayload.basename image_path))
          ∈ Config.ALLOWED_EXTENSIONS ->
        let p := GeneratePayload.payload image_path content in
        GeneratePayload.create_payload files image_path
          = GeneratePayload.Written p
        /\ Validators.validate_user_id (dict_get p "user_id") = (true, None)
        /\ Validators.validate_image_file (dict_get p "image_data")
             (dict_get p "filename") = Ok (true, None)
        /\ Validators.validate_metadata (dict_get p "metadata") = (true, None)
        /\ (forall env ev st,
              UploadImage.parse_body env ev = Ok (VDict p) ->
              uuid4 env ≠ "" ->
              (forall c, fault env c = None) ->
              let up := UploadImage.upload_image env ev st in
              statusCode up.1 = 201
              /\ Body <$> bucket up.2 !!
                   blob_key env "user123"
                     (GeneratePayload.basename image_path)
                 = Some content)).
Proof.
split.
{ intros Hnone. unfold GeneratePayload.create_payload. now rewrite Hnone. }
intros content Hfile Hne Hsize Hdot Hext p.
assert (Hvu : Validators.validate_user_id (VStr "user123") = (true, None))
  by reflexivity.
assert (Hvf : Validators.validate_image_file
                (VStr (Base64.b64encode content))
                (VStr (GeneratePayload.basename image_path))
              = Ok (true, None)).
{ apply validate_image_file_accepted with (data := content); try assumption.
  - now apply b64encode_nonempty.
  - apply Base64Facts.b64decode_b64encode. }
assert (Hvm : Validators.validate_metadata (dict_get p "metadata")
              = (true, None)) by (vm_compute; reflexivity).
assert (Hp1 : p !! "image_data" = Some (VStr (Base64.b64encode content)))
  by apply lookup_insert_eq.
assert (Hp2 : p !! "filename"
              = Some (VStr (GeneratePayload.basename image_path))).
{ unfold p, GeneratePayload.payload. cbn zeta.
  rewrite lookup_insert_ne by discriminate. apply lookup_insert_eq. }
assert (Hp3 : p !! "user_id" = Some (VStr "user123")).
{ unfold p, GeneratePayload.payload. cbn zeta.
  do 2 (rewrite lookup_insert_ne by discriminate). apply lookup_insert_eq. }
split; [unfold GeneratePayload.create_payload; now rewrite Hfile|].
split; [unfold dict_get; now rewrite Hp3|].
split; [unfold dict_get; now rewrite Hp1, Hp2|].
split; [exact Hvm|].
intros env ev st Hbody Huuid Hfault up.
assert (Hmeta : exists m, metadata_of_body p = VDict m).
{ unfold metadata_of_body, p, GeneratePayload.payload. cbn zeta.
  do 3 (rewrite lookup_insert_ne by discriminate).
  rewrite lookup_insert_eq. eauto. }
destruct Hmeta as (m & Hm).
assert (Hwf : well_formed_upload env ev p "user123"
                (GeneratePayload.basename image_path)
                (Base64.b64encode content) content).
{ repeat (split; [assumption|]).
  split; [apply Base64Facts.b64decode_b64encode|].
  unfold metadata_of_body. unfold dict_get in Hvm.
  destruct (p !! "metadata"); [exact Hvm|reflexivity]. }
destruct (upload_well_formed env ev st p m "user123"
            (GeneratePayload.basename image_path)
            (Base64.b64encode content) content Hwf Hm Huuid Hfault)
  as (H201 & Hblob).
split; [exact H201|]. fold up in Hblob. now rewrite Hblob.
Qed.

Lemma generated_payload_uploads_witness :
  let up := UploadImage.upload_image DemoPayload.env DemoPayload.ev
              Demo.empty in
  GeneratePayload.create_payload DemoPayload.files DemoPayload.path
    = GeneratePayload.Written
        (GeneratePayload.payload DemoPayload.path Demo.blob)
  /\ statusCode up.1 = 201
  /\ Body <$> bucket up.2 !! blob_key DemoPayload.env "user123" "pixel.PNG"
     = Some Demo.blob.
Proof.
intros up.
destruct (proj2 (generated_payload_uploads DemoPayload.files DemoPayload.path)
            Demo.blob) as (Hwritten & _ & _ & _ & Hupload).
- reflexivity.
- discriminate.
- vm_compute. intros H. discriminate H.
- reflexivity.
- apply (bool_decide_unpack _). vm_compute. exact I.
- split; [exact Hwritten|].
  apply (Hupload DemoPayload.env DemoPayload.ev Demo.empty);
    [vm_compute; reflexivity|discriminate|reflexivity].
Defined.

(** ** The response helpers *)

(** X20. The envelope of the response helpers.  The headers of a response
    are the four default headers, each overridden by a custom header of
    the same name, plus the other custom headers.  The body of an error
    response has the single member [error], holding the message and, when
    a non-empty code is given, the code; the body of a success response
    has [data], plus [message] when a non-empty message is given, and no
    [error]. *)
Theorem response_envelope (status : Z) (payload : value)
    (custom : gmap string string) (text : option string) :
  (forall k,
     headers (ResponseHelpers.create_response status payload (Some custom))
       !! k
     = match custom !! k with
       | Some v => Some v
       | None => ResponseHelpers.default_headers !! k
       end)
  /\ headers (ResponseHelpers.create_response status payload None)
     = ResponseHelpers.default_headers
  /\ (let r := ResponseHelpers.create_error_response status payload text in
      statusCode r = status
      /\ body_dict r !! "data" = None
      /\ error_code r = given text
      /\ exists e : dict,
           body r = VDict {[ "error" := VDict e ]}
           /\ e !! "message" = Some payload)
  /\ (let r := ResponseHelpers.create_success_response payload text status in
      statusCode r = status
      /\ body_dict r !! "data" = Some payload
      /\ body_dict r !! "message" = VStr <$> given text
      /\ body_dict r !! "error" = None).
Proof.
split; [|split; [reflexivity|split]].
- intros k. unfold ResponseHelpers.create_response. cbn [headers].
  case_bool_decide as Hempty.
  + subst custom. now rewrite lookup_empty.
  + rewrite lookup_union. destruct (custom !! k) as [v|].
    * now destruct (ResponseHelpers.default_headers !! k).
    * now destruct (ResponseHelpers.default_headers !! k).
- cbn zeta. unfold ResponseHelpers.create_error_response, error_code,
    body_dict, given.
  cbn [ResponseHelpers.create_response statusCode body].
  split; [reflexivity|]. split; [reflexivity|].
  rewrite lookup_singleton_eq.
  destruct text as [c|]; [destruct (String.eqb c "")|]; cbn [negb].
  + split; [reflexivity|]. eexists. split; [reflexivity|].
    apply lookup_singleton_eq.
  + split; [now rewrite lookup_insert_eq|]. eexists.
    split; [reflexivity|]. rewrite lookup_insert_ne by discriminate.
    apply lookup_singleton_eq.
  + split; [reflexivity|]. eexists. split; [reflexivity|].
    apply lookup_singleton_eq.
- cbn zeta. unfold ResponseHelpers.create_success_response, body_dict, given.
  destruct text as [m|]; [destruct (String.eqb m "")|]; cbn [negb];
    cbn [ResponseHelpers.create_response statusCode body].
  + split; [reflexivity|]. split; [apply lookup_singleton_eq|].
    split; reflexivity.
  + split; [reflexivity|].
    split; [rewrite lookup_insert_ne by discriminate;
            apply lookup_singleton_eq|].
    split; [apply lookup_insert_eq|].
    rewrite lookup_insert_ne by discriminate. reflexivity.
  + split; [reflexivity|]. split; [apply lookup_singleton_eq|].
    split; reflexivity.
Qed.
